(** * Evidence Relevance Correlation Engine (backend/s3.py)

    A shallow embedding of the audit-relevance pipeline of
    [backend/s3.py]: the JSON analysis indexes, the relational rows the
    engine reads and writes, the per-audit correlation body and the
    background tasks it starts.

    Conventions of the embedding.
    - A Python value that comes out of [json.loads] is a [pyval].
    - A finite Python [float] is its exact rational value: [0.6] is the
      double [5404319552844595 / 2^53], not the rational [3/5].  Order
      and equality of finite doubles are those of their values, so the
      comparisons of the source become [Qle_bool] and [Qeq_bool].
      NaN and the infinities are not modelled.
    - A raised exception is the outcome [Raise]; the state reached before
      the exception is kept, as in Python.
    - [threading.Thread(...).start()] appends a [task] to the world; the
      body of each task is a separate function of the world.
    - Timestamps ([analyzed_at], [last_updated], [NOW()]) and console
      output are left out; an expression evaluated only to be printed is
      kept when it can raise. *)

From Stdlib Require Import ZArith QArith String List Lia.
From stdpp Require Import base option list strings gmap pretty.

Set Warnings "-register-all,-clear-no-such-hyp".
Open Scope Z_scope.

(** ** Python values *)

Module Py.

Inductive pyval :=
| PNone
| PBool (b : bool)
| PInt (z : Z)
| PFloat (q : Q)
| PStr (s : string)
| PList (l : list pyval)
| PDict (d : list (string * pyval)).

(** A [dict] with string keys, in insertion order. *)
Definition dict := list (string * pyval).

(** Association lists stand for Python dicts: insertion order, one
    binding per key. *)
Fixpoint aget {V : Type} (k : string) (d : list (string * V)) : option V :=
  match d with
  | [] => None
  | (k', v) :: d' => if String.eqb k k' then Some v else aget k d'
  end.

(** [d[k] = v] : an existing key keeps its place, a new key goes last. *)
Fixpoint aset {V : Type} (k : string) (v : V) (d : list (string * V))
  : list (string * V) :=
  match d with
  | [] => [(k, v)]
  | (k', v') :: d' =>
      if String.eqb k k' then (k', v) :: d' else (k', v') :: aset k v d'
  end.

(** [d.get(k)] ; [None] stands for a missing key. *)
Definition dget (k : string) (d : dict) : option pyval := aget k d.

(** [d.get(k, default)] *)
Definition dget_or (k : string) (default : pyval) (d : dict) : pyval :=
  match dget k d with Some v => v | None => default end.

Definition dset (k : string) (v : pyval) (d : dict) : dict := aset k v d.

(** Truth value of a Python object ([if x], [x or y], [not x]). *)
Definition truthy (v : pyval) : bool :=
  match v with
  | PNone => false
  | PBool b => b
  | PInt z => negb (z =? 0)
  | PFloat q => negb (Qeq_bool q 0)
  | PStr s => negb (String.eqb s "")
  | PList l => match l with [] => false | _ => true end
  | PDict d => match d with [] => false | _ => true end
  end.

(** [a or b] *)
Definition py_or (a b : pyval) : pyval := if truthy a then a else b.

(** Truth value of an optional string column ([None] or [''] are falsy). *)
Definition str_truthy (s : option string) : bool :=
  match s with
  | Some s' => negb (String.eqb s' "")
  | None => false
  end.

(** [a or b] on optional strings. *)
Definition str_or (a b : option string) : option string :=
  if str_truthy a then a else b.

(** The numeric value of [bool], [int] and [float] objects. *)
Definition as_num (v : pyval) : option Q :=
  match v with
  | PBool b => Some (if b then 1%Q else 0%Q)
  | PInt z => Some (inject_Z z)
  | PFloat q => Some q
  | _ => None
  end.

(** [list], [dict] are unhashable: using one as a set member raises. *)
Definition hashable (v : pyval) : bool :=
  match v with
  | PList _ | PDict _ => false
  | _ => true
  end.

(** [a == b] on hashable values: numbers compare by value, whatever their
    type ([5 == 5.0], [True == 1]). *)
Definition py_eq (a b : pyval) : bool :=
  match as_num a, as_num b with
  | Some x, Some y => Qeq_bool x y
  | _, _ =>
      match a, b with
      | PNone, PNone => true
      | PStr s, PStr t => String.eqb s t
      | _, _ => false
      end
  end.

(** [x in s] for a set [s] : [None] is the [TypeError: unhashable type]. *)
Definition py_in_set (x : pyval) (s : list pyval) : option bool :=
  if hashable x then Some (existsb (py_eq x) s) else None.

(** [x >= t] against a float literal: [None] is the [TypeError] of an
    unordered comparison. *)
Definition py_ge_float (x : pyval) (t : Q) : option bool :=
  match as_num x with
  | Some q => Some (Qle_bool t q)
  | None => None
  end.

Section Conversions.
(** [float(s)] and [int(s)] on a [str]; [None] is [ValueError]. *)
Variable str_to_float : string -> option Q.
Variable str_to_int : string -> option Z.

(** [float(x)] ; [None] is [TypeError] or [ValueError]. *)
Definition py_float (x : pyval) : option Q :=
  match x with
  | PStr s => str_to_float s
  | _ => as_num x
  end.

(** Truncation toward zero, as [int(float)] does. *)
Definition Qtrunc (q : Q) : Z := Z.quot (Qnum q) (Zpos (Qden q)).

(** [int(x)] ; [None] is [TypeError] or [ValueError]. *)
Definition py_int (x : pyval) : option Z :=
  match x with
  | PBool b => Some (if b then 1 else 0)
  | PInt z => Some z
  | PFloat q => Some (Qtrunc q)
  | PStr s => str_to_int s
  | _ => None
  end.
End Conversions.

(** [max(xs)] / [max(xs, key=...)] : the first maximal element. *)
Fixpoint max_by {A : Type} (key : A -> Q) (best : A) (xs : list A) : A :=
  match xs with
  | [] => best
  | x :: xs' =>
      if Qle_bool (key x) (key best) then max_by key best xs'
      else max_by key x xs'
  end.

Definition py_max_by {A : Type} (key : A -> Q) (xs : list A) : option A :=
  match xs with
  | [] => None
  | x :: xs' => Some (max_by key x xs')
  end.

End Py.
Import Py.

(** The doubles the source writes as literals. *)
Definition f0_6 : Q := 5404319552844595 # 9007199254740992.
Definition f0_8 : Q := 3602879701896397 # 4503599627370496.

(** ** Relational store

    Only the columns the engine reads or writes are kept.  A nullable
    column is an [option]; SQL comparisons with [NULL] are never true.
    Texts are compared character by character (a binary collation). *)

(** [a = b] in a [WHERE] clause. *)
Definition sql_eq_str (col : option string) (v : string) : bool :=
  match col with Some s => String.eqb s v | None => false end.

(** [a != b] in a [WHERE] clause: not true when the column is [NULL]. *)
Definition sql_ne_str (col : option string) (v : string) : bool :=
  match col with Some s => negb (String.eqb s v) | None => false end.

Definition sql_eq_Z (col : option Z) (v : Z) : bool :=
  match col with Some z => z =? v | None => false end.

Record audit_row := {
  AuditId : Z;
  a_FrameworkId : option Z;
  a_Status : option string;
  a_Title : option string;
}.

Record policy_row := { PolicyId : Z; p_FrameworkId : option Z }.
Record subpolicy_row := { SubPolicyId : Z; sp_PolicyId : option Z }.
Record compliance_row := { ComplianceId : Z; c_SubPolicyId : option Z }.

(** The [metadata] column of [file_operations]: [NULL], or a text on
    which [json.loads] succeeds or raises. *)
Inductive metadata_col := MetaNull | MetaText (json_ok : bool).

Record file_op := {
  fo_id : Z;
  fo_operation_type : string;
  fo_FrameworkId : option Z;
  fo_status : option string;
  fo_file_name : option string;
  fo_original_name : option string;
  fo_s3_url : option string;
  fo_s3_key : option string;
  fo_stored_name : option string;
  fo_file_size : option Z;
  fo_file_type : option string;
  fo_content_type : option string;
  fo_user_id : option Z;
  fo_summary : option string;
  fo_metadata : metadata_col;
}.

(** A row of [ai_audit_data]: the engine's evidence record. *)
Record ai_audit_row := {
  ai_id : Z;
  ai_audit_id : Z;
  ai_document_id : Z;
  ai_document_name : string;
  ai_document_path : string;
  ai_document_type : option string;
  ai_file_size : Z;
  ai_mime_type : string;
  ai_uploaded_by : option Z;
  ai_processing_status : option string;
  ai_policy_id : option Z;
  ai_subpolicy_id : option Z;
  ai_external_source : option string;
  ai_external_id : option string;
  ai_FrameworkId : option Z;
  ai_compliance_id : option Z;
  ai_compliance_analyses : option pyval;
}.

(** A row of [lastchecklistitemverified]. *)
Record checklist_row := {
  cl_ComplianceId : Z;
  cl_SubPolicyId : Z;
  cl_PolicyId : Z;
  cl_FrameworkId : Z;
  cl_Complied : string;
  cl_Comments : string;
  cl_Count : option Z;
}.

(** A row of [document_audit_relevance]. *)
Record relevance_row := {
  dr_file_operation_id : Z;
  dr_audit_id : Z;
  dr_s3_key : option string;
  dr_stored_name : option string;
  dr_relevance_score : Q;
  dr_relevance_reason : string;
  dr_matched_compliances : pyval;
}.

(** ** Analysis indexes (the JSON files) *)

(** An entry of [documents_analysis.json], as [_update_json_index_document]
    writes it. *)
Record doc_entry := {
  de_operation_id : Z;
  de_s3_key : option string;
  de_stored_name : option string;
  de_relevance_score : pyval;
  de_relevance_reason : pyval;
  de_matched_policies : pyval;
  de_matched_subpolicies : pyval;
  de_matched_compliances : pyval;
}.

(** An entry of [database_analysis.json], as [_update_json_index_database]
    writes it. *)
Record rec_entry := {
  re_table_name : string;
  re_record_id : Z;
  re_relevance_score : pyval;
  re_relevance_reason : pyval;
  re_matched_policies : pyval;
  re_matched_subpolicies : pyval;
  re_matched_compliances : pyval;
}.

Record docs_index := {
  di_framework_id : option Z;
  di_audit_id : option Z;
  documents : list doc_entry;
}.

Record db_index := {
  bi_framework_id : option Z;
  bi_audit_id : option Z;
  database_data : list (string * list rec_entry);
}.

(** ** Background threads *)

Inductive task :=
| TriggerProcessing (audit_id : Z)
    (* [trigger_processing] of [_save_json_index] *)
| AutoProcess (operation_id : Z) (audit_id : Z) (relevance_result : dict)
    (* [_auto_process_relevant_document] *)
| ComplianceCheck (document_id audit_id : Z) (user_id compliance_id : option Z)
    (* [trigger_compliance_check] *)
| Notification (audit_id : Z) (doc_count : nat) (user_id : Z).
    (* [send_audit_completion_notification] *)

(** ** The world the engine runs in *)

(** What the engine only reads. [evidence_rows fw] is the result of
    [_get_all_database_data(fw)]: the rows of the seven evidence tables of
    framework [fw], each row a [dict] from column name to value.
    [media_root_setting] tells whether [settings.MEDIA_ROOT] of Django
    can be had: auto-processing reads the documents index through it. *)
Record store := {
  db_pool : bool;
  media_root_setting : bool;
  audit : list audit_row;
  policies : list policy_row;
  subpolicies : list subpolicy_row;
  compliance : list compliance_row;
  file_operations : list file_op;
  evidence_rows : Z -> list (string * list dict);
}.

Record World := {
  static : store;
  ai_audit_data : list ai_audit_row;
  next_ai_id : Z;                               (* AUTO_INCREMENT *)
  lastchecklistitemverified : list checklist_row;
  document_audit_relevance : list relevance_row;
  docs_files : gmap (Z * Z) docs_index;         (* (framework, audit) *)
  db_files : gmap (Z * Z) db_index;
  ollama_calls : nat;
  threads : list task;
}.

Definition set_ai_audit_data (rows : list ai_audit_row) (w : World) : World :=
  {| static := static w; ai_audit_data := rows; next_ai_id := next_ai_id w;
     lastchecklistitemverified := lastchecklistitemverified w;
     document_audit_relevance := document_audit_relevance w;
     docs_files := docs_files w; db_files := db_files w;
     ollama_calls := ollama_calls w; threads := threads w |}.

Definition set_next_ai_id (n : Z) (w : World) : World :=
  {| static := static w; ai_audit_data := ai_audit_data w; next_ai_id := n;
     lastchecklistitemverified := lastchecklistitemverified w;
     document_audit_relevance := document_audit_relevance w;
     docs_files := docs_files w; db_files := db_files w;
     ollama_calls := ollama_calls w; threads := threads w |}.

Definition set_checklist (rows : list checklist_row) (w : World) : World :=
  {| static := static w; ai_audit_data := ai_audit_data w;
     next_ai_id := next_ai_id w;
     lastchecklistitemverified := rows;
     document_audit_relevance := document_audit_relevance w;
     docs_files := docs_files w; db_files := db_files w;
     ollama_calls := ollama_calls w; threads := threads w |}.

Definition set_relevance (rows : list relevance_row) (w : World) : World :=
  {| static := static w; ai_audit_data := ai_audit_data w;
     next_ai_id := next_ai_id w;
     lastchecklistitemverified := lastchecklistitemverified w;
     document_audit_relevance := rows;
     docs_files := docs_files w; db_files := db_files w;
     ollama_calls := ollama_calls w; threads := threads w |}.

Definition set_docs_files (fs : gmap (Z * Z) docs_index) (w : World) : World :=
  {| static := static w; ai_audit_data := ai_audit_data w;
     next_ai_id := next_ai_id w;
     lastchecklistitemverified := lastchecklistitemverified w;
     document_audit_relevance := document_audit_relevance w;
     docs_files := fs; db_files := db_files w;
     ollama_calls := ollama_calls w; threads := threads w |}.

Definition set_db_files (fs : gmap (Z * Z) db_index) (w : World) : World :=
  {| static := static w; ai_audit_data := ai_audit_data w;
     next_ai_id := next_ai_id w;
     lastchecklistitemverified := lastchecklistitemverified w;
     document_audit_relevance := document_audit_relevance w;
     docs_files := docs_files w; db_files := fs;
     ollama_calls := ollama_calls w; threads := threads w |}.

Definition set_ollama_calls (n : nat) (w : World) : World :=
  {| static := static w; ai_audit_data := ai_audit_data w;
     next_ai_id := next_ai_id w;
     lastchecklistitemverified := lastchecklistitemverified w;
     document_audit_relevance := document_audit_relevance w;
     docs_files := docs_files w; db_files := db_files w;
     ollama_calls := n; threads := threads w |}.

Definition set_threads (ts : list task) (w : World) : World :=
  {| static := static w; ai_audit_data := ai_audit_data w;
     next_ai_id := next_ai_id w;
     lastchecklistitemverified := lastchecklistitemverified w;
     document_audit_relevance := document_audit_relevance w;
     docs_files := docs_files w; db_files := db_files w;
     ollama_calls := ollama_calls w; threads := ts |}.

(** [threading.Thread(target=...).start()] *)
Definition start_thread (t : task) (w : World) : World :=
  set_threads (threads w ++ [t]) w.

(** ** Outcomes: a value, or a raised exception *)

Inductive outcome (A : Type) :=
| Ok (a : A)
| Raise.
Arguments Ok {A} a.
Arguments Raise {A}.

Definition M (A : Type) : Type := World -> outcome A * World.

Definition ret {A} (a : A) : M A := fun w => (Ok a, w).
Definition raise {A} : M A := fun w => (Raise, w).
Definition bind {A B} (m : M A) (k : A -> M B) : M B :=
  fun w => match m w with
           | (Ok a, w') => k a w'
           | (Raise, w') => (Raise, w')
           end.
Definition modify (f : World -> World) : M unit := fun w => (Ok tt, f w).
Definition gets {A} (f : World -> A) : M A := fun w => (Ok (f w), w).

(** [try: m  except Exception: pass] *)
Definition try_pass (m : M unit) : M unit :=
  fun w => match m w with
           | (Raise, w') => (Ok tt, w')
           | r => r
           end.

Notation "x <- m ;; k" := (bind m (fun x => k))
  (at level 100, m at next level, right associativity).
Notation "m ;;; k" := (bind m (fun _ => k))
  (at level 100, right associativity).

(** [for x in xs: body(x)] ; an exception leaves the loop. *)
Fixpoint for_each {A} (xs : list A) (body : A -> M unit) : M unit :=
  match xs with
  | [] => ret tt
  | x :: xs' => body x ;;; for_each xs' body
  end.

(** ** Enumerating the audits to correlate *)

(** [_get_active_ai_audits] :
    [WHERE a.FrameworkId = %s AND (a.Status != 'Completed' OR a.Status IS NULL)
       AND a.AuditId = 426]. *)
Definition active_audit_where (framework_id : Z) (a : audit_row) : bool :=
  sql_eq_Z (a_FrameworkId a) framework_id
  && (sql_ne_str (a_Status a) "Completed"
      || match a_Status a with None => true | Some _ => false end)
  && (AuditId a =? 426).

Definition _get_active_ai_audits (framework_id : Z) (w : World) : list audit_row :=
  if negb (db_pool (static w)) then []
  else List.filter (active_audit_where framework_id) (audit (static w)).

(** ** The analysis index store *)

Definition empty_docs_index : docs_index :=
  {| di_framework_id := None; di_audit_id := None; documents := [] |}.

Definition empty_db_index : db_index :=
  {| bi_framework_id := None; bi_audit_id := None; database_data := [] |}.

(** [_load_json_index] on the path [_get_json_index_path] builds for
    [(framework_id, audit_id, "documents")] : the stored file, or the
    empty index when there is none. *)
Definition _load_json_index_documents (framework_id audit_id : Z) (w : World)
  : docs_index :=
  default empty_docs_index (docs_files w !! (framework_id, audit_id)).

(** The same for [(framework_id, audit_id, "database")]. *)
Definition _load_json_index_database (framework_id audit_id : Z) (w : World)
  : db_index :=
  default empty_db_index (db_files w !! (framework_id, audit_id)).

Definition id_truthy (o : option Z) : bool :=
  match o with Some z => negb (z =? 0) | None => false end.

(** The [WHERE] clause of the re-processing trigger:
    [audit_id = %s AND (external_source != 'database_record'
       AND document_type != 'db_record') AND ai_processing_status != 'failed'] *)
Definition trigger_where (audit_id : Z) (r : ai_audit_row) : bool :=
  (ai_audit_id r =? audit_id)
  && (sql_ne_str (ai_external_source r) "database_record"
      && sql_ne_str (ai_document_type r) "db_record")
  && sql_ne_str (ai_processing_status r) "failed".

Definition with_processing_status (s : option string) (r : ai_audit_row)
  : ai_audit_row :=
  {| ai_id := ai_id r; ai_audit_id := ai_audit_id r;
     ai_document_id := ai_document_id r;
     ai_document_name := ai_document_name r;
     ai_document_path := ai_document_path r;
     ai_document_type := ai_document_type r;
     ai_file_size := ai_file_size r; ai_mime_type := ai_mime_type r;
     ai_uploaded_by := ai_uploaded_by r;
     ai_processing_status := s;
     ai_policy_id := ai_policy_id r; ai_subpolicy_id := ai_subpolicy_id r;
     ai_external_source := ai_external_source r;
     ai_external_id := ai_external_id r;
     ai_FrameworkId := ai_FrameworkId r;
     ai_compliance_id := ai_compliance_id r;
     ai_compliance_analyses := ai_compliance_analyses r |}.

(** Body of the thread [_save_json_index] starts: [trigger_processing].
    The statement also stamps [updated_at = NOW()] on the rows it
    selects; time stamps are not columns of the model. *)
Definition trigger_processing (audit_id : Z) (w : World) : World :=
  if db_pool (static w) then
    set_ai_audit_data
      (map (fun r => if trigger_where audit_id r
                     then with_processing_status (Some "pending") r else r)
           (ai_audit_data w)) w
  else w.

(** [_save_json_index] for the documents index: write the file, then
    start the re-processing thread when [audit_id] and [framework_id] are
    both truthy. *)
Definition _save_json_index_documents (path : Z * Z) (data : docs_index)
  (w : World) : World :=
  let w1 := set_docs_files (<[path := data]> (docs_files w)) w in
  match di_audit_id data with
  | Some a =>
      if id_truthy (di_audit_id data) && id_truthy (di_framework_id data)
      then start_thread (TriggerProcessing a) w1 else w1
  | None => w1
  end.

Definition _save_json_index_database (path : Z * Z) (data : db_index)
  (w : World) : World :=
  let w1 := set_db_files (<[path := data]> (db_files w)) w in
  match bi_audit_id data with
  | Some a =>
      if id_truthy (bi_audit_id data) && id_truthy (bi_framework_id data)
      then start_thread (TriggerProcessing a) w1 else w1
  | None => w1
  end.

(** [d.get("s3_key") == doc_s3_key] : equality of optional strings
    ([None == None] holds). *)
Definition opt_str_eqb (a b : option string) : bool :=
  match a, b with
  | Some x, Some y => String.eqb x y
  | None, None => true
  | _, _ => false
  end.

(** [next((i for i, d in enumerate(xs) if p(d)), None)] *)
Definition find_index {A} (p : A -> bool) (xs : list A) : option nat :=
  fst <$> list_find (fun x => p x = true) xs.

(** The entry [_update_json_index_document] builds. *)
Definition make_doc_entry (operation_id : Z) (analysis_result : dict)
  (doc_s3_key doc_stored_name : option string) : doc_entry :=
  {| de_operation_id := operation_id;
     de_s3_key := doc_s3_key;
     de_stored_name := doc_stored_name;
     de_relevance_score := dget_or "relevance_score" (PInt 0) analysis_result;
     de_relevance_reason := dget_or "relevance_reason" (PStr "") analysis_result;
     de_matched_policies := dget_or "matched_policies" (PList []) analysis_result;
     de_matched_subpolicies :=
       dget_or "matched_subpolicies" (PList []) analysis_result;
     de_matched_compliances :=
       dget_or "matched_compliances" (PList []) analysis_result |}.

(** Position of the entry to overwrite: by [s3_key] or [stored_name] when
    the document has a file key, else (or when that finds nothing) by
    [operation_id]. *)
Definition doc_index_of (docs : list doc_entry) (operation_id : Z)
  (doc_s3_key doc_stored_name : option string) : option nat :=
  let file_key := str_or doc_s3_key doc_stored_name in
  let by_key :=
    if str_truthy file_key then
      find_index (fun d => opt_str_eqb (de_s3_key d) doc_s3_key
                           || opt_str_eqb (de_stored_name d) doc_stored_name)
                 docs
    else None in
  match by_key with
  | Some i => Some i
  | None => find_index (fun d => de_operation_id d =? operation_id) docs
  end.

(** The [documents] list after the upsert of one entry. *)
Definition upsert_document (docs : list doc_entry) (operation_id : Z)
  (analysis_result : dict) (doc_s3_key doc_stored_name : option string)
  : list doc_entry :=
  let doc_entry := make_doc_entry operation_id analysis_result
                     doc_s3_key doc_stored_name in
  match doc_index_of docs operation_id doc_s3_key doc_stored_name with
  | Some i => <[i := doc_entry]> docs
  | None => docs ++ [doc_entry]
  end.

Definition _update_json_index_document (framework_id audit_id operation_id : Z)
  (analysis_result : dict) (doc_s3_key doc_stored_name : option string)
  (w : World) : World :=
  let data := _load_json_index_documents framework_id audit_id w in
  let data' :=
    {| di_framework_id := Some framework_id;
       di_audit_id := Some audit_id;
       documents := upsert_document (documents data) operation_id
                      analysis_result doc_s3_key doc_stored_name |} in
  _save_json_index_documents (framework_id, audit_id) data' w.

Definition make_rec_entry (table_name : string) (record_id : Z)
  (analysis_result : dict) : rec_entry :=
  {| re_table_name := table_name;
     re_record_id := record_id;
     re_relevance_score := dget_or "relevance_score" (PInt 0) analysis_result;
     re_relevance_reason := dget_or "relevance_reason" (PStr "") analysis_result;
     re_matched_policies := dget_or "matched_policies" (PList []) analysis_result;
     re_matched_subpolicies :=
       dget_or "matched_subpolicies" (PList []) analysis_result;
     re_matched_compliances :=
       dget_or "matched_compliances" (PList []) analysis_result |}.

(** The list of one table after the upsert of one record entry. *)
Definition upsert_record (entries : list rec_entry) (table_name : string)
  (record_id : Z) (analysis_result : dict) : list rec_entry :=
  let record_entry := make_rec_entry table_name record_id analysis_result in
  match find_index (fun r => re_record_id r =? record_id) entries with
  | Some i => <[i := record_entry]> entries
  | None => entries ++ [record_entry]
  end.

Definition _update_json_index_database (framework_id audit_id : Z)
  (table_name : string) (record_id : Z) (analysis_result : dict)
  (w : World) : World :=
  let data := _load_json_index_database framework_id audit_id w in
  let entries := default [] (aget table_name (database_data data)) in
  let data' :=
    {| bi_framework_id := Some framework_id;
       bi_audit_id := Some audit_id;
       database_data :=
         aset table_name (upsert_record entries table_name record_id
                            analysis_result)
              (database_data data) |} in
  _save_json_index_database (framework_id, audit_id) data' w.

(** ** Audit context *)

(** What [_get_audit_details] returns, reduced to the keys the engine
    reads afterwards; the empty dict [{}] is [no_audit_details]. *)
Record audit_details := {
  ad_framework_id : option Z;
  ad_policies : list Z;       (* 'policy_id' of each entry *)
  ad_subpolicies : list Z;    (* 'subpolicy_id' of each entry *)
  ad_compliances : list Z;    (* 'compliance_id' of each entry *)
}.

Definition no_audit_details : audit_details :=
  {| ad_framework_id := None; ad_policies := []; ad_subpolicies := [];
     ad_compliances := [] |}.

(** [SELECT PolicyId FROM policies WHERE FrameworkId = %s] *)
Definition framework_policies (fw : option Z) (s : store) : list Z :=
  match fw with
  | None => []
  | Some f =>
      map PolicyId (List.filter (fun p => sql_eq_Z (p_FrameworkId p) f) (policies s))
  end.

(** [subpolicies sp JOIN policies p ON sp.PolicyId = p.PolicyId
     WHERE p.FrameworkId = %s] *)
Definition framework_subpolicy_rows (fw : option Z) (s : store)
  : list subpolicy_row :=
  match fw with
  | None => []
  | Some f =>
      flat_map (fun sp =>
        flat_map (fun p =>
          if sql_eq_Z (sp_PolicyId sp) (PolicyId p)
             && sql_eq_Z (p_FrameworkId p) f
          then [sp] else []) (policies s)) (subpolicies s)
  end.

(** [compliance c JOIN subpolicies sp ON c.SubPolicyId = sp.SubPolicyId
     JOIN policies p ON sp.PolicyId = p.PolicyId WHERE p.FrameworkId = %s] *)
Definition framework_compliances (fw : option Z) (s : store) : list Z :=
  flat_map (fun c =>
    flat_map (fun sp =>
      if sql_eq_Z (c_SubPolicyId c) (SubPolicyId sp)
      then [ComplianceId c] else []) (framework_subpolicy_rows fw s))
    (compliance s).

Definition _get_audit_details (audit_id : Z) (w : World) : audit_details :=
  if negb (db_pool (static w)) then no_audit_details
  else
    match List.find (fun a => AuditId a =? audit_id) (audit (static w)) with
    | None => no_audit_details
    | Some audit_info =>
        let framework_id := a_FrameworkId audit_info in
        {| ad_framework_id := framework_id;
           ad_policies := framework_policies framework_id (static w);
           ad_subpolicies :=
             map SubPolicyId (framework_subpolicy_rows framework_id (static w));
           ad_compliances := framework_compliances framework_id (static w) |}
    end.

(** ** The reasoning service and the conversions of strings

    [ollama n] is what the [n]-th call of the reasoning service yields
    once its text went through the three parsing stages (fenced block,
    bare object, key/value extraction): the parsed object, or [None] when
    the call or every stage failed.  Nothing is assumed about it; an
    empty object, which the stages cannot produce, counts as no verdict,
    as the truth tests of the source would have it. *)
Record env := {
  ollama : nat -> option dict;
  str_to_float : string -> option Q;   (* float(s) *)
  str_to_int : string -> option Z;     (* int(s) *)
  sql_str_to_int : string -> option Z; (* a text parameter compared with an
                                          INT column, as the server converts it *)
}.

Section Engine.
Variable E : env.

(** One call of [_call_ollama] followed by the parsing stages. *)
Definition call_ollama : M (option dict) :=
  fun w => (Ok (ollama E (ollama_calls w)),
            set_ollama_calls (S (ollama_calls w)) w).

(** ** Relevance of a document *)

(** [p.get('policy_id') or p.get('PolicyId')] : the second key is absent
    from the entries [_get_audit_details] builds. *)
Definition id_or_none (id : Z) : pyval := py_or (PInt id) PNone.

(** [[x for x in matched if x in ids]] ; [None] is the [TypeError] of an
    unhashable element. *)
Fixpoint filter_ids (matched ids : list pyval) : option (list pyval) :=
  match matched with
  | [] => Some []
  | x :: rest =>
      match py_in_set x ids, filter_ids rest ids with
      | Some b, Some rest' => Some (if b then x :: rest' else rest')
      | _, _ => None
      end
  end.

(** The id filtering at the end of [_analyze_document_audit_relevance];
    [None] is an exception, which the function turns into [None]. *)
Definition filter_matched_ids (audit_details : audit_details)
  (result_json : dict) : option dict :=
  let framework_policy_ids := map id_or_none (ad_policies audit_details) in
  let framework_subpolicy_ids := map id_or_none (ad_subpolicies audit_details) in
  let framework_compliance_ids := map id_or_none (ad_compliances audit_details) in
  r1 ← match dget_or "matched_policies" (PList []) result_json with
       | PList l =>
           l' ← filter_ids l framework_policy_ids;
           Some (dset "matched_policies" (PList l') result_json)
       | _ => Some result_json
       end;
  r2 ← match dget_or "matched_subpolicies" (PList []) r1 with
       | PList l =>
           l' ← filter_ids l framework_subpolicy_ids;
           Some (dset "matched_subpolicies" (PList l') r1)
       | _ => Some r1
       end;
  let matched_compliances :=
    let m := dget_or "matched_compliances" (PList []) r2 in
    if truthy m then m else PList [] in
  match matched_compliances with
  | PList l =>
      l' ← filter_ids l framework_compliance_ids;
      Some (dset "matched_compliances" (PList l') r2)
  | _ => Some (dset "matched_compliances" (PList []) r2)
  end.

(** [_analyze_document_audit_relevance] : slicing a [None] summary raises
    before the call; every exception inside is caught and gives [None]. *)
Definition _analyze_document_audit_relevance (summary : option string)
  (audit_details : audit_details) : M (option dict) :=
  match summary with
  | None => ret None
  | Some _ =>
      result_json <- call_ollama ;;
      match result_json with
      | None => ret None
      | Some [] => ret None
      | Some result_json => ret (filter_matched_ids audit_details result_json)
      end
  end.

(** ** Relevance of database records *)

Definition pk_fields : list (string * string) :=
  [("policies", "PolicyId"); ("subpolicies", "SubPolicyId");
   ("compliances", "ComplianceId"); ("audit_findings", "AuditFindingsId");
   ("incidents", "IncidentId"); ("risks", "RiskId"); ("events", "EventId")]%string.

Definition _get_db_record_id (table_name : string) (record : dict) : option Z :=
  let rid :=
    match aget table_name pk_fields with
    | Some col => dget col record
    | None => dget "id" record
    end in
  match rid with
  | None | Some PNone => None
  | Some v => py_int (str_to_int E) v
  end.

(** One verdict of [_analyze_database_data_relevance] : the parsed object
    with ["record_id"] set. *)
Record rec_analysis := {
  ra_record_id : Z;
  ra_analysis : dict;
}.

Definition empty_results : list (string * list rec_analysis) :=
  map (fun t => (fst t, [])) pk_fields.

(** The body of the [try] for one record: one call, then the score and
    the reason preview, which raise on values [float()] refuses and on a
    reason without [.replace]; [results[table_name]] raises [KeyError] on a
    table outside the seven. *)
Definition analyze_record (table_name : string) (record : dict)
  (results : list (string * list rec_analysis))
  : M (list (string * list rec_analysis)) :=
  result <- call_ollama ;;
  match result with
  | None => ret results
  | Some [] => ret results
  | Some analysis =>
      let record_id := _get_db_record_id table_name record in
      let rid := default 0 record_id in
      let analysis := dset "record_id" (PInt rid) analysis in
      match py_float (str_to_float E)
              (py_or (dget_or "relevance_score" (PFloat 0) analysis) (PFloat 0)) with
      | None => raise
      | Some score =>
          match py_or (dget_or "relevance_reason" PNone analysis) (PStr "") with
          | PStr _ =>
              match aget table_name results with
              | None => raise
              | Some l =>
                  ret (aset table_name
                         (l ++ [{| ra_record_id := rid; ra_analysis := analysis |}])
                         results)
              end
          | _ => raise
          end
      end
  end.

(** [for record in records[:50]] with the accumulator threaded. *)
Fixpoint analyze_records (table_name : string) (records : list dict)
  (results : list (string * list rec_analysis))
  : M (list (string * list rec_analysis)) :=
  match records with
  | [] => ret results
  | record :: rest =>
      results' <- analyze_record table_name record results ;;
      analyze_records table_name rest results'
  end.

Fixpoint analyze_tables (database_data : list (string * list dict))
  (results : list (string * list rec_analysis))
  : M (list (string * list rec_analysis)) :=
  match database_data with
  | [] => ret results
  | (table_name, records) :: rest =>
      results' <- analyze_records table_name (take 50 records) results ;;
      analyze_tables rest results'
  end.

(** [_analyze_database_data_relevance] : the exception of one record is
    printed and re-raised. *)
Definition _analyze_database_data_relevance
  (database_data : list (string * list dict))
  : M (list (string * list rec_analysis)) :=
  analyze_tables database_data empty_results.

(** ** Storing the relevance of a document *)

(** [s[:n]] *)
Definition str_take (n : nat) (s : string) : string := String.substring 0 n s.

(** [s[-n:]] *)
Definition str_last (n : nat) (s : string) : string :=
  String.substring (String.length s - n) n s.

(** The other completed upload of the same file, newest first
    ([ORDER BY created_at DESC LIMIT 1] : the table is kept in that order). *)
Definition other_operation (file_s3_key file_stored_name : option string)
  (operation_id : Z) (s : store) : option file_op :=
  match file_s3_key, file_stored_name with
  | Some k, _ =>
      if str_truthy file_s3_key then
        List.find (fun f => (sql_eq_str (fo_s3_key f) k
                             || sql_eq_str (fo_stored_name f) k)
                            && negb (fo_id f =? operation_id)
                            && sql_eq_str (fo_status f) "completed")
                  (file_operations s)
      else
        match file_stored_name with
        | Some n =>
            List.find (fun f => sql_eq_str (fo_stored_name f) n
                                && negb (fo_id f =? operation_id)
                                && sql_eq_str (fo_status f) "completed")
                      (file_operations s)
        | None => None
        end
  | None, Some n =>
      List.find (fun f => sql_eq_str (fo_stored_name f) n
                          && negb (fo_id f =? operation_id)
                          && sql_eq_str (fo_status f) "completed")
                (file_operations s)
  | None, None => None
  end.

Definition relevance_key (file_operation_id audit_id : Z) (r : relevance_row)
  : bool :=
  (dr_file_operation_id r =? file_operation_id) && (dr_audit_id r =? audit_id).

(** [_store_audit_relevance] : upsert the [document_audit_relevance] row,
    then start the auto-processing thread.  Building the parameters
    raises when [float()] refuses the score or the reason is not a text;
    the exception is caught and nothing is started.
    [INSERT ... ON DUPLICATE KEY UPDATE] is read with the unique key
    [(file_operation_id, audit_id)]; SQL statements themselves succeed. *)
Definition _store_audit_relevance (operation_id audit_id : Z)
  (relevance_result : dict) (doc_s3_key doc_stored_name : option string)
  (w : World) : World :=
  if negb (db_pool (static w)) then w
  else
    let result :=
      List.find (fun f => fo_id f =? operation_id) (file_operations (static w)) in
    let s3_key_from_db := result ≫= fo_s3_key in
    let stored_name_from_db := result ≫= fo_stored_name in
    let file_s3_key := str_or doc_s3_key s3_key_from_db in
    let file_stored_name := str_or doc_stored_name stored_name_from_db in
    let existing_relevance_id : option Z :=
      if str_truthy file_s3_key || str_truthy file_stored_name then
        match other_operation file_s3_key file_stored_name operation_id
                (static w) with
        | Some other =>
            if existsb (relevance_key (fo_id other) audit_id)
                 (document_audit_relevance w)
            then Some (fo_id other) else None
        | None => None
        end
      else None in
    match py_float (str_to_float E)
            (dget_or "relevance_score" (PInt 0) relevance_result),
          dget_or "relevance_reason" (PStr "") relevance_result with
    | Some score, PStr reason =>
        let row :=
          {| dr_file_operation_id := operation_id;
             dr_audit_id := audit_id;
             dr_s3_key := file_s3_key;
             dr_stored_name := file_stored_name;
             dr_relevance_score := score;
             dr_relevance_reason := str_take 1000 reason;
             dr_matched_compliances :=
               dget_or "matched_compliances" (PList []) relevance_result |} in
        let rows := document_audit_relevance w in
        let rows' :=
          match existing_relevance_id with
          | Some ex =>
              if negb (ex =? 0) then
                map (fun r => if relevance_key ex audit_id r then row else r) rows
              else if existsb (relevance_key operation_id audit_id) rows then
                map (fun r => if relevance_key operation_id audit_id r
                              then row else r) rows
              else rows ++ [row]
          | None =>
              if existsb (relevance_key operation_id audit_id) rows then
                map (fun r => if relevance_key operation_id audit_id r
                              then row else r) rows
              else rows ++ [row]
          end in
        start_thread (AutoProcess operation_id audit_id relevance_result)
          (set_relevance rows' w)
    | _, _ => w
    end.

(** ** Evidence records from database verdicts *)

(** [for x in v] ; [None] is the [TypeError] of a non-iterable. *)
Definition py_iter (v : pyval) : option (list pyval) :=
  match v with
  | PList l => Some l
  | PStr s =>
      Some (map (fun c => PStr (String c EmptyString)) (list_ascii_of_string s))
  | PDict d => Some (map (fun kv => PStr (fst kv)) d)
  | _ => None
  end.

Fixpoint extract_from_keys (keys : list string) (d : dict) : option Z :=
  match keys with
  | [] => None
  | key :: keys' =>
      match dget key d with
      | None | Some PNone => extract_from_keys keys' d
      | Some v =>
          match py_int (str_to_int E) v with
          | Some z => Some z
          | None => extract_from_keys keys' d
          end
      end
  end.

(** [_extract_compliance_id] ([bool] is an [int] for [isinstance]). *)
Definition _extract_compliance_id (raw_val : pyval) : option Z :=
  match raw_val with
  | PBool b => Some (if b then 1 else 0)
  | PInt z => Some z
  | PStr s => str_to_int E s
  | PDict d => extract_from_keys ["ComplianceId"; "compliance_id"; "id"]%string d
  | _ => None
  end.

(** [for mc in matched_compliances: comp_id = ...; if comp_id: break] :
    the first truthy id; without one [comp_id] ends falsy. *)
Fixpoint first_compliance_id (mcs : list pyval) : option Z :=
  match mcs with
  | [] => None
  | mc :: rest =>
      if id_truthy (_extract_compliance_id mc) then _extract_compliance_id mc
      else first_compliance_id rest
  end.

(** [SELECT c.ComplianceId, c.SubPolicyId, sp.PolicyId FROM compliance c
     LEFT JOIN subpolicies sp ON c.SubPolicyId = sp.SubPolicyId
     WHERE c.ComplianceId = %s] then [fetchone()]. *)
Definition compliance_mapping (comp_id : Z) (s : store)
  : option (Z * option Z * option Z) :=
  match List.find (fun c => ComplianceId c =? comp_id) (compliance s) with
  | None => None
  | Some c =>
      let policy :=
        match c_SubPolicyId c with
        | None => None
        | Some sid =>
            List.find (fun sp => SubPolicyId sp =? sid) (subpolicies s)
              ≫= sp_PolicyId
        end in
      Some (ComplianceId c, c_SubPolicyId c, policy)
  end.

(** [f"{table_name}:{record_id}"] *)
Definition db_external_id (table_name : string) (record_id : Z) : string :=
  (table_name ++ ":" ++ pretty record_id)%string.

Definition is_db_evidence_for (audit_id : Z) (external_id : string)
  (r : ai_audit_row) : bool :=
  (ai_audit_id r =? audit_id)
  && sql_eq_str (ai_external_source r) "database_record"
  && sql_eq_str (ai_external_id r) external_id.

(** The in-place update of an existing database evidence row. *)
Definition backfill_row (primary_policy_id primary_subpolicy_id : option Z)
  (doc_name : string) (analysis_json : pyval) (existing r : ai_audit_row)
  : ai_audit_row :=
  let remap :=
    negb (id_truthy (ai_policy_id existing))
    || negb (id_truthy (ai_subpolicy_id existing)) in
  {| ai_id := ai_id r; ai_audit_id := ai_audit_id r;
     ai_document_id := ai_document_id r;
     ai_document_name := doc_name;
     ai_document_path := ai_document_path r;
     ai_document_type := ai_document_type r;
     ai_file_size := ai_file_size r; ai_mime_type := ai_mime_type r;
     ai_uploaded_by := ai_uploaded_by r;
     ai_processing_status := ai_processing_status r;
     ai_policy_id := if remap then primary_policy_id else ai_policy_id r;
     ai_subpolicy_id :=
       if remap then primary_subpolicy_id else ai_subpolicy_id r;
     ai_external_source := ai_external_source r;
     ai_external_id := ai_external_id r;
     ai_FrameworkId := ai_FrameworkId r;
     ai_compliance_id := ai_compliance_id r;
     ai_compliance_analyses :=
       match ai_compliance_analyses existing with
       | None => Some analysis_json
       | Some _ => ai_compliance_analyses r
       end |}.

Definition checklist_where (compliance_id framework_id policy_id subpolicy_id : Z)
  (r : checklist_row) : bool :=
  (cl_ComplianceId r =? compliance_id) && (cl_FrameworkId r =? framework_id)
  && (cl_PolicyId r =? policy_id) && (cl_SubPolicyId r =? subpolicy_id).

(** The upsert of [lastchecklistitemverified]. *)
Definition update_checklist (compliance_id framework_id : Z)
  (policy_id subpolicy_id : option Z) (comments : string)
  (rows : list checklist_row) : list checklist_row :=
  let p := default 0 (if id_truthy policy_id then policy_id else Some 0) in
  let sp := default 0 (if id_truthy subpolicy_id then subpolicy_id else Some 0) in
  if existsb (checklist_where compliance_id framework_id p sp) rows then
    map (fun r =>
           if checklist_where compliance_id framework_id p sp r then
             {| cl_ComplianceId := cl_ComplianceId r;
                cl_SubPolicyId := cl_SubPolicyId r;
                cl_PolicyId := cl_PolicyId r;
                cl_FrameworkId := cl_FrameworkId r;
                cl_Complied := "1";
                cl_Comments := comments;
                cl_Count := Some (default 0 (cl_Count r) + 1) |}
           else r) rows
  else
    rows ++ [{| cl_ComplianceId := compliance_id;
                cl_SubPolicyId := sp;
                cl_PolicyId := p;
                cl_FrameworkId := framework_id;
                cl_Complied := "1";
                cl_Comments := comments;
                cl_Count := Some 1 |}].

(** [analysis.get("relevance_reason", "")[:500]] ; [None] is the
    [TypeError] of a value that cannot be sliced. *)
Definition reason_prefix (v : pyval) : option pyval :=
  match v with
  | PStr s => Some (PStr (str_take 500 s))
  | PList l => Some (PList (take 500 l))
  | _ => None
  end.

(** The text of a reason inside an f-string. Only a [str] is rendered;
    the rendering of other values is not read by the engine. *)
Definition reason_text (v : pyval) : string :=
  match v with PStr s => s | _ => "" end.

(** The body of the per-record [try] of
    [_create_ai_evidence_from_database_results]. *)
Definition create_evidence_for (framework_id audit_id : Z)
  (table_name : string) (analysis : rec_entry) : M unit :=
  match py_float (str_to_float E) (py_or (re_relevance_score analysis) (PInt 0)) with
  | None => raise
  | Some score =>
  let record_id := re_record_id analysis in
  if (record_id =? 0) || negb (Qle_bool f0_6 score) then ret tt
  else
    let matched_compliances := py_or (re_matched_compliances analysis) (PList []) in
    let comp_id0 :=
      if String.eqb table_name "compliances" then Some record_id else None in
    comp_id <-
      (if negb (id_truthy comp_id0) && truthy matched_compliances then
         match py_iter matched_compliances with
         | Some mcs => ret (first_compliance_id mcs)
         | None => raise
         end
       else ret comp_id0) ;;
    s <- gets static ;;
    let mapping :=
      match comp_id with
      | Some c => if id_truthy comp_id then compliance_mapping c s else None
      | None => None
      end in
    match mapping with
    | None => ret tt
    | Some (primary_compliance_id, primary_subpolicy_id, primary_policy_id) =>
    if primary_compliance_id =? 0 then ret tt
    else
      let doc_name := ("Evidence " ++ pretty record_id)%string in
      let document_path := db_external_id table_name record_id in
      let external_id := db_external_id table_name record_id in
      match reason_prefix (re_relevance_reason analysis) with
      | None => raise
      | Some evidence_reason =>
      let db_compliance_analysis_json :=
        PDict [("compliance_analyses",
                PList [PDict [("source", PStr "database_record");
                              ("table_name", PStr table_name);
                              ("record_id", PInt record_id);
                              ("compliance_id", PInt primary_compliance_id);
                              ("relevance_score", PFloat score);
                              ("relevance_reason", evidence_reason);
                              ("status", PStr "EVIDENCE_ONLY")]])]%string in
      rows <- gets ai_audit_data ;;
      match List.find (is_db_evidence_for audit_id external_id) rows with
      | Some existing =>
          modify (set_ai_audit_data
                    (map (fun r => if ai_id r =? ai_id existing
                                   then backfill_row primary_policy_id
                                          primary_subpolicy_id doc_name
                                          db_compliance_analysis_json existing r
                                   else r) rows))
      | None =>
          new_doc_id <- gets next_ai_id ;;
          let row :=
            {| ai_id := new_doc_id; ai_audit_id := audit_id;
               ai_document_id := new_doc_id;
               ai_document_name := doc_name;
               ai_document_path := document_path;
               ai_document_type := Some "db_record"%string;
               ai_file_size := 0; ai_mime_type := "application/json";
               ai_uploaded_by := None;
               ai_processing_status := Some "completed"%string;
               ai_policy_id := primary_policy_id;
               ai_subpolicy_id := primary_subpolicy_id;
               ai_external_source := Some "database_record"%string;
               ai_external_id := Some external_id;
               ai_FrameworkId := Some framework_id;
               ai_compliance_id := None;
               ai_compliance_analyses := Some db_compliance_analysis_json |} in
          modify (fun w => set_next_ai_id (new_doc_id + 1)
                             (set_ai_audit_data (rows ++ [row]) w)) ;;;
          if Qle_bool f0_8 score then
            let comments :=
              ("Auto evidence from " ++ table_name ++ " record "
               ++ pretty record_id ++ ": " ++ reason_text evidence_reason)%string in
            modify (fun w =>
              set_checklist
                (update_checklist primary_compliance_id framework_id
                   primary_policy_id primary_subpolicy_id comments
                   (lastchecklistitemverified w)) w)
          else ret tt
      end
      end
    end
  end.

(** [_create_ai_evidence_from_database_results] : every record runs in
    its own [try]; an exception skips that record only. *)
Definition _create_ai_evidence_from_database_results (framework_id : option Z)
  (audit_id : Z) (db_results : list (string * list rec_entry)) : M unit :=
  pool <- gets (fun w => db_pool (static w)) ;;
  match framework_id with
  | Some fw =>
      if negb pool || negb (id_truthy framework_id) then ret tt
      else
        for_each db_results (fun '(table_name, analyses) =>
          for_each analyses (fun analysis =>
            try_pass (create_evidence_for fw audit_id table_name analysis)))
  | None => ret tt
  end.

(** ** Auto-processing of relevant documents *)

(** A value bound to [%s] and compared with an INT column: [None] is a
    conversion error of the connector, [Some None] a value no row equals. *)
Definition sql_param (v : pyval) : option (option Z) :=
  match v with
  | PNone => Some None
  | PBool b => Some (Some (if b then 1 else 0))
  | PInt z => Some (Some z)
  | PFloat q =>
      Some (if Qeq_bool (inject_Z (Qtrunc q)) q then Some (Qtrunc q) else None)
  | PStr s => Some (sql_str_to_int E s)
  | PList _ | PDict _ => None
  end.

(** One entry of [mappings_to_create]. *)
Record mapping := {
  m_policy_id : option Z;
  m_subpolicy_id : option Z;
  m_compliance_id : pyval;
}.

Definition unmapped : mapping :=
  {| m_policy_id := None; m_subpolicy_id := None; m_compliance_id := PNone |}.

(** [SELECT c.SubPolicyId, sp.PolicyId ... WHERE c.ComplianceId = %s] *)
Definition mapping_for (s : store) (compliance_id : pyval) : option mapping :=
  match sql_param compliance_id with
  | None => None
  | Some key =>
      let comp_info := key ≫= (fun c => compliance_mapping c s) in
      Some {| m_policy_id := comp_info ≫= (fun '(_, _, p) => p);
              m_subpolicy_id := comp_info ≫= (fun '(_, sp, _) => sp);
              m_compliance_id := compliance_id |}
  end.

(** [mappings_to_create] for one document; [None] is an exception raised
    before any insert (a value [len()] or the connector refuses).  With
    matched compliances there is one mapping per compliance; the policy
    and subpolicy lists are derived from the compliances, so without any
    the list is the single unmapped entry. *)
Definition mappings_to_create (s : store) (matched_compliances : pyval)
  : option (list mapping) :=
  if truthy matched_compliances then
    match matched_compliances with
    | PList l => mapM (mapping_for s) l
    | _ => None
    end
  else
    match matched_compliances with
    | PNone | PBool _ | PInt _ | PFloat _ => None   (* len() raises *)
    | _ => Some [unmapped]
    end.

Definition is_attachment_for (audit_id : Z) (external_id compact_external_id
  stored : string) (r : ai_audit_row) : bool :=
  (ai_audit_id r =? audit_id)
  && sql_eq_str (ai_external_source r) "evidence_attachment"
  && (sql_eq_str (ai_external_id r) external_id
      || sql_eq_str (ai_external_id r) compact_external_id
      || sql_eq_str (ai_external_id r) stored)
  && sql_ne_str (ai_processing_status r) "failed".

(** The rows inserted for one document, numbered from [first_id]. *)
Fixpoint attachment_rows (first_id audit_id : Z) (file_name document_path
  file_type : string) (file_size : Z) (mime_type : string)
  (uploaded_by : option Z) (external_id : string) (framework_id : Z)
  (ms : list mapping) : list ai_audit_row :=
  match ms with
  | [] => []
  | m :: ms' =>
      {| ai_id := first_id; ai_audit_id := audit_id;
         ai_document_id := first_id;
         ai_document_name := file_name;
         ai_document_path := document_path;
         ai_document_type := Some (str_take 50 file_type);
         ai_file_size := file_size; ai_mime_type := mime_type;
         ai_uploaded_by := uploaded_by;
         ai_processing_status := Some "pending"%string;
         ai_policy_id := m_policy_id m;
         ai_subpolicy_id := m_subpolicy_id m;
         ai_external_source := Some "evidence_attachment"%string;
         ai_external_id := Some external_id;
         ai_FrameworkId := Some framework_id;
         ai_compliance_id := None;
         ai_compliance_analyses := None |}
      :: attachment_rows (first_id + 1) audit_id file_name document_path
           file_type file_size mime_type uploaded_by external_id framework_id ms'
  end.

(** One iteration of the document loop of
    [_auto_process_relevant_document] : the ids already processed in the
    batch and the world, to the same and the ids created. *)
Definition process_document (audit_id framework_id : Z) (uploaded_by : option Z)
  (doc_operation_id : Z) (doc_matched_compliances : pyval)
  (processed : list Z) (w : World) : list Z * list Z * World :=
  if existsb (Z.eqb doc_operation_id) processed then (processed, [], w)
  else
    match doc_matched_compliances with
    | PNone | PBool _ | PInt _ | PFloat _ => (processed, [], w)
    | _ =>
    match List.find (fun f => (fo_id f =? doc_operation_id)
                              && sql_eq_str (fo_status f) "completed")
            (file_operations (static w)) with
    | None => (processed, [], w)
    | Some file_op =>
        let file_name :=
          default "Unknown Document"%string
            (str_or (str_or (fo_file_name file_op) (fo_original_name file_op))
                    (Some "Unknown Document"%string)) in
        let s3_key := fo_s3_key file_op in
        let stored_name := fo_stored_name file_op in
        let file_size :=
          default 0 (if id_truthy (fo_file_size file_op)
                     then fo_file_size file_op else Some 0) in
        let file_type :=
          default "pdf"%string (str_or (fo_file_type file_op) (Some "pdf"%string)) in
        let content_type :=
          default "application/pdf"%string
            (str_or (fo_content_type file_op) (Some "application/pdf"%string)) in
        let external_id := pretty doc_operation_id in
        let compact_external_id :=
          let c := default external_id
                     (str_or (str_or s3_key stored_name) (Some external_id)) in
          if (100 <? String.length c)%nat then str_last 100 c else c in
        let stored := if str_truthy stored_name
                      then default ""%string stored_name else ""%string in
        if existsb (is_attachment_for audit_id external_id compact_external_id
                      stored) (ai_audit_data w)
        then (doc_operation_id :: processed, [], w)
        else
          let processed' := doc_operation_id :: processed in
          match mappings_to_create (static w) doc_matched_compliances with
          | None => (processed', [], w)
          | Some ms =>
              let document_path :=
                default ""%string
                  (str_or (str_or s3_key stored_name)
                     (Some ("file_operations/" ++ pretty doc_operation_id
                            ++ "/" ++ file_name)%string)) in
              let rows :=
                attachment_rows (next_ai_id w) audit_id file_name document_path
                  file_type file_size content_type uploaded_by external_id
                  framework_id ms in
              (processed', map ai_id rows,
               set_next_ai_id (next_ai_id w + Z.of_nat (length rows))
                 (set_ai_audit_data (ai_audit_data w ++ rows) w))
          end
    end
    end.

Fixpoint process_documents (audit_id framework_id : Z) (uploaded_by : option Z)
  (todo : list (Z * pyval)) (processed : list Z) (w : World)
  : list Z * World :=
  match todo with
  | [] => ([], w)
  | (op, mc) :: rest =>
      let '(processed', created, w1) :=
        process_document audit_id framework_id uploaded_by op mc processed w in
      let '(created', w2) :=
        process_documents audit_id framework_id uploaded_by rest processed' w1 in
      (created ++ created', w2)
  end.

(** The documents [_auto_process_relevant_document] works on: every
    indexed document with matched compliances and an operation id, then
    the triggering document when it is not among them. *)
Definition documents_to_process (documents_in_json : list doc_entry)
  (operation_id : Z) (relevance_result : dict) : list (Z * pyval) :=
  let from_json :=
    flat_map (fun e =>
      if truthy (de_matched_compliances e) && negb (de_operation_id e =? 0)
      then [(de_operation_id e, de_matched_compliances e)] else [])
      documents_in_json in
  let uploaded := dget_or "matched_compliances" (PList []) relevance_result in
  let step2 :=
    match from_json with
    | [] => [(operation_id, if truthy uploaded then uploaded else PList [])]
    | _ => from_json
    end in
  if existsb (fun '(op, _) => op =? operation_id) step2 then step2
  else step2 ++ [(operation_id, uploaded)].

(** A value [len()] accepts: the log of STEP 4 takes the length of the
    matched compliances of every document to process. *)
Definition sized (v : pyval) : bool :=
  match v with
  | PStr _ | PList _ | PDict _ => true
  | _ => false
  end.

(** [_auto_process_relevant_document], the body of an [AutoProcess]
    thread.  The documents index is read inside a [try] that imports
    Django's settings: when that fails no indexed document is found.
    The log of STEP 4 is outside the loop's [try], so a value without a
    length ends the run before anything is created.  [uploaded_by] is
    the numeric [user_id] of the triggering upload (the lookup of a user
    name in [users] is left out). *)
Definition _auto_process_relevant_document (operation_id audit_id : Z)
  (relevance_result : dict) (w : World) : World :=
  if negb (db_pool (static w)) then w
  else
    match List.find (fun a => AuditId a =? audit_id) (audit (static w)) with
    | None => w
    | Some audit_row =>
        match a_FrameworkId audit_row with
        | None => w
        | Some framework_id =>
            if framework_id =? 0 then w
            else
              let documents_in_json :=
                if media_root_setting (static w) then
                  match docs_files w !! (framework_id, audit_id) with
                  | Some d => documents d
                  | None => []
                  end
                else [] in
              let todo := documents_to_process documents_in_json operation_id
                            relevance_result in
              if negb (forallb (fun '(_, comps) => sized comps) todo) then w
              else
              let raw_user_id :=
                List.find (fun f => fo_id f =? operation_id)
                  (file_operations (static w)) ≫= fo_user_id in
              let uploaded_by := raw_user_id in
              let '(all_created_document_ids, w1) :=
                process_documents audit_id framework_id uploaded_by todo [] w in
              let compliance_of id :=
                List.find (fun r => ai_id r =? id) (ai_audit_data w1)
                  ≫= ai_compliance_id in
              let checks :=
                map (fun id => ComplianceCheck id audit_id uploaded_by
                                 (compliance_of id))
                    all_created_document_ids in
              let notify :=
                match all_created_document_ids, uploaded_by with
                | _ :: _, Some u =>
                    if u =? 0 then []
                    else [Notification audit_id
                            (length all_created_document_ids) u]
                | _, _ => []
                end in
              set_threads (threads w1 ++ checks ++ notify) w1
        end
    end.

(** ** The correlation of one audit *)

(** [_get_all_documents_from_file_operations] *)
Definition _get_all_documents_from_file_operations (framework_id : Z)
  (w : World) : list file_op :=
  if negb (db_pool (static w)) then []
  else
    List.filter (fun f => sql_eq_Z (fo_FrameworkId f) framework_id
                          && String.eqb (fo_operation_type f) "upload"
                          && sql_eq_str (fo_status f) "completed")
                (file_operations (static w)).

(** [_get_all_database_data] *)
Definition _get_all_database_data (framework_id : Z) (w : World)
  : list (string * list dict) :=
  if negb (db_pool (static w)) then map (fun t => (fst t, [])) pk_fields
  else evidence_rows (static w) framework_id.

(** The two sets built from the documents index before the loop. *)
Definition analyzed_file_keys (docs : list doc_entry) : list string :=
  flat_map (fun d =>
    match str_or (de_s3_key d) (de_stored_name d) with
    | Some k => if str_truthy (Some k) then [k] else []
    | None => []
    end) docs.

Definition analyzed_operation_ids (docs : list doc_entry) : list Z :=
  flat_map (fun d => if de_operation_id d =? 0 then [] else [de_operation_id d])
    docs.

(** The test that skips a document: by file key first, then by
    operation id. *)
Definition already_analyzed (docs : list doc_entry) (doc : file_op) : bool :=
  let file_key := str_or (fo_s3_key doc) (fo_stored_name doc) in
  (str_truthy file_key
   && match file_key with
      | Some k => existsb (String.eqb k) (analyzed_file_keys docs)
      | None => false
      end)
  || existsb (Z.eqb (fo_id doc)) (analyzed_operation_ids docs).

(** One iteration of the document loop.  [docs] is the documents index
    as loaded before the loop. *)
Definition analyze_document (framework_id audit_id : Z)
  (summary : option string) (audit_details : audit_details)
  (docs : list doc_entry) (doc : file_op) : M unit :=
  if already_analyzed docs doc then ret tt
  else
    let doc_id := fo_id doc in
    let doc_s3_key := fo_s3_key doc in
    let doc_stored_name := fo_stored_name doc in
    let doc_summary := str_or (fo_summary doc) summary in
    match fo_metadata doc with
    | MetaText false => raise                       (* json.loads raises *)
    | _ =>
    match fo_file_name doc with
    | None => raise                                 (* None[:50] in the print *)
    | Some _ =>
        relevance_result <- _analyze_document_audit_relevance doc_summary
                              audit_details ;;
        match relevance_result with
        | None | Some [] => ret tt
        | Some relevance_result =>
            modify (_update_json_index_document framework_id audit_id doc_id
                      relevance_result doc_s3_key doc_stored_name) ;;;
            match py_ge_float
                    (dget_or "relevance_score" (PInt 0) relevance_result) f0_6 with
            | None => raise
            | Some true =>
                modify (_store_audit_relevance doc_id audit_id relevance_result
                          doc_s3_key doc_stored_name)
            | Some false => ret tt
            end
        end
    end
    end.

(** [already_analyzed_db] : the record ids of each table of the index. *)
Definition already_analyzed_db (db_data : list (string * list rec_entry))
  : list (string * list Z) :=
  map (fun '(t, records_list) => (t, map re_record_id records_list)) db_data.

(** [incremental_db_data] : the rows with a primary key that the index
    does not hold yet; tables without such rows are left out. *)
Fixpoint incremental_db_data (seen : list (string * list Z))
  (all_database_data : list (string * list dict)) : list (string * list dict) :=
  match all_database_data with
  | [] => []
  | (table_name, records) :: rest =>
      let seen_ids := default [] (aget table_name seen) in
      let new_records :=
        List.filter (fun record =>
          match _get_db_record_id table_name record with
          | None => false
          | Some record_id => negb (existsb (Z.eqb record_id) seen_ids)
          end) records in
      let rest' := incremental_db_data seen rest in
      match new_records with
      | [] => rest'
      | _ => (table_name, new_records) :: rest'
      end
  end.

(** The index updates that follow the database analysis. *)
Definition index_db_results (framework_id audit_id : Z)
  (db_results : list (string * list rec_analysis)) (w : World) : World :=
  fold_left (fun w '(table_name, analyses) =>
    fold_left (fun w analysis =>
      if ra_record_id analysis =? 0 then w
      else _update_json_index_database framework_id audit_id table_name
             (ra_record_id analysis) (ra_analysis analysis) w)
      analyses w)
    db_results w.

Inductive check_type :=
| NotTriggered    (* overall_score < 0.6 *)
| Combined
| DocumentOnly
| DatabaseOnly
| NoEvidence.

(** The locals of the aggregation at the end of the audit body. *)
Record audit_report := {
  overall_score : Q;
  has_document_evidence : bool;
  has_database_evidence : bool;
  check : check_type;
}.

Definition doc_scores (docs : list doc_entry) : list pyval :=
  map de_relevance_score docs.

Definition db_scores (full_db_results : list (string * list rec_entry))
  : list pyval :=
  flat_map (fun '(_, table_analyses) => map re_relevance_score table_analyses)
    full_db_results.

(** [max(all_scores)] followed by the [:.2f] print.  With an element that
    is not a number either [max] raises on an unordered comparison or its
    result is not a number and the format raises; with numbers only the
    result is the first greatest one. *)
Definition max_score (all_scores : list pyval) : option Q :=
  match mapM as_num all_scores with
  | None => None
  | Some [] => Some 0%Q
  | Some (q :: qs) => Some (max_by (fun x => x) q qs)
  end.

Definition num_or_zero (v : pyval) : Q := default 0%Q (as_num v).

(** The [relevance_result] rebuilt from the best document. *)
Definition result_of_entry (best_doc : doc_entry) : dict :=
  [("relevance_score", de_relevance_score best_doc);
   ("relevance_reason", de_relevance_reason best_doc);
   ("matched_policies", de_matched_policies best_doc);
   ("matched_subpolicies", de_matched_subpolicies best_doc);
   ("matched_compliances", de_matched_compliances best_doc)]%string.

(** "Determine overall relevance" and "Trigger audit if relevant". *)
Definition aggregate (audit_id : Z) (docs : list doc_entry)
  (full_db_results : list (string * list rec_entry)) : M audit_report :=
  let all_doc_scores := doc_scores docs in
  let all_db_scores := db_scores full_db_results in
  match max_score (all_doc_scores ++ all_db_scores) with
  | None => raise
  | Some overall_score =>
      let has_document_evidence := (0 <? length all_doc_scores)%nat in
      let has_database_evidence := (0 <? length all_db_scores)%nat in
      let report c :=
        {| overall_score := overall_score;
           has_document_evidence := has_document_evidence;
           has_database_evidence := has_database_evidence;
           check := c |} in
      if Qle_bool f0_6 overall_score then
        let best_doc :=
          py_max_by (fun d => num_or_zero (de_relevance_score d)) docs in
        let dispatch :=
          match best_doc with
          | Some best_doc =>
              modify (start_thread
                        (AutoProcess (de_operation_id best_doc) audit_id
                           (result_of_entry best_doc)))
          | None => ret tt
          end in
        if has_document_evidence && has_database_evidence then
          dispatch ;;; ret (report Combined)
        else if has_document_evidence then
          dispatch ;;; ret (report DocumentOnly)
        else if has_database_evidence then ret (report DatabaseOnly)
        else ret (report NoEvidence)
      else ret (report NotTriggered)
  end.

(** The body of [for audit in audits] in
    [_analyze_audit_relevance_background]. *)
Definition analyze_audit (framework_id : Z) (summary : option string)
  (all_documents : list file_op) (all_database_data : list (string * list dict))
  (audit : audit_row) : M audit_report :=
  let audit_id := AuditId audit in
  match a_Title audit with
  | None => raise                                   (* None[:50] in the print *)
  | Some _ =>
      audit_details <- gets (_get_audit_details audit_id) ;;
      let audit_framework_id := ad_framework_id audit_details in
      docs_index <- gets (_load_json_index_documents framework_id audit_id) ;;
      db_index <- gets (_load_json_index_database framework_id audit_id) ;;
      for_each all_documents
        (analyze_document framework_id audit_id summary audit_details
           (documents docs_index)) ;;;
      let incremental :=
        incremental_db_data (already_analyzed_db (database_data db_index))
          all_database_data in
      db_results <-
        match incremental with
        | [] => ret []
        | _ => _analyze_database_data_relevance incremental
        end ;;
      modify (index_db_results framework_id audit_id db_results) ;;;
      db_index <- gets (_load_json_index_database framework_id audit_id) ;;
      let full_db_results := database_data db_index in
      _create_ai_evidence_from_database_results
        (if id_truthy audit_framework_id then audit_framework_id
         else Some framework_id)
        audit_id full_db_results ;;;
      aggregate audit_id (documents docs_index) full_db_results
  end.

(** The audit loop: the exception of one audit is re-raised. *)
Fixpoint analyze_audits (framework_id : Z) (summary : option string)
  (all_documents : list file_op) (all_database_data : list (string * list dict))
  (audits : list audit_row) : M (list audit_report) :=
  match audits with
  | [] => ret []
  | audit :: rest =>
      r <- analyze_audit framework_id summary all_documents all_database_data
             audit ;;
      rs <- analyze_audits framework_id summary all_documents all_database_data
              rest ;;
      ret (r :: rs)
  end.

(** [_analyze_audit_relevance_background] up to its outermost [except],
    which only prints.  Of its parameters the body reads [summary] and
    [framework_id] only. *)
Definition _analyze_audit_relevance_background (summary : option string)
  (framework_id : Z) : M (list audit_report) :=
  audits <- gets (_get_active_ai_audits framework_id) ;;
  match audits with
  | [] => ret []
  | _ =>
      all_documents <- gets (_get_all_documents_from_file_operations framework_id) ;;
      all_database_data <- gets (_get_all_database_data framework_id) ;;
      analyze_audits framework_id summary all_documents all_database_data audits
  end.

(** ** Running the threads *)

(** The body of a thread.  Compliance checks and notifications belong to
    other components: they leave the world as it is. *)
Definition run_task (t : task) (w : World) : World :=
  match t with
  | TriggerProcessing audit_id => trigger_processing audit_id w
  | AutoProcess operation_id audit_id relevance_result =>
      _auto_process_relevant_document operation_id audit_id relevance_result w
  | ComplianceCheck _ _ _ _ => w
  | Notification _ _ _ => w
  end.

End Engine.

(** ** Statements about the engine *)

(** A row the re-processing trigger selects, read off its [WHERE] clause:
    a row of the audit whose source and type are known and are not those
    of a database record, and whose status is known and is not failed. *)
Definition document_row_to_reprocess (audit_id : Z) (r : ai_audit_row) : Prop :=
  ai_audit_id r = audit_id
  /\ (exists s, ai_external_source r = Some s /\ s <> "database_record"%string)
  /\ (exists t, ai_document_type r = Some t /\ t <> "db_record"%string)
  /\ (exists st, ai_processing_status r = Some st /\ st <> "failed"%string).

(** A row the [WHERE] clause of the trigger excludes by one of its
    literals: a row of another audit, a database record (by source or by
    type), or a failed row. *)
Definition row_kept_by_trigger (audit_id : Z) (r : ai_audit_row) : Prop :=
  ai_audit_id r <> audit_id
  \/ ai_external_source r = Some "database_record"%string
  \/ ai_document_type r = Some "db_record"%string
  \/ ai_processing_status r = Some "failed"%string.

(** Two rows that agree on every column of the model other than
    [ai_processing_status]. *)
Definition same_but_status (r r' : ai_audit_row) : Prop :=
  ai_id r' = ai_id r
  /\ ai_audit_id r' = ai_audit_id r
  /\ ai_document_id r' = ai_document_id r
  /\ ai_document_name r' = ai_document_name r
  /\ ai_document_path r' = ai_document_path r
  /\ ai_document_type r' = ai_document_type r
  /\ ai_file_size r' = ai_file_size r
  /\ ai_mime_type r' = ai_mime_type r
  /\ ai_uploaded_by r' = ai_uploaded_by r
  /\ ai_policy_id r' = ai_policy_id r
  /\ ai_subpolicy_id r' = ai_subpolicy_id r
  /\ ai_external_source r' = ai_external_source r
  /\ ai_external_id r' = ai_external_id r
  /\ ai_FrameworkId r' = ai_FrameworkId r
  /\ ai_compliance_id r' = ai_compliance_id r
  /\ ai_compliance_analyses r' = ai_compliance_analyses r.

(** What saving an index does besides writing the file: from [w] to [w']
    one [TriggerProcessing] thread is started and no row is written yet;
    once the thread has run, no row is added, removed or moved, every
    selected row has the status pending, and every row the clause
    excludes by a literal has the status it had. *)
Definition pending_write_issued (E : env) (audit_id : Z) (w w' : World) : Prop :=
  threads w' = threads w ++ [TriggerProcessing audit_id]
  /\ ai_audit_data w' = ai_audit_data w
  /\ length (ai_audit_data (run_task E (TriggerProcessing audit_id) w'))
     = length (ai_audit_data w)
  /\ forall i r,
       ai_audit_data w !! i = Some r ->
       exists r',
         ai_audit_data (run_task E (TriggerProcessing audit_id) w') !! i
           = Some r'
         /\ same_but_status r r'
         /\ (document_row_to_reprocess audit_id r ->
             ai_processing_status r' = Some "pending"%string)
         /\ (row_kept_by_trigger audit_id r ->
             ai_processing_status r' = ai_processing_status r).

(** The provenance of a database evidence row: the audit and the
    external id under which the synthesizer looks it up. *)
Definition db_key (r : ai_audit_row) : option (Z * string) :=
  if sql_eq_str (ai_external_source r) "database_record" then
    match ai_external_id r with
    | Some x => Some (ai_audit_id r, x)
    | None => None
    end
  else None.

(** Two worlds with the same relational inputs, the same persisted
    indexes and the same number of reasoning calls. *)
Definition same_indexes (w w' : World) : Prop :=
  static w' = static w
  /\ docs_files w' = docs_files w
  /\ db_files w' = db_files w
  /\ ollama_calls w' = ollama_calls w.

(** At most one database evidence row per audit and provenance. *)
Definition db_evidence_unique (rows : list ai_audit_row) : Prop :=
  NoDup (omap db_key rows).

(** What every step of a rerun keeps: the inputs, the indexes and the
    number of calls, and the uniqueness of database evidence rows. *)
Definition rerun_invariant (w w' : World) : Prop :=
  same_indexes w w'
  /\ (db_evidence_unique (ai_audit_data w) ->
      db_evidence_unique (ai_audit_data w')).

(** The index of an audit covers the evidence set: every document is
    skipped by the already-analyzed test and no database row is left to
    analyze. *)
Definition fully_indexed (E : env) (framework_id : Z) (w : World)
  (audit : audit_row) : bool :=
  forallb
    (already_analyzed
       (documents (_load_json_index_documents framework_id (AuditId audit) w)))
    (_get_all_documents_from_file_operations framework_id w)
  && match incremental_db_data E
             (already_analyzed_db
                (database_data
                   (_load_json_index_database framework_id (AuditId audit) w)))
             (_get_all_database_data framework_id w) with
     | [] => true
     | _ => false
     end.

(** Worlds reached by any number of reruns for a framework, with
    threads running in between. *)
Inductive rerun_steps (E : env) (summary : option string) (framework_id : Z)
  : World -> World -> Prop :=
| rerun_none w : rerun_steps E summary framework_id w w
| rerun_again w w' :
    rerun_steps E summary framework_id w w' ->
    rerun_steps E summary framework_id w
      (snd (_analyze_audit_relevance_background E summary framework_id w'))
| rerun_thread w w' t :
    rerun_steps E summary framework_id w w' ->
    rerun_steps E summary framework_id w (run_task E t w').

(** Database verdicts none of which names a compliance: no table is
    [compliances] and every matched-compliances value is falsy. *)
Definition unmapped_results (db_results : list (string * list rec_entry))
  : bool :=
  forallb (fun '(t, es) =>
             negb (String.eqb t "compliances")
             && forallb (fun e => negb (truthy (re_matched_compliances e))) es)
          db_results.

(** No evidence row belongs to the audit. *)
Definition no_evidence_for (audit_id : Z) (rows : list ai_audit_row) : bool :=
  forallb (fun r => negb (ai_audit_id r =? audit_id)) rows.

(** The classification as the specification words it: by the evidence
    kinds that cleared the evidence threshold. *)
Definition cleared (scores : list pyval) : bool :=
  existsb (fun s => match as_num s with
                    | Some q => Qle_bool f0_6 q
                    | None => false
                    end) scores.

Definition classification_by_threshold (docs : list doc_entry)
  (full_db_results : list (string * list rec_entry)) : check_type :=
  match cleared (doc_scores docs), cleared (db_scores full_db_results) with
  | true, true => Combined
  | true, false => DocumentOnly
  | false, true => DatabaseOnly
  | false, false => NoEvidence
  end.

(** The classification the aggregation computes: by the evidence kinds
    that have an entry in the index. *)
Definition classification_by_presence (has_documents has_records : bool)
  : check_type :=
  match has_documents, has_records with
  | true, true => Combined
  | true, false => DocumentOnly
  | false, true => DatabaseOnly
  | false, false => NoEvidence
  end.

(** ** Scenarios

    Concrete worlds and inputs on which the engine is evaluated. *)

Module Scenario.

Definition upload (id framework : Z) (s3_key stored_name : option string)
  : file_op :=
  {| fo_id := id; fo_operation_type := "upload";
     fo_FrameworkId := Some framework;
     fo_status := Some "completed"%string;
     fo_file_name := Some "evidence.pdf"%string;
     fo_original_name := Some "evidence.pdf"%string;
     fo_s3_url := None; fo_s3_key := s3_key; fo_stored_name := stored_name;
     fo_file_size := Some 1024; fo_file_type := Some "pdf"%string;
     fo_content_type := Some "application/pdf"%string;
     fo_user_id := Some 3; fo_summary := Some "Retention policy"%string;
     fo_metadata := MetaNull |}.

Definition audit_of (id framework : Z) (status : option string) : audit_row :=
  {| AuditId := id; a_FrameworkId := Some framework; a_Status := status;
     a_Title := Some "Data retention audit"%string |}.

(** Framework 7: policy 5, subpolicy 12, compliance 42 ("Data Retention"). *)
Definition store_of (audits : list audit_row) (files : list file_op)
  (rows : list (string * list dict)) : store :=
  {| db_pool := true; media_root_setting := true;
     audit := audits;
     policies := [{| PolicyId := 5; p_FrameworkId := Some 7 |}];
     subpolicies := [{| SubPolicyId := 12; sp_PolicyId := Some 5 |}];
     compliance := [{| ComplianceId := 42; c_SubPolicyId := Some 12 |}];
     file_operations := files;
     evidence_rows := fun _ => rows |}.

Definition world_of (s : store) : World :=
  {| static := s; ai_audit_data := []; next_ai_id := 1;
     lastchecklistitemverified := []; document_audit_relevance := [];
     docs_files := ∅; db_files := ∅; ollama_calls := 0; threads := [] |}.

(** A reasoning service that answers every call with the same object. *)
Definition constant_env (answer : option dict) : env :=
  {| ollama := fun _ => answer;
     str_to_float := fun _ => None;
     str_to_int := fun _ => None;
     sql_str_to_int := fun _ => None |}.

(** The doubles nearest to the decimal scores of the scenarios. *)
Definition f0_85 : Q := 7656119366529843 # 9007199254740992.
Definition f0_9 : Q := 8106479329266893 # 9007199254740992.
Definition f0_7 : Q := 3152519739159347 # 4503599627370496.
Definition f0_75 : Q := 3 # 4.
Definition f0_59999 : Q := 337764342553253 # 562949953421312.
Definition f0_79999 : Q := 3602834665900123 # 4503599627370496.
Definition f0_1 : Q := 3602879701896397 # 36028797018963968.

(** A verdict as the reasoning service is asked to give it. *)
Definition verdict (score : Q) (compliances : list pyval) : dict :=
  [("relevance_score", PFloat score);
   ("relevance_reason", PStr "addresses data retention");
   ("matched_policies", PList []);
   ("matched_subpolicies", PList []);
   ("matched_compliances", PList compliances)]%string.

(** A reasoning service that answers its calls in turn from a list and
    fails afterwards. *)
Definition scripted_env (answers : list (option dict)) : env :=
  {| ollama := fun n => nth n answers None;
     str_to_float := fun _ => None;
     str_to_int := fun _ => None;
     sql_str_to_int := fun _ => None |}.

Definition incident (id : Z) : dict :=
  [("IncidentId", PInt id); ("IncidentTitle", PStr "Backup tapes lost");
   ("Status", PStr "Open")]%string.

(** Audit 426 of framework 7 with two incidents and no document. *)
Definition two_incidents : World :=
  world_of (store_of [audit_of 426 7 None] []
              [("incidents"%string, [incident 1; incident 2])]).

(** Audit 426 of framework 7 with one incident and no document, and with
    one document and no database row. *)
Definition one_incident : World :=
  world_of (store_of [audit_of 426 7 None] []
              [("incidents"%string, [incident 1])]).

Definition one_document : World :=
  world_of (store_of [audit_of 426 7 None]
              [upload 1 7 (Some "k"%string) (Some "n"%string)] []).

(** An answer naming policy 77 and compliance 999, which framework 7 does
    not have. *)
Definition foreign_answer : dict :=
  [("relevance_score", PFloat f0_9);
   ("relevance_reason", PStr "matches a requirement");
   ("matched_policies", PList [PInt 77]);
   ("matched_subpolicies", PList []);
   ("matched_compliances", PList [PInt 999; PInt 42])]%string.

(** Audit 426 of framework 7 with one document and one incident. *)
Definition document_and_incident : World :=
  world_of (store_of [audit_of 426 7 None]
              [upload 1 7 (Some "k"%string) (Some "n"%string)]
              [("incidents"%string, [incident 1])]).

(** An answer whose reason is a number: [.replace] raises on it. *)
Definition numeric_reason : dict :=
  [("relevance_score", PFloat f0_9); ("relevance_reason", PInt 5)]%string.

(** Two uploads with the content key "x" : the first has no [s3_key] and
    is stored under "x", the second has the [s3_key] "x". *)
Definition first_upload : file_op := upload 1 7 None (Some "x"%string).
Definition second_upload : file_op :=
  upload 2 7 (Some "x"%string) (Some "y"%string).

Definition two_uploads_one_key : World :=
  world_of (store_of [audit_of 426 7 None] [first_upload; second_upload] []).

(** Three audits of framework 7, one of them audit 426. *)
Definition three_audits : World :=
  world_of (store_of [audit_of 500 7 None;
                      audit_of 427 7 (Some "In Progress"%string);
                      audit_of 426 7 (Some "In Progress"%string)] [] []).

(** An evidence row of a document attached to audit 426. *)
Definition attachment_row (id : Z) (status : string) : ai_audit_row :=
  {| ai_id := id; ai_audit_id := 426; ai_document_id := id;
     ai_document_name := "evidence.pdf"; ai_document_path := "k";
     ai_document_type := Some "pdf"%string; ai_file_size := 1024;
     ai_mime_type := "application/pdf"; ai_uploaded_by := Some 3;
     ai_processing_status := Some status;
     ai_policy_id := Some 5; ai_subpolicy_id := Some 12;
     ai_external_source := Some "evidence_attachment"%string;
     ai_external_id := Some "1"%string; ai_FrameworkId := Some 7;
     ai_compliance_id := None; ai_compliance_analyses := None |}.

(** Audit 426 with one completed document row. *)
Definition one_completed_row : World :=
  set_ai_audit_data [attachment_row 1 "completed"]
    (world_of (store_of [audit_of 426 7 None] [] [])).

(** A database evidence row of audit 426, as the synthesis writes it for
    incident 1. *)
Definition database_row (id : Z) : ai_audit_row :=
  {| ai_id := id; ai_audit_id := 426; ai_document_id := id;
     ai_document_name := "Evidence 1"; ai_document_path := "incidents:1";
     ai_document_type := Some "db_record"%string; ai_file_size := 0;
     ai_mime_type := "application/json"; ai_uploaded_by := None;
     ai_processing_status := Some "completed"%string;
     ai_policy_id := Some 5; ai_subpolicy_id := Some 12;
     ai_external_source := Some "database_record"%string;
     ai_external_id := Some "incidents:1"%string; ai_FrameworkId := Some 7;
     ai_compliance_id := None; ai_compliance_analyses := None |}.

(** Audit 426 with a database evidence row and a failed document row. *)
Definition database_and_failed_rows : World :=
  set_ai_audit_data [database_row 1; attachment_row 2 "failed"]
    (world_of (store_of [audit_of 426 7 None] [] [])).

(** Audit 426 with one document row whose processing status is NULL. *)
Definition one_row_without_status : World :=
  set_ai_audit_data
    [with_processing_status None (attachment_row 1 "completed")]
    (world_of (store_of [audit_of 426 7 None] [] [])).

(** The same world with the connection pool down. *)
Definition without_pool (w : World) : World :=
  {| static :=
       {| db_pool := false;
          media_root_setting := media_root_setting (static w);
          audit := audit (static w);
          policies := policies (static w);
          subpolicies := subpolicies (static w);
          compliance := compliance (static w);
          file_operations := file_operations (static w);
          evidence_rows := evidence_rows (static w) |};
     ai_audit_data := ai_audit_data w; next_ai_id := next_ai_id w;
     lastchecklistitemverified := lastchecklistitemverified w;
     document_audit_relevance := document_audit_relevance w;
     docs_files := docs_files w; db_files := db_files w;
     ollama_calls := ollama_calls w; threads := threads w |}.

(** Index entries with a given score and matched compliances. *)
Definition document_entry (operation_id : Z) (score : Q)
  (compliances : list pyval) : doc_entry :=
  make_doc_entry operation_id (verdict score compliances)
    (Some "k"%string) (Some "n"%string).

Definition record_entry (record_id : Z) (score : Q)
  (compliances : list pyval) : rec_entry :=
  make_rec_entry "incidents" record_id (verdict score compliances).

(** One run of the correlation for framework 7, and the world it leaves. *)
Definition run (E : env) (w : World) : outcome (list audit_report) * World :=
  _analyze_audit_relevance_background E (Some ""%string) 7 w.

Definition after_run (E : env) (w : World) : World := snd (run E w).

(** The world once every thread started so far has run, in the order of
    their start. *)
Definition after_threads (E : env) (w : World) : World :=
  fold_left (fun w t => run_task E t w) (threads w) w.

(** What one run of an incident scored [score] against compliance 42
    leaves: the numbers of evidence rows and of checklist rows. *)
Definition incident_outcome (score : Q) : nat * nat :=
  let w := after_run (scripted_env [Some (verdict score [PInt 42])])
             one_incident in
  (length (ai_audit_data w), length (lastchecklistitemverified w)).

(** What one run of a document scored [score] leaves: the numbers of
    stored relevance rows and of threads other than the index trigger. *)
Definition document_outcome (score : Q) : nat * nat :=
  let w := after_run (scripted_env [Some (verdict score [PInt 42])])
             one_document in
  (length (document_audit_relevance w),
   length (List.filter (fun t => match t with
                                 | TriggerProcessing _ => false
                                 | _ => true
                                 end) (threads w))).

(** A framework with two compliance requirements, 30 and 31, and a
    document that matches both. *)
Definition two_compliances : World :=
  world_of
    {| db_pool := true; media_root_setting := true;
       audit := [audit_of 426 7 None];
       policies := [{| PolicyId := 5; p_FrameworkId := Some 7 |}];
       subpolicies := [{| SubPolicyId := 12; sp_PolicyId := Some 5 |}];
       compliance := [{| ComplianceId := 30; c_SubPolicyId := Some 12 |};
                      {| ComplianceId := 31; c_SubPolicyId := Some 12 |}];
       file_operations := [upload 1 7 (Some "k"%string) (Some "n"%string)];
       evidence_rows := fun _ => [] |}.

(** Audit 426 of framework 7 with fifty-one incidents. *)
Definition many_incidents : World :=
  world_of (store_of [audit_of 426 7 None] []
              [("incidents"%string, map (fun n => incident (Z.of_nat n)) (seq 1 51))]).

Definition indexed_incidents (w : World) : nat :=
  length (default [] (aget "incidents"
                        (database_data (_load_json_index_database 7 426 w)))).

(** Audit 426 of framework 7 with one row of the compliances table. *)
Definition compliance_record : dict :=
  [("ComplianceId", PInt 42); ("ComplianceTitle", PStr "Data Retention")]%string.

Definition one_compliance_row : World :=
  world_of (store_of [audit_of 426 7 None] []
              [("compliances"%string, [compliance_record])]).

End Scenario.

(** ** The manual trigger

    [trigger_audit_relevance_analysis_for_framework] runs the relevance
    analysis of a framework on request.  It shares the analysis and the
    index writers with the background correlation and differs from it in
    three ways: no document and no database row is skipped, no evidence
    record is synthesized from the database verdicts, and there is no
    aggregation step (auto-processing is started by the relevance store
    only). *)

Section Manual.
Variable E : env.

(** One iteration of [for doc in all_documents].  The summary is the
    document's own ([doc.get('summary', '')] on a row that always has the
    column).  As in the background loop, the [metadata] column is a text
    on which [json.loads] raises or that holds an object. *)
Definition manual_document (framework_id audit_id : Z)
  (audit_details : audit_details) (doc : file_op) : M unit :=
  let doc_summary := fo_summary doc in
  match fo_metadata doc with
  | MetaText false => raise                         (* json.loads raises *)
  | _ =>
      relevance_result <- _analyze_document_audit_relevance E doc_summary
                            audit_details ;;
      match relevance_result with
      | None | Some [] => ret tt
      | Some relevance_result =>
          let doc_s3_key := fo_s3_key doc in
          let doc_stored_name := fo_stored_name doc in
          modify (_update_json_index_document framework_id audit_id (fo_id doc)
                    relevance_result doc_s3_key doc_stored_name) ;;;
          match py_ge_float
                  (dget_or "relevance_score" (PInt 0) relevance_result) f0_6 with
          | None => raise
          | Some true =>
              modify (_store_audit_relevance E (fo_id doc) audit_id
                        relevance_result doc_s3_key doc_stored_name)
          | Some false => ret tt
          end
      end
  end.

(** The body of [for audit in audits] : every document, then every
    database row (the first fifty of each table), then the index of the
    verdicts that carry a record id. *)
Definition manual_audit (framework_id : Z) (all_documents : list file_op)
  (all_database_data : list (string * list dict)) (audit : audit_row) : M unit :=
  let audit_id := AuditId audit in
  audit_details <- gets (_get_audit_details audit_id) ;;
  for_each all_documents (manual_document framework_id audit_id audit_details) ;;;
  db_results <- _analyze_database_data_relevance E all_database_data ;;
  modify (index_db_results framework_id audit_id db_results).

(** [trigger_audit_relevance_analysis_for_framework] up to its outermost
    [except], which only prints. *)
Definition trigger_audit_relevance_analysis_for_framework (framework_id : Z)
  : M unit :=
  audits <- gets (_get_active_ai_audits framework_id) ;;
  match audits with
  | [] => ret tt
  | _ =>
      all_documents <- gets (_get_all_documents_from_file_operations framework_id) ;;
      all_database_data <- gets (_get_all_database_data framework_id) ;;
      for_each audits (manual_audit framework_id all_documents all_database_data)
  end.

End Manual.

(** ** Page selection of the PDF text extraction *)

(** [sorted(list(set(l)))] : the distinct elements in increasing order,
    built by insertion. *)
Fixpoint insert_page (p : Z) (l : list Z) : list Z :=
  match l with
  | [] => [p]
  | q :: l' =>
      if p <? q then p :: q :: l'
      else if p =? q then q :: l'
      else q :: insert_page p l'
  end.

Definition sorted_set (l : list Z) : list Z := fold_right insert_page [] l.

(** [list(range(n))] *)
Definition py_range (n : Z) : list Z := map Z.of_nat (seq 0 (Z.to_nat n)).

(** The pages [_extract_text_from_pdf] reads and the strategy it reports,
    for a document of [total_pages] pages ([len(pdf.pages)]). *)
Definition pages_to_extract (total_pages : Z) : list Z * string :=
  if total_pages <=? 5 then (py_range total_pages, "full"%string)
  else if total_pages <=? 20 then
    let middle_start := total_pages / 3 in
    let middle_end := 2 * total_pages / 3 in
    (sorted_set
       (List.filter (fun p => p <? total_pages)
          [0; 1; 2; 3; 4; middle_start; middle_end; total_pages - 1]),
     "medium"%string)
  else
    let sample_indices :=
      [0; 1; 2; total_pages / 4; total_pages / 2; 3 * total_pages / 4;
       total_pages - 1] in
    (sorted_set (List.filter (fun p => p <? total_pages) sample_indices),
     "large_sample"%string).

(** [page_count = total_pages or len(pdf_reader.pages)] of
    [_extract_pdf_metadata]. *)
Definition metadata_page_count (total_pages : option Z) (reader_pages : Z) : Z :=
  if id_truthy total_pages then default 0 total_pages else reader_pages.

(** The [document_size_category] of [_extract_pdf_metadata]. *)
Definition document_size_category (page_count : Z) : string :=
  if page_count <=? 5 then "small"
  else if page_count <=? 20 then "medium"
  else "large".

(** ** Paths of the analysis indexes *)

(** The separator ['/'] (code 47) and the [':'] of external ids (58). *)
Definition slash : Ascii.ascii := Ascii.ascii_of_nat 47.
Definition colon : Ascii.ascii := Ascii.ascii_of_nat 58.

(** [s.endswith(c)] for a one-character [c]. *)
Fixpoint ends_with (c : Ascii.ascii) (s : string) : bool :=
  match s with
  | EmptyString => false
  | String a EmptyString => Ascii.eqb a c
  | String _ s' => ends_with c s'
  end.

(** [os.path.join(a, b)] on POSIX paths. *)
Definition path_join (a b : string) : string :=
  if String.prefix "/" b then b
  else if String.eqb a "" || ends_with slash a then (a ++ b)%string
  else (a ++ "/" ++ b)%string.

(** [_get_json_index_path] ; [base_dir] is [settings.MEDIA_ROOT] or the
    [MEDIA_ROOT] directory next to the package.  Creating the directory
    is left out. *)
Definition _get_json_index_path (base_dir : string) (framework_id audit_id : Z)
  (index_type : string) : string :=
  let index_dir :=
    path_join
      (path_join (path_join base_dir "audit_indexes")
         ("framework_" ++ pretty framework_id))
      ("audit_" ++ pretty audit_id) in
  let filename := (index_type ++ "_analysis.json")%string in
  path_join index_dir filename.

(** The path [_auto_process_relevant_document] reads the documents index
    from: one [os.path.join] of five components. *)
Definition auto_process_json_path (media_root : string)
  (framework_id audit_id : Z) : string :=
  path_join
    (path_join
       (path_join (path_join media_root "audit_indexes")
          ("framework_" ++ pretty framework_id))
       ("audit_" ++ pretty audit_id))
    "documents_analysis.json".

(** ** Statements about the stores *)

(** Rows of the framework, as the joins of [_get_audit_details] select
    them. *)
Definition policy_of_framework (s : store) (f : Z) (p : policy_row) : Prop :=
  p ∈ policies s /\ p_FrameworkId p = Some f.

Definition subpolicy_of_framework (s : store) (f : Z) (sp : subpolicy_row)
  : Prop :=
  sp ∈ subpolicies s
  /\ exists p, policy_of_framework s f p /\ sp_PolicyId sp = Some (PolicyId p).

Definition compliance_of_framework (s : store) (f : Z) (c : compliance_row)
  : Prop :=
  c ∈ compliance s
  /\ exists sp, subpolicy_of_framework s f sp
                /\ c_SubPolicyId c = Some (SubPolicyId sp).

(** The entries of one table in the database index of an audit. *)
Definition indexed_records (framework_id audit_id : Z) (table_name : string)
  (w : World) : list rec_entry :=
  default []
    (aget table_name
       (database_data (_load_json_index_database framework_id audit_id w))).

(** The primary key of [ai_audit_data] : ids are distinct and below the
    next AUTO_INCREMENT value. *)
Definition primary_key_ok (w : World) : Prop :=
  NoDup (map ai_id (ai_audit_data w))
  /\ Forall (fun r => ai_id r < next_ai_id w) (ai_audit_data w).

(** A document row of [ai_audit_data] as auto-processing inserts it. *)
Definition pending_attachment (audit_id framework_id : Z) (r : ai_audit_row)
  : Prop :=
  ai_audit_id r = audit_id
  /\ ai_external_source r = Some "evidence_attachment"%string
  /\ ai_processing_status r = Some "pending"%string
  /\ ai_FrameworkId r = Some framework_id
  /\ ai_document_id r = ai_id r.

(** The threads of one kind among those started. *)
Definition is_compliance_check (t : task) : bool :=
  match t with ComplianceCheck _ _ _ _ => true | _ => false end.

Definition is_auto_process (t : task) : bool :=
  match t with AutoProcess _ _ _ => true | _ => false end.

(** A Python number whose value is [id] : the int, a float of that
    value, or the bool that counts as it ([True] as 1, [False] as 0). *)
Definition is_number (id : Z) (x : pyval) : Prop :=
  match x with
  | PInt z => z = id
  | PFloat q => (q == inject_Z id)%Q
  | PBool b => id = (if b then 1 else 0)
  | _ => False
  end.

(** A value that names an id of a context list: a number whose value is
    an id of the list other than 0, or [None] when the list holds the id
    0 (the set of the filter is built from [id or None]). *)
Definition names_an_id_of (ids : list Z) (x : pyval) : Prop :=
  (exists id, id ∈ ids /\ id <> 0 /\ is_number id x)
  \/ (x = PNone /\ 0 ∈ ids).

(** The test of the incremental filter on one row of a table. *)
Definition is_new_record (E : env) (seen : list (string * list Z))
  (table_name : string) (record : dict) : bool :=
  match _get_db_record_id E table_name record with
  | None => false
  | Some record_id =>
      negb (existsb (Z.eqb record_id) (default [] (aget table_name seen)))
  end.

(** The rows [_analyze_audit_relevance_background] sends to the database
    analysis of an audit: the incremental data against the database index
    as loaded before the analysis. *)
Definition rows_to_analyze (E : env) (framework_id audit_id : Z) (w : World)
  (all_database_data : list (string * list dict)) : list (string * list dict) :=
  incremental_db_data E
    (already_analyzed_db
       (database_data (_load_json_index_database framework_id audit_id w)))
    all_database_data.

(** A row that is database evidence of an audit. *)
Definition is_db_evidence_of (audit_id : Z) (r : ai_audit_row) : bool :=
  (ai_audit_id r =? audit_id)
  && sql_eq_str (ai_external_source r) "database_record".

(** The relation the synthesis for audit [a] keeps between the rows
    before and after, given the primary key: every row stays at its
    position with its id, rows that are not database evidence of [a] are
    untouched, and the primary key still holds. *)
Definition synthesis_frame (a : Z) (w w' : World) : Prop :=
  primary_key_ok w ->
  primary_key_ok w'
  /\ forall i r, ai_audit_data w !! i = Some r ->
       exists r', ai_audit_data w' !! i = Some r'
                  /\ ai_id r' = ai_id r
                  /\ is_db_evidence_of a r' = is_db_evidence_of a r
                  /\ (is_db_evidence_of a r = false -> r' = r).


(** From [w] to [w'] the rows [new] were appended to [ai_audit_data] :
    document rows of the audit with fresh consecutive ids, and nothing
    else of the world changed. *)
Definition appended (audit_id framework_id : Z) (new : list ai_audit_row)
  (w w' : World) : Prop :=
  ai_audit_data w' = ai_audit_data w ++ new
  /\ next_ai_id w' = next_ai_id w + Z.of_nat (length new)
  /\ Forall (fun r => next_ai_id w <= ai_id r < next_ai_id w') new
  /\ NoDup (map ai_id new)
  /\ Forall (pending_attachment audit_id framework_id) new
  /\ static w' = static w
  /\ lastchecklistitemverified w' = lastchecklistitemverified w
  /\ document_audit_relevance w' = document_audit_relevance w
  /\ docs_files w' = docs_files w
  /\ db_files w' = db_files w
  /\ ollama_calls w' = ollama_calls w
  /\ threads w' = threads w.

(** The most calls of the reasoning service one database analysis can
    make: fifty per table. *)
Definition analysis_budget (database_data : list (string * list dict)) : nat :=
  list_sum (map (fun '(_, records) => Nat.min 50 (length records)) database_data).

(** Two worlds that differ at most in the number of reasoning calls. *)
Definition same_but_calls (w w' : World) : Prop :=
  w' = set_ollama_calls (ollama_calls w') w.

(** Two worlds with the same relational inputs, evidence records and
    checklist. *)
Definition same_evidence (w w' : World) : Prop :=
  static w' = static w
  /\ ai_audit_data w' = ai_audit_data w
  /\ next_ai_id w' = next_ai_id w
  /\ lastchecklistitemverified w' = lastchecklistitemverified w.

(** The threads that work on document evidence: the re-processing
    trigger of an index save and auto-processing. *)
Definition is_document_task (t : task) : bool :=
  match t with
  | TriggerProcessing _ | AutoProcess _ _ _ => true
  | _ => false
  end.

(** From [w] to [w'] no evidence row and no checklist entry was written,
    and the threads started are document tasks. *)
Definition manual_frame (w w' : World) : Prop :=
  same_evidence w w'
  /\ exists ts, threads w' = threads w ++ ts
                /\ forallb is_document_task ts = true.

(** The database evidence rows of [ai_audit_data], whatever their
    audit. *)
Definition database_rows (w : World) : list ai_audit_row :=
  List.filter (fun r => sql_eq_str (ai_external_source r) "database_record")
    (ai_audit_data w).

(** A list of page numbers in strictly increasing order. *)
Fixpoint increasing (l : list Z) : bool :=
  match l with
  | x :: (y :: _) as t => (x <? y) && increasing t
  | _ => true
  end.

(** [c in s] for a one-character [c]. *)
Fixpoint has_char (c : Ascii.ascii) (s : string) : bool :=
  match s with
  | EmptyString => false
  | String a s' => Ascii.eqb a c || has_char c s'
  end.

(** A path that is not empty and does not end in the separator. *)
Definition open_path (a : string) : Prop :=
  a <> ""%string /\ ends_with slash a = false.


(** * Properties *)

(** ** Generic facts *)

Lemma in_filter_iff {A} (p : A -> bool) (l : list A) (x : A) :
  x ∈ List.filter p l <-> x ∈ l /\ p x = true.
Proof. rewrite !list_elem_of_In. apply filter_In. Qed.

Lemma filter_at_most_one {A} (f : A -> Z) (p : A -> bool) (c : Z) (l : list A) :
  NoDup (map f l) ->
  (forall x, x ∈ l -> p x = true -> f x = c) ->
  (length (List.filter p l) <= 1)%nat.
Proof.
  induction l as [|a l IH]; simpl; intros Hnd Hc; [lia|].
  apply NoDup_cons in Hnd as [Hna Hnd].
  assert (IH' := IH Hnd (fun x Hx => Hc x (list_elem_of_further _ _ _ Hx))).
  destruct (p a) eqn:Hpa; [|exact IH'].
  assert (List.filter p l = []) as ->; [|simpl; lia].
  destruct (List.filter p l) as [|b t] eqn:Hf; [reflexivity|].
  exfalso. apply Hna.
  assert (b ∈ List.filter p l) as Hb by (rewrite Hf; left).
  apply in_filter_iff in Hb as [Hbl Hpb].
  rewrite (Hc a (list_elem_of_here _ _) Hpa), <- (Hc b (list_elem_of_further _ _ _ Hbl) Hpb).
  apply list_elem_of_fmap. exists b; auto.
Qed.

Lemma active_audit_where_spec (framework_id : Z) (a : audit_row) :
  active_audit_where framework_id a = true <->
  a_FrameworkId a = Some framework_id
  /\ a_Status a <> Some "Completed"%string
  /\ AuditId a = 426.
Proof.
  unfold active_audit_where, sql_eq_Z, sql_ne_str.
  destruct (a_FrameworkId a) as [f|], (a_Status a) as [s|]; simpl;
    rewrite ?andb_true_iff, ?orb_true_iff, ?negb_true_iff, ?Z.eqb_eq,
      ?String.eqb_neq; naive_solver.
Qed.

(** The reports of an audit loop that ends normally are as many as the
    audits. *)
Lemma analyze_audits_length E fw summary docs data audits w rs w' :
  analyze_audits E fw summary docs data audits w = (Ok rs, w') ->
  length rs = length audits.
Proof.
  revert w rs w'. induction audits as [|a audits IH]; simpl; intros w rs w' H.
  - inversion H; reflexivity.
  - unfold bind in H.
    destruct (analyze_audit E fw summary docs data a w) as [[r|] w1]; [|discriminate].
    destruct (analyze_audits E fw summary docs data audits w1) as [[rs'|] w2] eqn:Hrs;
      [|discriminate].
    inversion H; subst. simpl. f_equal. eapply IH; eauto.
Qed.

Lemma call_ollama_eq (E : env) (w : World) :
  call_ollama E w
  = (Ok (ollama E (ollama_calls w)), set_ollama_calls (S (ollama_calls w)) w).
Proof. reflexivity. Qed.

Lemma try_pass_snd (m : M unit) (w : World) : snd (try_pass m w) = snd (m w).
Proof. unfold try_pass. destruct (m w) as [[[]|] w']; reflexivity. Qed.

(** ** Enumeration of the audits *)

(** C3: for every framework, [_get_active_ai_audits] returns only rows of
    the audit table with [AuditId = 426], of that framework and not
    completed; every other audit is left out whatever its status; audit
    426 is returned when it qualifies; and, [AuditId] being the key of the
    table, at most one audit is returned and at most one is analyzed by a
    run. *)
Theorem C3_only_audit_426_is_enumerated (framework_id : Z) (w : World) :
  NoDup (map AuditId (audit (static w))) ->
  (forall a, a ∈ _get_active_ai_audits framework_id w ->
     a ∈ audit (static w) /\ AuditId a = 426
     /\ a_FrameworkId a = Some framework_id
     /\ a_Status a <> Some "Completed"%string)
  /\ (forall a, AuditId a <> 426 -> a ∉ _get_active_ai_audits framework_id w)
  /\ (db_pool (static w) = true ->
      forall a, a ∈ audit (static w) -> AuditId a = 426 ->
        a_FrameworkId a = Some framework_id ->
        a_Status a <> Some "Completed"%string ->
        a ∈ _get_active_ai_audits framework_id w)
  /\ (length (_get_active_ai_audits framework_id w) <= 1)%nat
  /\ (forall E summary reports w',
        _analyze_audit_relevance_background E summary framework_id w
          = (Ok reports, w') ->
        (length reports <= 1)%nat).
Proof.
  intros Hkey.
  assert (Hin : forall a, a ∈ _get_active_ai_audits framework_id w ->
            a ∈ audit (static w) /\ active_audit_where framework_id a = true).
  { intros a. unfold _get_active_ai_audits.
    destruct (db_pool (static w)); simpl.
    - apply in_filter_iff.
    - intros H. inversion H. }
  assert (Hlen : (length (_get_active_ai_audits framework_id w) <= 1)%nat).
  { unfold _get_active_ai_audits. destruct (db_pool (static w)); simpl; [|lia].
    apply (filter_at_most_one AuditId _ 426); [exact Hkey|].
    intros x _ Hx. apply active_audit_where_spec in Hx. tauto. }
  split; [|split; [|split; [|split]]].
  - intros a Ha. destruct (Hin a Ha) as [H1 H2].
    apply active_audit_where_spec in H2. tauto.
  - intros a Hne Ha. destruct (Hin a Ha) as [_ H2].
    apply active_audit_where_spec in H2. tauto.
  - intros Hpool a Ha H426 Hfw Hst. unfold _get_active_ai_audits.
    rewrite Hpool. simpl. apply in_filter_iff. split; [exact Ha|].
    apply active_audit_where_spec. tauto.
  - exact Hlen.
  - intros E summary reports w' Hrun.
    unfold _analyze_audit_relevance_background, bind, gets in Hrun.
    destruct (_get_active_ai_audits framework_id w) as [|a l] eqn:Hl.
    + inversion Hrun. simpl. lia.
    + apply analyze_audits_length in Hrun. rewrite Hrun. exact Hlen.
Qed.

Lemma C3_witness :
  NoDup (map AuditId (audit (static Scenario.three_audits)))
  /\ map AuditId (_get_active_ai_audits 7 Scenario.three_audits) = [426]
  /\ (length (_get_active_ai_audits 7 Scenario.three_audits) <= 1)%nat.
Proof.
  assert (H : NoDup (map AuditId (audit (static Scenario.three_audits)))).
  { vm_compute. repeat constructor; rewrite ?list_elem_of_In; simpl; intuition discriminate. }
  split; [exact H|]. split; [reflexivity|].
  exact (proj1 (proj2 (proj2 (proj2
           (C3_only_audit_426_is_enumerated 7 Scenario.three_audits H))))).
Defined.

(** ** Filtering of matched ids *)


Lemma filter_ids_subset (E : env) (matched ids kept : list pyval) :
  filter_ids matched ids = Some kept ->
  forall x, x ∈ kept -> x ∈ matched /\ existsb (py_eq x) ids = true.
Proof.
  revert kept. induction matched as [|m rest IH]; simpl; intros kept H x Hx.
  - inversion H; subst. inversion Hx.
  - unfold py_in_set in H. destruct (hashable m); [|discriminate].
    destruct (filter_ids rest ids) as [rest'|]; [|discriminate].
    destruct (existsb (py_eq m) ids) eqn:Hm; inversion H; subst.
    + apply elem_of_cons in Hx as [->|Hx].
      * split; [left|exact Hm].
      * destruct (IH rest' eq_refl x Hx). split; [right|]; assumption.
    + destruct (IH kept eq_refl x Hx). split; [right|]; assumption.
Qed.

Lemma dget_dset_same (k : string) (v : pyval) (d : dict) :
  dget k (dset k v d) = Some v.
Proof.
  unfold dget, dset. induction d as [|[k' v'] d IH]; simpl.
  - rewrite String.eqb_refl. reflexivity.
  - destruct (String.eqb k k') eqn:Hk; simpl; rewrite Hk; [reflexivity|exact IH].
Qed.

(** On the document path the stored compliances are always a list drawn
    from the ids of the audit context. *)
Lemma document_verdict_compliances_filtered (E : env) summary ad w r w' :
  _analyze_document_audit_relevance E summary ad w = (Ok (Some r), w') ->
  exists kept,
    dget "matched_compliances" r = Some (PList kept)
    /\ forall x, x ∈ kept ->
         existsb (py_eq x) (map id_or_none (ad_compliances ad)) = true.
Proof.
  unfold _analyze_document_audit_relevance.
  destruct summary; [|intros H; discriminate H].
  unfold bind. rewrite call_ollama_eq.
  destruct (ollama E (ollama_calls w)) as [[|kv d]|]; try (intros H; discriminate H).
  intros H. inversion H as [[Hf Hw]]. clear H Hw.
  unfold filter_matched_ids in Hf.
  destruct (match dget_or "matched_policies" (PList []) (kv :: d) with
            | PList l => _ | _ => _ end) as [r1|]; [|discriminate].
  simpl in Hf.
  destruct (match dget_or "matched_subpolicies" (PList []) r1 with
            | PList l => _ | _ => _ end) as [r2|]; [|discriminate].
  simpl in Hf.
  set (m := dget_or "matched_compliances" (PList []) r2) in Hf.
  destruct (if truthy m then m else PList []) as [| | | | |l|] eqn:Hm;
    try (inversion Hf; subst; exists []; split;
         [apply dget_dset_same | intros x Hx; inversion Hx]).
  destruct (filter_ids l _) as [kept|] eqn:Hk; [|discriminate].
  simpl in Hf. inversion Hf; subst. exists kept. split; [apply dget_dset_same|].
  intros x Hx. eapply filter_ids_subset; eauto.
Qed.

Lemma dget_dset_other (k k' : string) (v : pyval) (d : dict) :
  k <> k' -> dget k (dset k' v d) = dget k d.
Proof.
  intros Hne. unfold dget, dset. induction d as [|[k0 v0] d IH]; simpl.
  - apply String.eqb_neq in Hne. rewrite Hne. reflexivity.
  - destruct (String.eqb k' k0) eqn:Hk; simpl.
    + apply String.eqb_eq in Hk. subst k0.
      apply String.eqb_neq in Hne. rewrite Hne. reflexivity.
    + destruct (String.eqb k k0); [reflexivity|exact IH].
Qed.

(** On the database path the index entry takes the matched ids of the
    answer as they are, whatever they are. *)
Lemma database_verdict_ids_verbatim (table_name : string) (rid : Z)
  (analysis : dict) :
  re_matched_policies
    (make_rec_entry table_name rid (dset "record_id" (PInt rid) analysis))
  = dget_or "matched_policies" (PList []) analysis
  /\ re_matched_subpolicies
       (make_rec_entry table_name rid (dset "record_id" (PInt rid) analysis))
     = dget_or "matched_subpolicies" (PList []) analysis
  /\ re_matched_compliances
       (make_rec_entry table_name rid (dset "record_id" (PInt rid) analysis))
     = dget_or "matched_compliances" (PList []) analysis.
Proof.
  unfold make_rec_entry, dget_or. cbn [re_matched_policies
    re_matched_subpolicies re_matched_compliances].
  rewrite !dget_dset_other by discriminate. repeat split.
Qed.

(** A matched field that is not a list passes the document path
    unfiltered for policies and subpolicies; only compliances are reset. *)
Lemma document_verdict_scalar_policy_unfiltered :
  filter_matched_ids
    {| ad_framework_id := Some 7; ad_policies := [5]; ad_subpolicies := [12];
       ad_compliances := [42] |}
    [("relevance_score", PFloat Scenario.f0_9);
     ("matched_policies", PInt 77);
     ("matched_subpolicies", PList []);
     ("matched_compliances", PInt 999)]%string
  = Some [("relevance_score", PFloat Scenario.f0_9);
          ("matched_policies", PInt 77);
          ("matched_subpolicies", PList []);
          ("matched_compliances", PList [])]%string.
Proof. reflexivity. Qed.

(** C1 (the code at the failing input): the audit context of audit 426
    holds the compliance ids [42] and the policy ids [5]; the reasoning
    service answers with policy 77 and compliances 999 and 42.  For a
    database record the verdict stored in the index keeps 77 and 999; for
    a document the same answer is stored with the foreign ids dropped. *)
Theorem C1_database_verdict_keeps_foreign_ids :
  ad_compliances (_get_audit_details 426 Scenario.one_incident) = [42]
  /\ ad_policies (_get_audit_details 426 Scenario.one_incident) = [5]
  /\ map (fun e => (re_record_id e, re_matched_policies e, re_matched_compliances e))
       (default []
          (aget "incidents"
             (database_data
                (_load_json_index_database 7 426
                   (snd (_analyze_audit_relevance_background
                           (Scenario.constant_env (Some Scenario.foreign_answer))
                           (Some ""%string) 7 Scenario.one_incident))))))
     = [(1, PList [PInt 77], PList [PInt 999; PInt 42])]
  /\ map (fun e => (de_operation_id e, de_matched_policies e, de_matched_compliances e))
       (documents
          (_load_json_index_documents 7 426
             (snd (_analyze_audit_relevance_background
                     (Scenario.constant_env (Some Scenario.foreign_answer))
                     (Some ""%string) 7 Scenario.one_document))))
     = [(1, PList [], PList [PInt 42])].
Proof. vm_compute. repeat split. Qed.

(** ** Identity of documents in the index *)

Lemma find_index_Some {A} (p : A -> bool) (l : list A) (i : nat) :
  find_index p l = Some i <->
  exists x, l !! i = Some x /\ p x = true
            /\ forall j y, l !! j = Some y -> (j < i)%nat -> p y = false.
Proof.
  unfold find_index. split.
  - intros H. apply fmap_Some in H as [[i' x] [H ->]].
    apply list_find_Some in H as (H1 & H2 & H3). exists x. simpl.
    split; [exact H1|]. split; [exact H2|].
    intros j y Hj Hlt. specialize (H3 j y Hj Hlt).
    destruct (p y); [contradiction H3; reflexivity | reflexivity].
  - intros (x & H1 & H2 & H3). apply fmap_Some. exists (i, x). split; [|reflexivity].
    apply list_find_Some. split; [exact H1|]. split; [exact H2|].
    intros j y Hj Hlt. rewrite (H3 j y Hj Hlt). discriminate.
Qed.

Lemma find_index_None {A} (p : A -> bool) (l : list A) :
  find_index p l = None <-> forall x, x ∈ l -> p x = false.
Proof.
  unfold find_index. rewrite fmap_None, list_find_None, Forall_forall.
  split; intros H x Hx; specialize (H x Hx).
  - destruct (p x); [contradiction H; reflexivity | reflexivity].
  - rewrite H. discriminate.
Qed.

Lemma find_index_insert_hit {A} (p : A -> bool) (l : list A) (i : nat) (x : A) :
  (i < length l)%nat -> p x = true ->
  (forall j y, l !! j = Some y -> (j < i)%nat -> p y = false) ->
  find_index p (<[i := x]> l) = Some i.
Proof.
  intros Hi Hx Hbefore. apply find_index_Some. exists x.
  split; [apply list_lookup_insert_eq; exact Hi|]. split; [exact Hx|].
  intros j y Hj Hlt. rewrite list_lookup_insert_ne in Hj by lia. eauto.
Qed.

Lemma find_index_app_hit {A} (p : A -> bool) (l : list A) (x : A) :
  (forall y, y ∈ l -> p y = false) -> p x = true ->
  find_index p (l ++ [x]) = Some (length l).
Proof.
  intros Hl Hx. apply find_index_Some. exists x.
  split; [apply list_lookup_middle; reflexivity|]. split; [exact Hx|].
  intros j y Hj Hlt. rewrite lookup_app_l in Hj by exact Hlt.
  apply Hl. eapply list_elem_of_lookup_2; eauto.
Qed.

Lemma opt_str_eqb_refl (a : option string) : opt_str_eqb a a = true.
Proof. destruct a; simpl; [apply String.eqb_refl | reflexivity]. Qed.

Lemma opt_str_eqb_eq (a b : option string) : opt_str_eqb a b = true <-> a = b.
Proof.
  destruct a, b; simpl; rewrite ?String.eqb_eq; split; intros H;
    try discriminate; try congruence; reflexivity.
Qed.

(** The position the upsert of a document writes to holds its entry
    afterwards, and a second upsert with the same key fields finds it. *)
Lemma upsert_document_position (docs : list doc_entry) (op1 : Z) (res1 : dict)
  (s3 sn : option string) :
  str_truthy (str_or s3 sn) = true ->
  exists i,
    upsert_document docs op1 res1 s3 sn !! i = Some (make_doc_entry op1 res1 s3 sn)
    /\ forall op2,
         doc_index_of (upsert_document docs op1 res1 s3 sn) op2 s3 sn = Some i.
Proof.
  intros Hkey.
  set (p := fun d : doc_entry =>
              opt_str_eqb (de_s3_key d) s3 || opt_str_eqb (de_stored_name d) sn).
  set (e1 := make_doc_entry op1 res1 s3 sn).
  assert (Hp1 : p e1 = true).
  { unfold p, e1. simpl. rewrite opt_str_eqb_refl. reflexivity. }
  unfold upsert_document, doc_index_of. rewrite Hkey. fold p. fold e1.
  destruct (find_index p docs) as [i|] eqn:Hfind.
  - apply find_index_Some in Hfind as (x & Hx & Hpx & Hbefore).
    assert (Hi : (i < length docs)%nat) by (eapply lookup_lt_Some; eauto).
    exists i. split; [apply list_lookup_insert_eq; exact Hi|].
    intros op2. rewrite find_index_insert_hit; auto.
  - assert (Hnone := proj1 (find_index_None p docs) Hfind).
    destruct (find_index (fun d => de_operation_id d =? op1) docs) as [j|] eqn:Hop.
    + apply find_index_Some in Hop as (x & Hx & _ & _).
      assert (Hj : (j < length docs)%nat) by (eapply lookup_lt_Some; eauto).
      exists j. split; [apply list_lookup_insert_eq; exact Hj|].
      intros op2. rewrite find_index_insert_hit; auto.
      intros k y Hy _. apply Hnone. eapply list_elem_of_lookup_2; eauto.
    + exists (length docs). split; [apply list_lookup_middle; reflexivity|].
      intros op2. rewrite find_index_app_hit; auto.
Qed.

Lemma analyzed_file_keys_elem (docs : list doc_entry) (e : doc_entry) (k : string) :
  e ∈ docs -> str_or (de_s3_key e) (de_stored_name e) = Some k ->
  str_truthy (Some k) = true ->
  existsb (String.eqb k) (analyzed_file_keys docs) = true.
Proof.
  intros He Hk Ht. apply existsb_exists. exists k.
  split; [|apply String.eqb_refl].
  unfold analyzed_file_keys. apply in_flat_map. exists e.
  split; [apply list_elem_of_In; exact He|]. rewrite Hk, Ht. left. reflexivity.
Qed.

Lemma analyzed_operation_ids_elem (docs : list doc_entry) (z : Z) :
  existsb (Z.eqb z) (analyzed_operation_ids docs) = true <->
  z <> 0 /\ exists e, e ∈ docs /\ de_operation_id e = z.
Proof.
  rewrite existsb_exists. unfold analyzed_operation_ids. split.
  - intros (x & Hin & Heq). apply Z.eqb_eq in Heq. subst x.
    apply in_flat_map in Hin as (e & He & Hz).
    destruct (de_operation_id e =? 0) eqn:H0; [destruct Hz|].
    destruct Hz as [Hz|[]]. apply Z.eqb_neq in H0.
    split; [congruence|]. exists e. split; [apply list_elem_of_In; exact He|exact Hz].
  - intros (Hz & e & He & Hop). exists z. split; [|apply Z.eqb_refl].
    apply in_flat_map. exists e. split; [apply list_elem_of_In; exact He|].
    rewrite Hop. apply Z.eqb_neq in Hz. rewrite Hz. left. reflexivity.
Qed.

Lemma analyzed_file_keys_spec (docs : list doc_entry) (k : string) :
  existsb (String.eqb k) (analyzed_file_keys docs) = true <->
  k <> ""%string
  /\ exists e, e ∈ docs /\ str_or (de_s3_key e) (de_stored_name e) = Some k.
Proof.
  rewrite existsb_exists. unfold analyzed_file_keys. split.
  - intros (x & Hin & Heq). apply String.eqb_eq in Heq. subst x.
    apply in_flat_map in Hin as (e & He & Hk).
    destruct (str_or (de_s3_key e) (de_stored_name e)) as [k'|] eqn:Hor; [|destruct Hk].
    destruct (str_truthy (Some k')) eqn:Ht; [|destruct Hk].
    destruct Hk as [->|[]]. simpl in Ht. apply negb_true_iff, String.eqb_neq in Ht.
    split; [exact Ht|]. exists e. split; [apply list_elem_of_In; exact He|exact Hor].
  - intros (Hk & e & He & Hor). exists k. split; [|apply String.eqb_refl].
    apply in_flat_map. exists e. split; [apply list_elem_of_In; exact He|].
    rewrite Hor. simpl. apply String.eqb_neq in Hk. rewrite Hk. simpl. left. reflexivity.
Qed.

Lemma already_analyzed_spec (docs : list doc_entry) (doc : file_op) :
  already_analyzed docs doc = true <->
  (exists k e, str_or (fo_s3_key doc) (fo_stored_name doc) = Some k
               /\ k <> ""%string /\ e ∈ docs
               /\ str_or (de_s3_key e) (de_stored_name e) = Some k)
  \/ (fo_id doc <> 0 /\ exists e, e ∈ docs /\ de_operation_id e = fo_id doc).
Proof.
  unfold already_analyzed.
  rewrite orb_true_iff, andb_true_iff, analyzed_operation_ids_elem.
  destruct (str_or (fo_s3_key doc) (fo_stored_name doc)) as [k|].
  - rewrite analyzed_file_keys_spec. simpl.
    rewrite negb_true_iff, String.eqb_neq. naive_solver.
  - naive_solver.
Qed.

(** C8 (amended): the already-analyzed test matches by content key first
    and then by operation id, the second whenever the first finds no
    entry; and for two documents that agree on [s3_key] and [stored_name]
    (one of them non-empty), whatever their operation ids, the second
    upsert overwrites the entry of the first in place: the index does not
    grow, and every document with that content key is skipped
    afterwards. *)
Theorem C8_same_file_collapses_to_one_entry
  (docs : list doc_entry) (s3 sn : option string) (op1 op2 : Z)
  (res1 res2 : dict) :
  str_truthy (str_or s3 sn) = true ->
  let docs1 := upsert_document docs op1 res1 s3 sn in
  let docs2 := upsert_document docs1 op2 res2 s3 sn in
  (exists i, docs1 !! i = Some (make_doc_entry op1 res1 s3 sn)
             /\ docs2 = <[i := make_doc_entry op2 res2 s3 sn]> docs1)
  /\ length docs2 = length docs1
  /\ (forall doc,
        str_or (fo_s3_key doc) (fo_stored_name doc) = str_or s3 sn ->
        already_analyzed docs1 doc = true /\ already_analyzed docs2 doc = true)
  /\ (forall docs0 doc,
        already_analyzed docs0 doc = true <->
        (exists k e, str_or (fo_s3_key doc) (fo_stored_name doc) = Some k
                     /\ k <> ""%string /\ e ∈ docs0
                     /\ str_or (de_s3_key e) (de_stored_name e) = Some k)
        \/ (fo_id doc <> 0
            /\ exists e, e ∈ docs0 /\ de_operation_id e = fo_id doc)).
Proof.
  intros Hkey docs1 docs2.
  destruct (upsert_document_position docs op1 res1 s3 sn Hkey) as (i & Hi & Hidx).
  fold docs1 in Hi, Hidx.
  assert (H2 : docs2 = <[i := make_doc_entry op2 res2 s3 sn]> docs1).
  { unfold docs2, upsert_document at 1. rewrite (Hidx op2). reflexivity. }
  assert (Hk : exists k, str_or s3 sn = Some k /\ str_truthy (Some k) = true).
  { destruct (str_or s3 sn) as [k|]; [eauto | discriminate]. }
  destruct Hk as (k & Hk & Hkt).
  split; [exists i; auto|]. split; [rewrite H2; apply length_insert|].
  split; [|intros docs0 doc; apply already_analyzed_spec].
  intros doc Hdoc. rewrite Hk in Hdoc.
  assert (Hpos : (i < length docs1)%nat) by (eapply lookup_lt_Some; eauto).
  split; unfold already_analyzed; rewrite Hdoc, Hkt; simpl;
    apply orb_true_iff; left.
  - apply (analyzed_file_keys_elem docs1 (make_doc_entry op1 res1 s3 sn) k);
      [eapply list_elem_of_lookup_2; eauto | exact Hk | exact Hkt].
  - apply (analyzed_file_keys_elem docs2 (make_doc_entry op2 res2 s3 sn) k);
      [|exact Hk | exact Hkt].
    rewrite H2. eapply list_elem_of_lookup_2.
    apply list_lookup_insert_eq. exact Hpos.
Qed.

Lemma C8_witness :
  str_truthy (str_or (Some "k"%string) None) = true
  /\ length (upsert_document
               (upsert_document [] 1 (Scenario.verdict Scenario.f0_85 [PInt 42])
                  (Some "k"%string) None)
               2 (Scenario.verdict Scenario.f0_7 []) (Some "k"%string) None)
     = length (upsert_document [] 1 (Scenario.verdict Scenario.f0_85 [PInt 42])
                 (Some "k"%string) None).
Proof.
  split; [reflexivity|].
  exact (proj1 (proj2 (C8_same_file_collapses_to_one_entry []
           (Some "k"%string) None 1 2
           (Scenario.verdict Scenario.f0_85 [PInt 42])
           (Scenario.verdict Scenario.f0_7 []) eq_refl))).
Defined.

(** C8 as stated fails: the two uploads have the content key "x" and
    different operation ids, and after one run the documents index holds
    an entry for each. *)
Lemma C8_counterexample :
  str_or (fo_s3_key Scenario.first_upload) (fo_stored_name Scenario.first_upload)
    = Some "x"%string
  /\ str_or (fo_s3_key Scenario.second_upload)
       (fo_stored_name Scenario.second_upload) = Some "x"%string
  /\ fo_id Scenario.first_upload <> fo_id Scenario.second_upload
  /\ map (fun e => (de_operation_id e, str_or (de_s3_key e) (de_stored_name e)))
       (documents
          (_load_json_index_documents 7 426
             (snd (_analyze_audit_relevance_background
                     (Scenario.constant_env
                        (Some (Scenario.verdict Scenario.f0_85 [PInt 42])))
                     (Some ""%string) 7 Scenario.two_uploads_one_key))))
     = [(1, Some "x"%string); (2, Some "x"%string)].
Proof.
  split; [reflexivity|]. split; [reflexivity|]. split; [discriminate|].
  vm_compute. reflexivity.
Qed.

(** ** Failures while analyzing one candidate *)

(** The analysis of a document never raises: at most it costs one call. *)
Lemma analyze_document_relevance_total (E : env) summary ad (w : World) :
  exists r,
    _analyze_document_audit_relevance E summary ad w = (Ok r, w)
    \/ _analyze_document_audit_relevance E summary ad w
       = (Ok r, set_ollama_calls (S (ollama_calls w)) w).
Proof.
  unfold _analyze_document_audit_relevance.
  destruct summary as [s|]; [|exists None; left; reflexivity].
  unfold bind. rewrite call_ollama_eq.
  destruct (ollama E (ollama_calls w)) as [[|kv d]|]; eexists; right; reflexivity.
Qed.

(** A record whose analysis raises costs its one call and nothing else. *)
Lemma analyze_record_raise_calls (E : env) t r results (w w1 : World) :
  analyze_record E t r results w = (Raise, w1) ->
  w1 = set_ollama_calls (S (ollama_calls w)) w.
Proof.
  unfold analyze_record, bind. rewrite call_ollama_eq.
  destruct (ollama E (ollama_calls w)) as [[|kv d]|]; try (intros H; discriminate H).
  destruct (py_float _ _); [|intros H; inversion H; reflexivity].
  destruct (py_or _ _);
    try (intros H; inversion H; reflexivity).
  destruct (aget t results); intros H; inversion H; reflexivity.
Qed.

(** C9 (amended): a failure inside the analysis of a document is
    contained (the analysis returns no verdict instead of raising, and
    the remaining documents are processed from the state it leaves),
    whereas an exception raised while analyzing a database record is
    re-raised: the remaining records and tables of the run are not
    analyzed, and the exception of an audit ends the audit loop. *)
Theorem C9_document_failures_contained_record_failures_abort (E : env) :
  (forall summary ad w, exists r w1,
     _analyze_document_audit_relevance E summary ad w = (Ok r, w1))
  /\ (forall fw a summary ad docs d rest w w1,
        already_analyzed docs d = false ->
        fo_metadata d <> MetaText false ->
        fo_file_name d <> None ->
        _analyze_document_audit_relevance E (str_or (fo_summary d) summary) ad w
          = (Ok None, w1) ->
        for_each (d :: rest) (analyze_document E fw a summary ad docs) w
        = for_each rest (analyze_document E fw a summary ad docs) w1)
  /\ (forall t r rest more results w w1,
        analyze_record E t r results w = (Raise, w1) ->
        analyze_tables E ((t, r :: rest) :: more) results w = (Raise, w1)
        /\ w1 = set_ollama_calls (S (ollama_calls w)) w)
  /\ (forall fw summary docs data a rest w w1,
        analyze_audit E fw summary docs data a w = (Raise, w1) ->
        analyze_audits E fw summary docs data (a :: rest) w = (Raise, w1)).
Proof.
  split; [|split; [|split]].
  - intros summary ad w.
    destruct (analyze_document_relevance_total E summary ad w) as (r & [H|H]);
      eauto.
  - intros fw a summary ad docs d rest w w1 Hnew Hmeta Hname Hnone.
    cbn [for_each]. unfold bind at 1. unfold analyze_document at 1.
    rewrite Hnew.
    destruct (fo_metadata d) as [|[|]] eqn:Hm; try (contradiction Hmeta; reflexivity);
      destruct (fo_file_name d) as [n|]; try (contradiction Hname; reflexivity);
      unfold bind at 1; rewrite Hnone; reflexivity.
  - intros t r rest more results w w1 Hraise.
    split; [|eapply analyze_record_raise_calls; eauto].
    cbn [analyze_tables take analyze_records]. unfold bind. rewrite Hraise.
    reflexivity.
  - intros fw summary docs data a rest w w1 Hraise.
    cbn [analyze_audits]. unfold bind. rewrite Hraise. reflexivity.
Qed.

Lemma C9_witness :
  analyze_record (Scenario.scripted_env [Some Scenario.numeric_reason])
    "incidents" (Scenario.incident 1) empty_results Scenario.two_incidents
  = (Raise, set_ollama_calls 1 Scenario.two_incidents)
  /\ analyze_tables (Scenario.scripted_env [Some Scenario.numeric_reason])
       [("incidents"%string, [Scenario.incident 1; Scenario.incident 2])]
       empty_results Scenario.two_incidents
     = (Raise, set_ollama_calls 1 Scenario.two_incidents).
Proof.
  assert (H : analyze_record (Scenario.scripted_env [Some Scenario.numeric_reason])
                "incidents" (Scenario.incident 1) empty_results
                Scenario.two_incidents
              = (Raise, set_ollama_calls 1 Scenario.two_incidents))
    by reflexivity.
  split; [exact H|].
  exact (proj1 (proj1 (proj2 (proj2
           (C9_document_failures_contained_record_failures_abort
              (Scenario.scripted_env [Some Scenario.numeric_reason]))))
           "incidents"%string (Scenario.incident 1) [Scenario.incident 2] []
           empty_results Scenario.two_incidents
           (set_ollama_calls 1 Scenario.two_incidents) H)).
Defined.

(** C9 as stated fails: with two incidents to analyze, an answer for the
    first whose reason is a number raises; the run ends with the
    exception after that one call, the second incident is never
    analyzed and nothing reaches the index.  With a well-formed first
    answer both are analyzed. *)
Lemma C9_counterexample :
  fst (_analyze_audit_relevance_background
         (Scenario.scripted_env
            [Some Scenario.numeric_reason;
             Some (Scenario.verdict Scenario.f0_9 [PInt 42])])
         (Some ""%string) 7 Scenario.two_incidents) = Raise
  /\ ollama_calls
       (snd (_analyze_audit_relevance_background
               (Scenario.scripted_env
                  [Some Scenario.numeric_reason;
                   Some (Scenario.verdict Scenario.f0_9 [PInt 42])])
               (Some ""%string) 7 Scenario.two_incidents)) = 1%nat
  /\ db_files
       (snd (_analyze_audit_relevance_background
               (Scenario.scripted_env
                  [Some Scenario.numeric_reason;
                   Some (Scenario.verdict Scenario.f0_9 [PInt 42])])
               (Some ""%string) 7 Scenario.two_incidents)) !! (7, 426) = None
  /\ ollama_calls
       (snd (_analyze_audit_relevance_background
               (Scenario.scripted_env
                  [Some (Scenario.verdict Scenario.f0_9 [PInt 42]);
                   Some (Scenario.verdict Scenario.f0_9 [PInt 42])])
               (Some ""%string) 7 Scenario.two_incidents)) = 2%nat.
Proof. vm_compute. repeat split. Qed.

(** ** Saving an index *)

Lemma trigger_where_spec (audit_id : Z) (r : ai_audit_row) :
  trigger_where audit_id r = true <-> document_row_to_reprocess audit_id r.
Proof.
  unfold trigger_where, document_row_to_reprocess, sql_ne_str.
  rewrite !andb_true_iff, Z.eqb_eq.
  destruct (ai_external_source r) as [s|], (ai_document_type r) as [t|],
    (ai_processing_status r) as [st|];
    rewrite ?negb_true_iff, ?String.eqb_neq; naive_solver.
Qed.

Lemma trigger_where_kept (audit_id : Z) (r : ai_audit_row) :
  row_kept_by_trigger audit_id r -> trigger_where audit_id r = false.
Proof.
  unfold row_kept_by_trigger, trigger_where, sql_ne_str.
  intros [Ha|[Hs|[Ht|Hst]]].
  - apply Z.eqb_neq in Ha. rewrite Ha. reflexivity.
  - rewrite Hs. simpl. rewrite andb_false_r. reflexivity.
  - rewrite Ht. simpl. rewrite !andb_false_r. reflexivity.
  - rewrite Hst. simpl. rewrite andb_false_r. reflexivity.
Qed.

Lemma trigger_processing_rows (audit_id : Z) (w : World) (i : nat) (r : ai_audit_row) :
  db_pool (static w) = true ->
  ai_audit_data w !! i = Some r ->
  ai_audit_data (trigger_processing audit_id w) !! i
  = Some (if trigger_where audit_id r
          then with_processing_status (Some "pending"%string) r else r).
Proof.
  intros Hpool Hr. unfold trigger_processing. rewrite Hpool. simpl.
  rewrite list_lookup_fmap, Hr. reflexivity.
Qed.

Lemma same_but_status_refl (r : ai_audit_row) : same_but_status r r.
Proof. unfold same_but_status. repeat split. Qed.

Lemma same_but_status_set (s : option string) (r : ai_audit_row) :
  same_but_status r (with_processing_status s r).
Proof. unfold same_but_status. repeat split. Qed.

Lemma pending_write_after_save E audit_id (w w' : World) :
  db_pool (static w) = true ->
  static w' = static w ->
  ai_audit_data w' = ai_audit_data w ->
  threads w' = threads w ++ [TriggerProcessing audit_id] ->
  pending_write_issued E audit_id w w'.
Proof.
  intros Hpool Hst Hrows Hth.
  assert (Hpool' : db_pool (static w') = true) by (rewrite Hst; exact Hpool).
  split; [exact Hth|]. split; [exact Hrows|]. split.
  - simpl. unfold trigger_processing. rewrite Hpool'. simpl.
    rewrite length_map, Hrows. reflexivity.
  - intros i r Hr. simpl. rewrite <- Hrows in Hr.
    rewrite (trigger_processing_rows audit_id w' i r Hpool' Hr).
    destruct (trigger_where audit_id r) eqn:Ht.
    + eexists. split; [reflexivity|].
      split; [apply same_but_status_set|].
      split; [reflexivity|].
      intros Hk. apply trigger_where_kept in Hk. congruence.
    + eexists. split; [reflexivity|].
      split; [apply same_but_status_refl|].
      split; [|reflexivity].
      intros Hd. apply trigger_where_spec in Hd. congruence.
Qed.

(** C10: every persistence of an index (the upsert of one document entry
    or of one record entry) for a truthy audit and framework id writes
    the file and starts one thread; with the connection pool up, the
    relational write of that thread adds, removes and moves no row, sets
    [ai_processing_status] to pending on every row of the audit whose
    source, type and status are set and are not those of a database
    record nor failed, and leaves the status of the rows of other
    audits, of database records and of failed rows as it was. *)
Theorem C10_saving_an_index_marks_document_rows_pending
  (E : env) (framework_id audit_id : Z) (w : World) :
  framework_id <> 0 -> audit_id <> 0 -> db_pool (static w) = true ->
  (forall operation_id analysis_result doc_s3_key doc_stored_name,
     let w' := _update_json_index_document framework_id audit_id operation_id
                 analysis_result doc_s3_key doc_stored_name w in
     is_Some (docs_files w' !! (framework_id, audit_id))
     /\ pending_write_issued E audit_id w w')
  /\ (forall table_name record_id analysis_result,
       let w' := _update_json_index_database framework_id audit_id table_name
                   record_id analysis_result w in
       is_Some (db_files w' !! (framework_id, audit_id))
       /\ pending_write_issued E audit_id w w').
Proof.
  intros Hfw Haud Hpool.
  assert (Hf : id_truthy (Some framework_id) = true)
    by (simpl; apply negb_true_iff, Z.eqb_neq; exact Hfw).
  assert (Ha : id_truthy (Some audit_id) = true)
    by (simpl; apply negb_true_iff, Z.eqb_neq; exact Haud).
  split.
  - intros op res k n w'. subst w'.
    unfold _update_json_index_document, _save_json_index_documents.
    cbn [di_audit_id di_framework_id]. rewrite Ha, Hf. simpl andb. cbv iota.
    split.
    + simpl. rewrite lookup_insert_eq. eauto.
    + apply pending_write_after_save; [exact Hpool|reflexivity..].
  - intros t rid res w'. subst w'.
    unfold _update_json_index_database, _save_json_index_database.
    cbn [bi_audit_id bi_framework_id]. rewrite Ha, Hf. simpl andb. cbv iota.
    split.
    + simpl. rewrite lookup_insert_eq. eauto.
    + apply pending_write_after_save; [exact Hpool|reflexivity..].
Qed.

Lemma C10_witness :
  (7 <> 0 /\ 426 <> 0 /\ db_pool (static Scenario.one_completed_row) = true)
  /\ map ai_processing_status
       (ai_audit_data
          (run_task (Scenario.constant_env None) (TriggerProcessing 426)
             (_update_json_index_database 7 426 "incidents" 9 []
                Scenario.one_completed_row)))
     = [Some "pending"%string]
  /\ pending_write_issued (Scenario.constant_env None) 426
       Scenario.one_completed_row
       (_update_json_index_database 7 426 "incidents" 9 []
          Scenario.one_completed_row).
Proof.
  split; [repeat split; try lia; reflexivity|].
  split; [vm_compute; reflexivity|].
  refine (proj2 (proj2 (C10_saving_an_index_marks_document_rows_pending
            (Scenario.constant_env None) 7 426 Scenario.one_completed_row
            _ _ _) "incidents"%string 9 [])); [lia|lia|reflexivity].
Defined.

(** C10 as stated fails.  With database evidence and a failed document
    as the only rows of audit 426, saving the index of the audit starts
    the thread, and the rows are the same once it has run: the save is
    free of effects on the existing rows.  With the connection pool
    down the thread writes nothing: the completed document row of the
    audit is still completed.  And a document row whose status is NULL,
    which is not failed, is not selected by the comparison with
    'failed' : its status is still NULL. *)
Lemma C10_counterexample :
  (let w := Scenario.database_and_failed_rows in
   let w' := _update_json_index_database 7 426 "incidents" 1 [] w in
   threads w' = [TriggerProcessing 426]
   /\ ai_audit_data w = [Scenario.database_row 1;
                         Scenario.attachment_row 2 "failed"]
   /\ ai_audit_data
        (run_task (Scenario.constant_env None) (TriggerProcessing 426) w')
      = ai_audit_data w)
  /\ (let w := Scenario.without_pool Scenario.one_completed_row in
      let w' := _update_json_index_document 7 426 1 [] (Some "k"%string)
                  (Some "n"%string) w in
      threads w' = [TriggerProcessing 426]
      /\ is_Some (docs_files w' !! (7, 426))
      /\ map ai_processing_status
           (ai_audit_data
              (run_task (Scenario.constant_env None) (TriggerProcessing 426) w'))
         = [Some "completed"%string])
  /\ (let w := Scenario.one_row_without_status in
      let w' := _update_json_index_database 7 426 "incidents" 1 [] w in
      threads w' = [TriggerProcessing 426]
      /\ map (fun r => (ai_audit_id r, ai_external_source r,
                        ai_processing_status r)) (ai_audit_data w)
         = [(426, Some "evidence_attachment"%string, None)]
      /\ map ai_processing_status
           (ai_audit_data
              (run_task (Scenario.constant_env None) (TriggerProcessing 426) w'))
         = [None]).
Proof.
  split; [|split].
  - repeat split; vm_compute; reflexivity.
  - split; [vm_compute; reflexivity|].
    split; [|vm_compute; reflexivity].
    simpl. unfold _update_json_index_document, _save_json_index_documents.
    simpl. rewrite lookup_insert_eq. eauto.
  - repeat split; vm_compute; reflexivity.
Qed.
(** ** Verdicts without a matched compliance *)

Lemma py_or_falsy (a b : pyval) : truthy a = false -> py_or a b = b.
Proof. unfold py_or. intros ->. reflexivity. Qed.

(** A record of a table other than [compliances] whose matched
    compliances are empty leaves the world as it is. *)
Lemma create_evidence_unmapped (E : env) (framework_id audit_id : Z)
  (table_name : string) (analysis : rec_entry) (w : World) :
  table_name <> "compliances"%string ->
  truthy (re_matched_compliances analysis) = false ->
  snd (create_evidence_for E framework_id audit_id table_name analysis w) = w.
Proof.
  intros Ht Hmc. unfold create_evidence_for.
  destruct (py_float _ _) as [score|]; [|reflexivity].
  destruct ((re_record_id analysis =? 0) || negb (Qle_bool f0_6 score));
    [reflexivity|].
  rewrite (py_or_falsy _ _ Hmc).
  apply String.eqb_neq in Ht. rewrite Ht. simpl. reflexivity.
Qed.

Lemma for_each_frame {A} (P : World -> Prop) (xs : list A) (body : A -> M unit) :
  (forall x w, x ∈ xs -> P w -> P (snd (body x w))) ->
  forall w, P w -> P (snd (for_each xs body w)).
Proof.
  induction xs as [|x xs IH]; intros Hbody w Hw; simpl; [exact Hw|].
  unfold bind. assert (H1 := Hbody x w (list_elem_of_here _ _) Hw).
  destruct (body x w) as [[[]|] w1]; simpl in *; [|exact H1].
  apply IH; [|exact H1]. intros y w' Hy. apply Hbody. right. exact Hy.
Qed.

Lemma create_evidence_results_unmapped (E : env) (framework_id : option Z)
  (audit_id : Z) (db_results : list (string * list rec_entry)) (w : World) :
  (forall t es e, (t, es) ∈ db_results -> e ∈ es ->
     t <> "compliances"%string /\ truthy (re_matched_compliances e) = false) ->
  snd (_create_ai_evidence_from_database_results E framework_id audit_id
         db_results w) = w.
Proof.
  intros Hall. unfold _create_ai_evidence_from_database_results, bind, gets.
  destruct framework_id as [fw|]; [|reflexivity].
  destruct (negb (db_pool (static w)) || negb (id_truthy (Some fw)));
    [reflexivity|].
  apply (for_each_frame (fun w' => w' = w)); [|reflexivity].
  intros [t es] w' Hin ->.
  apply (for_each_frame (fun w' => w' = w)); [|reflexivity].
  intros e w' He ->. rewrite try_pass_snd.
  destruct (Hall t es e Hin He). apply create_evidence_unmapped; assumption.
Qed.

Lemma no_attachment_of_other_audits (audit_id : Z) (a b c : string)
  (rows : list ai_audit_row) :
  (forall r, r ∈ rows -> ai_audit_id r <> audit_id) ->
  existsb (is_attachment_for audit_id a b c) rows = false.
Proof.
  intros H. induction rows as [|r rows IH]; simpl; [reflexivity|].
  rewrite IH by (intros r' Hr'; apply H; right; exact Hr').
  unfold is_attachment_for.
  assert (Hne := H r (list_elem_of_here _ _)). apply Z.eqb_neq in Hne.
  rewrite Hne. reflexivity.
Qed.

(** A document without matched compliances that is auto-processed for an
    audit that has no evidence row yet gets one row, mapped to nothing. *)
Lemma process_document_unmapped (E : env) (audit_id framework_id : Z)
  (uploaded_by : option Z) (op : Z) (processed : list Z) (w : World)
  (file_op : file_op) :
  existsb (Z.eqb op) processed = false ->
  List.find (fun f => (fo_id f =? op) && sql_eq_str (fo_status f) "completed")
    (file_operations (static w)) = Some file_op ->
  (forall r, r ∈ ai_audit_data w -> ai_audit_id r <> audit_id) ->
  exists row,
    process_document E audit_id framework_id uploaded_by op (PList []) processed w
    = (op :: processed, [next_ai_id w],
       set_next_ai_id (next_ai_id w + 1)
         (set_ai_audit_data (ai_audit_data w ++ [row]) w))
    /\ ai_audit_id row = audit_id
    /\ ai_policy_id row = None /\ ai_subpolicy_id row = None
    /\ ai_external_source row = Some "evidence_attachment"%string
    /\ ai_external_id row = Some (pretty op).
Proof.
  intros Hproc Hfile Hnone. unfold process_document.
  rewrite Hproc, Hfile.
  rewrite (no_attachment_of_other_audits audit_id _ _ _ _ Hnone).
  cbn [mappings_to_create truthy attachment_rows map length ai_id Z.of_nat
       Pos.of_succ_nat].
  eexists. split; [reflexivity|]. repeat split.
Qed.

Lemma unmapped_results_spec (db_results : list (string * list rec_entry)) :
  unmapped_results db_results = true ->
  forall t es e, (t, es) ∈ db_results -> e ∈ es ->
    t <> "compliances"%string /\ truthy (re_matched_compliances e) = false.
Proof.
  unfold unmapped_results. rewrite forallb_forall. intros H t es e Hin He.
  apply list_elem_of_In in Hin. specialize (H _ Hin). simpl in H.
  apply andb_true_iff in H as [Ht Hes].
  apply negb_true_iff, String.eqb_neq in Ht. split; [exact Ht|].
  rewrite forallb_forall in Hes. apply list_elem_of_In in He.
  apply negb_true_iff. apply Hes. exact He.
Qed.

Lemma no_evidence_for_spec (audit_id : Z) (rows : list ai_audit_row) :
  no_evidence_for audit_id rows = true ->
  forall r, r ∈ rows -> ai_audit_id r <> audit_id.
Proof.
  unfold no_evidence_for. rewrite forallb_forall. intros H r Hr.
  apply list_elem_of_In in Hr. specialize (H r Hr).
  apply negb_true_iff, Z.eqb_neq in H. exact H.
Qed.

(** A row of the [compliances] table is mapped through its own id: at or
    above the threshold it gets an evidence row whatever its matched
    compliances are. *)
Lemma create_evidence_inserts_compliance_row (E : env)
  (framework_id audit_id : Z) (analysis : rec_entry) (score : Q) (w : World)
  (c' : Z) (sp p : option Z) (reason : string) :
  py_float (str_to_float E) (py_or (re_relevance_score analysis) (PInt 0))
    = Some score ->
  Qle_bool f0_6 score = true ->
  (re_record_id analysis =? 0) = false ->
  compliance_mapping (re_record_id analysis) (static w) = Some (c', sp, p) ->
  (c' =? 0) = false ->
  re_relevance_reason analysis = PStr reason ->
  List.find (is_db_evidence_for audit_id
               (db_external_id "compliances" (re_record_id analysis)))
    (ai_audit_data w) = None ->
  exists row w',
    create_evidence_for E framework_id audit_id "compliances" analysis w
    = (Ok tt, w')
    /\ ai_audit_data w' = ai_audit_data w ++ [row]
    /\ ai_audit_id row = audit_id
    /\ ai_external_source row = Some "database_record"%string
    /\ ai_external_id row
       = Some (db_external_id "compliances" (re_record_id analysis)).
Proof.
  intros Hs Hge Hrid Hmap Hc' Hreason Hnew.
  unfold create_evidence_for. rewrite Hs, Hge, Hrid.
  cbn [String.eqb Ascii.eqb Bool.eqb andb orb negb]. unfold id_truthy.
  rewrite Hrid. cbn [negb andb]. unfold bind, gets, ret, modify. cbv beta.
  unfold id_truthy. cbv iota beta. rewrite Hrid. cbn [negb].
  rewrite Hmap, Hc', Hreason. cbn [reason_prefix]. rewrite Hnew.
  destruct (Qle_bool f0_8 score); eexists; eexists;
    (split; [reflexivity|]); repeat split.
Qed.

(** C2 (amended): database verdicts of tables other than [compliances]
    whose matched compliances are empty create and change no evidence
    record, whatever their scores; a row of the [compliances] table is
    mapped through its own id and, at or above the threshold, gets an
    evidence record whatever its matched compliances; and a document
    whose verdict has no matched compliance does get an evidence record
    when it is auto-processed: a single row mapped to no policy and no
    subpolicy. *)
Theorem C2_unmapped_record_verdicts_create_nothing
  (E : env) (audit_id : Z) (w : World) :
  (forall framework_id db_results,
     unmapped_results db_results = true ->
     snd (_create_ai_evidence_from_database_results E framework_id audit_id
            db_results w) = w)
  /\ (forall framework_id analysis score c' sp p reason,
        py_float (str_to_float E) (py_or (re_relevance_score analysis) (PInt 0))
          = Some score ->
        Qle_bool f0_6 score = true ->
        (re_record_id analysis =? 0) = false ->
        compliance_mapping (re_record_id analysis) (static w)
          = Some (c', sp, p) ->
        (c' =? 0) = false ->
        re_relevance_reason analysis = PStr reason ->
        List.find (is_db_evidence_for audit_id
                     (db_external_id "compliances" (re_record_id analysis)))
          (ai_audit_data w) = None ->
        exists row w',
          create_evidence_for E framework_id audit_id "compliances" analysis w
          = (Ok tt, w')
          /\ ai_audit_data w' = ai_audit_data w ++ [row]
          /\ ai_external_id row
             = Some (db_external_id "compliances" (re_record_id analysis)))
  /\ (forall framework_id uploaded_by operation_id file_op,
        List.find (fun f => (fo_id f =? operation_id)
                            && sql_eq_str (fo_status f) "completed")
          (file_operations (static w)) = Some file_op ->
        no_evidence_for audit_id (ai_audit_data w) = true ->
        exists row,
          process_document E audit_id framework_id uploaded_by operation_id
            (PList []) [] w
          = ([operation_id], [next_ai_id w],
             set_next_ai_id (next_ai_id w + 1)
               (set_ai_audit_data (ai_audit_data w ++ [row]) w))
          /\ ai_audit_id row = audit_id
          /\ ai_policy_id row = None /\ ai_subpolicy_id row = None
          /\ ai_external_source row = Some "evidence_attachment"%string
          /\ ai_external_id row = Some (pretty operation_id)).
Proof.
  split; [|split].
  - intros fw db_results H. apply create_evidence_results_unmapped.
    apply unmapped_results_spec. exact H.
  - intros fw e score c' sp p reason Hs Hge Hrid Hmap Hc' Hreason Hnew.
    destruct (create_evidence_inserts_compliance_row E fw audit_id e score w
                c' sp p reason Hs Hge Hrid Hmap Hc' Hreason Hnew)
      as (row & w' & Hrun & Hrows & _ & _ & Hext).
    exists row, w'. auto.
  - intros fw uploaded_by op file_op Hfile Hnone.
    apply (process_document_unmapped E audit_id fw uploaded_by op [] w file_op);
      [reflexivity | exact Hfile | apply no_evidence_for_spec; exact Hnone].
Qed.

Lemma C2_witness :
  unmapped_results
    [("incidents"%string, [Scenario.record_entry 1 Scenario.f0_9 []])] = true
  /\ snd (_create_ai_evidence_from_database_results (Scenario.constant_env None)
            (Some 7) 426
            [("incidents"%string, [Scenario.record_entry 1 Scenario.f0_9 []])]
            Scenario.one_incident)
     = Scenario.one_incident.
Proof.
  split; [reflexivity|].
  exact (proj1 (C2_unmapped_record_verdicts_create_nothing
                  (Scenario.constant_env None) 426 Scenario.one_incident)
           (Some 7)
           [("incidents"%string, [Scenario.record_entry 1 Scenario.f0_9 []])]
           eq_refl).
Defined.

(** C2 as stated fails.  A document whose verdict has score 0.9 and no
    matched compliance is stored, and the auto-processing thread the run
    starts for it creates an evidence record; and a row of the
    [compliances] table with the same verdict is mapped through its own
    id and gets an evidence record during the run. *)
Lemma C2_counterexample :
  py_ge_float (PFloat Scenario.f0_9) f0_6 = Some true
  /\ map de_matched_compliances
       (documents
          (_load_json_index_documents 7 426
             (Scenario.after_run
                (Scenario.scripted_env [Some (Scenario.verdict Scenario.f0_9 [])])
                Scenario.one_document)))
     = [PList []]
  /\ map (fun r => (ai_audit_id r, ai_external_source r, ai_external_id r,
                    ai_policy_id r))
       (ai_audit_data
          (Scenario.after_threads
             (Scenario.scripted_env [Some (Scenario.verdict Scenario.f0_9 [])])
             (Scenario.after_run
                (Scenario.scripted_env [Some (Scenario.verdict Scenario.f0_9 [])])
                Scenario.one_document)))
     = [(426, Some "evidence_attachment"%string, Some "1"%string, None)]
  /\ map (fun r => (ai_audit_id r, ai_external_source r, ai_external_id r,
                    ai_policy_id r))
       (ai_audit_data
          (Scenario.after_run
             (Scenario.scripted_env [Some (Scenario.verdict Scenario.f0_9 [])])
             Scenario.one_compliance_row))
     = [(426, Some "database_record"%string, Some "compliances:42"%string,
         Some 5)].
Proof. vm_compute. repeat split. Qed.

(** ** Reruns *)

Lemma same_indexes_refl (w : World) : same_indexes w w.
Proof. repeat split. Qed.

Lemma same_indexes_trans (w1 w2 w3 : World) :
  same_indexes w1 w2 -> same_indexes w2 w3 -> same_indexes w1 w3.
Proof.
  intros (A1 & A2 & A3 & A4) (B1 & B2 & B3 & B4).
  repeat split; congruence.
Qed.

Lemma rerun_invariant_refl (w : World) : rerun_invariant w w.
Proof. split; [apply same_indexes_refl | tauto]. Qed.

Lemma rerun_invariant_trans (w1 w2 w3 : World) :
  rerun_invariant w1 w2 -> rerun_invariant w2 w3 -> rerun_invariant w1 w3.
Proof.
  intros [A1 A2] [B1 B2]. split; [eapply same_indexes_trans; eauto | tauto].
Qed.

(** A step that touches neither the inputs, the indexes, the calls nor
    the evidence rows. *)
Lemma rerun_invariant_rows (w w' : World) :
  same_indexes w w' -> ai_audit_data w' = ai_audit_data w ->
  rerun_invariant w w'.
Proof. intros H1 H2. split; [exact H1|]. rewrite H2. tauto. Qed.

Section Preservation.
Variable R : World -> World -> Prop.
Hypothesis R_refl : forall w, R w w.
Hypothesis R_trans : forall w1 w2 w3, R w1 w2 -> R w2 w3 -> R w1 w3.

Lemma preserved_bind {A B} (m : M A) (k : A -> M B) (w : World) :
  R w (snd (m w)) ->
  (forall a w1, m w = (Ok a, w1) -> R w1 (snd (k a w1))) ->
  R w (snd (bind m k w)).
Proof.
  intros Hm Hk. unfold bind. destruct (m w) as [[a|] w1] eqn:Hmw; simpl in *.
  - eapply R_trans; [exact Hm|]. apply Hk. reflexivity.
  - exact Hm.
Qed.

Lemma preserved_try_pass (m : M unit) (w : World) :
  R w (snd (m w)) -> R w (snd (try_pass m w)).
Proof. rewrite try_pass_snd. tauto. Qed.

Lemma preserved_for_each {A} (xs : list A) (body : A -> M unit) :
  (forall x w, R w (snd (body x w))) ->
  forall w, R w (snd (for_each xs body w)).
Proof.
  intros Hbody. induction xs as [|x xs IH]; intros w; simpl; [apply R_refl|].
  apply preserved_bind; [apply Hbody|]. intros _ w1 _. apply IH.
Qed.
End Preservation.

Lemma db_key_backfill p sp name json existing r :
  db_key (backfill_row p sp name json existing r) = db_key r.
Proof. reflexivity. Qed.

Lemma omap_cons_eq {A B} (f : A -> option B) (x : A) (l : list A) :
  omap f (x :: l)
  = match f x with Some y => y :: omap f l | None => omap f l end.
Proof. reflexivity. Qed.

Lemma omap_db_key_backfill p sp name json existing (c : ai_audit_row -> bool)
  (rows : list ai_audit_row) :
  omap db_key (map (fun r => if c r then backfill_row p sp name json existing r
                             else r) rows)
  = omap db_key rows.
Proof.
  induction rows as [|r rows IH]; [reflexivity|].
  cbn [map]. rewrite !omap_cons_eq, IH. destruct (c r); reflexivity.
Qed.

Lemma db_key_not_found (audit_id : Z) (external_id : string)
  (rows : list ai_audit_row) :
  List.find (is_db_evidence_for audit_id external_id) rows = None ->
  (audit_id, external_id) ∉ omap db_key rows.
Proof.
  intros Hfind Hin. apply list_elem_of_omap in Hin as (r & Hr & Hk).
  apply list_elem_of_In in Hr.
  assert (Hno := find_none _ _ Hfind r Hr).
  unfold db_key in Hk. unfold is_db_evidence_for in Hno.
  destruct (sql_eq_str (ai_external_source r) "database_record"); [|discriminate].
  destruct (ai_external_id r) as [x|]; [|discriminate].
  injection Hk as Ha Hx. subst. simpl in Hno.
  rewrite Z.eqb_refl, String.eqb_refl in Hno. discriminate.
Qed.

Lemma db_evidence_unique_insert (audit_id : Z) (external_id : string)
  (rows : list ai_audit_row) (row : ai_audit_row) :
  List.find (is_db_evidence_for audit_id external_id) rows = None ->
  db_key row = Some (audit_id, external_id) ->
  db_evidence_unique rows -> db_evidence_unique (rows ++ [row]).
Proof.
  intros Hfind Hkey Hu. unfold db_evidence_unique in *.
  rewrite omap_app, omap_cons_eq, Hkey.
  apply NoDup_app. split; [exact Hu|]. split.
  - intros k Hk Hk'. apply list_elem_of_singleton in Hk'. subst k.
    exact (db_key_not_found _ _ _ Hfind Hk).
  - apply NoDup_singleton.
Qed.

Ltac invert_gets :=
  repeat match goal with
         | H : gets _ _ = (Ok _, _) |- _ =>
             unfold gets in H; injection H as ? ?; subst
         | H : ret _ _ = (Ok _, _) |- _ =>
             unfold ret in H; injection H as ? ?; subst
         | H : raise _ = (Ok _, _) |- _ => discriminate H
         end.

Ltac invariant_step :=
  first
    [ apply rerun_invariant_refl
    | apply (preserved_bind rerun_invariant rerun_invariant_trans);
      [|intros ? ? ?; invert_gets]
    | match goal with
      | |- rerun_invariant _ (snd ((match ?x with _ => _ end) _)) =>
          destruct x eqn:?
      | |- rerun_invariant _ (snd ((if ?x then _ else _) _)) =>
          destruct x eqn:?
      | |- rerun_invariant _ (snd ((let '(_, _) := ?x in _) _)) =>
          destruct x eqn:?
      end ].

(** The synthesis of one database verdict keeps the invariant: it
    inserts a row only when no row has its provenance. *)
Lemma create_evidence_for_invariant (E : env) (framework_id audit_id : Z)
  (table_name : string) (analysis : rec_entry) (w : World) :
  rerun_invariant w
    (snd (create_evidence_for E framework_id audit_id table_name analysis w)).
Proof.
  unfold create_evidence_for.
  repeat invariant_step.
  - split; [repeat split|]. unfold db_evidence_unique. cbn [modify snd
      set_ai_audit_data ai_audit_data].
    rewrite omap_db_key_backfill. tauto.
  - split; [repeat split|]. cbn [modify snd set_next_ai_id set_ai_audit_data
      ai_audit_data].
    eapply db_evidence_unique_insert; [eassumption|reflexivity].
  - apply rerun_invariant_rows; repeat split.
Qed.

Lemma create_evidence_results_invariant (E : env) (framework_id : option Z)
  (audit_id : Z) (db_results : list (string * list rec_entry)) (w : World) :
  rerun_invariant w
    (snd (_create_ai_evidence_from_database_results E framework_id audit_id
            db_results w)).
Proof.
  unfold _create_ai_evidence_from_database_results.
  repeat invariant_step.
  apply (preserved_for_each rerun_invariant rerun_invariant_refl
           rerun_invariant_trans).
  intros [t es] w2.
  apply (preserved_for_each rerun_invariant rerun_invariant_refl
           rerun_invariant_trans).
  intros e w3. apply preserved_try_pass. apply create_evidence_for_invariant.
Qed.

Lemma aggregate_invariant (audit_id : Z) (docs : list doc_entry)
  (full_db_results : list (string * list rec_entry)) (w : World) :
  rerun_invariant w (snd (aggregate audit_id docs full_db_results w)).
Proof.
  unfold aggregate. repeat invariant_step;
    apply rerun_invariant_rows; repeat split.
Qed.

Lemma omap_db_key_status (c : ai_audit_row -> bool) (s : option string)
  (rows : list ai_audit_row) :
  omap db_key (map (fun r => if c r then with_processing_status s r else r) rows)
  = omap db_key rows.
Proof.
  induction rows as [|r rows IH]; [reflexivity|].
  cbn [map]. rewrite !omap_cons_eq, IH. destruct (c r); reflexivity.
Qed.

Lemma trigger_processing_invariant (audit_id : Z) (w : World) :
  rerun_invariant w (trigger_processing audit_id w).
Proof.
  unfold trigger_processing. destruct (db_pool (static w));
    [|apply rerun_invariant_refl].
  split; [repeat split|]. unfold db_evidence_unique.
  cbn [set_ai_audit_data ai_audit_data]. rewrite omap_db_key_status. tauto.
Qed.

Lemma omap_db_key_attachments first_id audit_id file_name document_path
  file_type file_size mime_type uploaded_by external_id framework_id
  (ms : list mapping) :
  omap db_key
    (attachment_rows first_id audit_id file_name document_path file_type
       file_size mime_type uploaded_by external_id framework_id ms) = [].
Proof.
  revert first_id. induction ms as [|m ms IH]; intros first_id; [reflexivity|].
  cbn [attachment_rows]. rewrite omap_cons_eq. cbn. apply IH.
Qed.

Lemma process_document_invariant (E : env) audit_id framework_id uploaded_by
  op mc processed (w : World) :
  rerun_invariant w
    (snd (process_document E audit_id framework_id uploaded_by op mc processed w)).
Proof.
  unfold process_document.
  repeat match goal with
         | |- rerun_invariant _ (snd (match ?x with _ => _ end)) => destruct x eqn:?
         | |- rerun_invariant _ (snd (if ?x then _ else _)) => destruct x eqn:?
         end; try apply rerun_invariant_refl.
  all: split; [repeat split|]; unfold db_evidence_unique;
    cbn [snd set_next_ai_id set_ai_audit_data ai_audit_data];
    rewrite omap_app, omap_db_key_attachments, app_nil_r; tauto.
Qed.

Lemma process_documents_invariant (E : env) audit_id framework_id uploaded_by
  todo processed (w : World) :
  rerun_invariant w
    (snd (process_documents E audit_id framework_id uploaded_by todo processed w)).
Proof.
  revert processed w. induction todo as [|[op mc] todo IH]; intros processed w;
    [apply rerun_invariant_refl|].
  cbn [process_documents].
  assert (H1 := process_document_invariant E audit_id framework_id uploaded_by
                  op mc processed w).
  destruct (process_document E audit_id framework_id uploaded_by op mc
              processed w) as [[processed' created] w1].
  assert (H2 := IH processed' w1).
  destruct (process_documents E audit_id framework_id uploaded_by todo
              processed' w1) as [created' w2].
  simpl in *. eapply rerun_invariant_trans; eauto.
Qed.

Lemma auto_process_invariant (E : env) operation_id audit_id relevance_result
  (w : World) :
  rerun_invariant w
    (_auto_process_relevant_document E operation_id audit_id relevance_result w).
Proof.
  unfold _auto_process_relevant_document.
  destruct (negb (db_pool (static w))); [apply rerun_invariant_refl|].
  destruct (List.find _ _) as [audit_row|]; [|apply rerun_invariant_refl].
  destruct (a_FrameworkId audit_row) as [framework_id|];
    [|apply rerun_invariant_refl].
  destruct (framework_id =? 0); [apply rerun_invariant_refl|].
  destruct (negb (forallb _ _)); [apply rerun_invariant_refl|].
  match goal with
  | |- rerun_invariant _ (let '(_, _) := ?x in _) =>
      assert (H : rerun_invariant w (snd x))
        by apply process_documents_invariant;
      destruct x as [ids w1]; simpl in H
  end.
  eapply rerun_invariant_trans; [exact H|].
  apply rerun_invariant_rows; repeat split.
Qed.

(** No thread disturbs the indexes, the calls or the uniqueness of
    database evidence. *)
Lemma run_task_invariant (E : env) (t : task) (w : World) :
  rerun_invariant w (run_task E t w).
Proof.
  destruct t; simpl.
  - apply trigger_processing_invariant.
  - apply auto_process_invariant.
  - apply rerun_invariant_refl.
  - apply rerun_invariant_refl.
Qed.

(** With every document already analyzed the document loop does
    nothing. *)
Lemma documents_all_skipped (E : env) fw a summary ad (docs : list doc_entry)
  (all_documents : list file_op) (w : World) :
  forallb (already_analyzed docs) all_documents = true ->
  for_each all_documents (analyze_document E fw a summary ad docs) w = (Ok tt, w).
Proof.
  induction all_documents as [|d rest IH]; intros H; [reflexivity|].
  simpl in H. apply andb_true_iff in H as [Hd Hrest].
  cbn [for_each]. unfold bind at 1. unfold analyze_document at 1. rewrite Hd.
  cbn [ret]. apply IH. exact Hrest.
Qed.

Lemma analyze_audit_indexed (E : env) (fw : Z) (summary : option string)
  (all_documents : list file_op) (all_database_data : list (string * list dict))
  (audit : audit_row) (w : World) :
  forallb (already_analyzed
             (documents (_load_json_index_documents fw (AuditId audit) w)))
    all_documents = true ->
  incremental_db_data E
    (already_analyzed_db
       (database_data (_load_json_index_database fw (AuditId audit) w)))
    all_database_data = [] ->
  rerun_invariant w
    (snd (analyze_audit E fw summary all_documents all_database_data audit w)).
Proof.
  intros Hdocs Hdb. unfold analyze_audit.
  destruct (a_Title audit); [|apply rerun_invariant_refl].
  unfold bind at 1. unfold gets at 1.
  unfold bind at 1. unfold gets at 1.
  unfold bind at 1. unfold gets at 1.
  unfold bind at 1. rewrite (documents_all_skipped E _ _ _ _ _ _ w Hdocs).
  rewrite Hdb. unfold bind at 1. cbn [ret].
  unfold bind at 1. unfold modify at 1. cbn [index_db_results fold_left].
  unfold bind at 1. unfold gets at 1.
  apply (preserved_bind rerun_invariant rerun_invariant_trans);
    [apply create_evidence_results_invariant|].
  intros _ w1 _. apply aggregate_invariant.
Qed.

Lemma load_documents_same (fw a : Z) (w w' : World) :
  same_indexes w w' ->
  _load_json_index_documents fw a w' = _load_json_index_documents fw a w.
Proof.
  intros (_ & H & _ & _). unfold _load_json_index_documents. rewrite H.
  reflexivity.
Qed.

Lemma load_database_same (fw a : Z) (w w' : World) :
  same_indexes w w' ->
  _load_json_index_database fw a w' = _load_json_index_database fw a w.
Proof.
  intros (_ & _ & H & _). unfold _load_json_index_database. rewrite H.
  reflexivity.
Qed.

Lemma fully_indexed_same (E : env) (fw : Z) (w w' : World) (a : audit_row) :
  same_indexes w w' -> fully_indexed E fw w' a = fully_indexed E fw w a.
Proof.
  intros H. unfold fully_indexed.
  rewrite (load_documents_same fw _ w w' H), (load_database_same fw _ w w' H).
  unfold _get_all_documents_from_file_operations, _get_all_database_data.
  destruct H as (-> & _). reflexivity.
Qed.

Lemma active_audits_same (fw : Z) (w w' : World) :
  same_indexes w w' -> _get_active_ai_audits fw w' = _get_active_ai_audits fw w.
Proof.
  intros (H & _). unfold _get_active_ai_audits. rewrite H. reflexivity.
Qed.

Lemma analyze_audits_indexed (E : env) (fw : Z) (summary : option string)
  (all_documents : list file_op) (all_database_data : list (string * list dict))
  (audits : list audit_row) (w : World) :
  (forall a, a ∈ audits ->
     forallb (already_analyzed
                (documents (_load_json_index_documents fw (AuditId a) w)))
       all_documents = true
     /\ incremental_db_data E
          (already_analyzed_db
             (database_data (_load_json_index_database fw (AuditId a) w)))
          all_database_data = []) ->
  rerun_invariant w
    (snd (analyze_audits E fw summary all_documents all_database_data audits w)).
Proof.
  revert w. induction audits as [|a audits IH]; intros w Hall;
    [apply rerun_invariant_refl|].
  cbn [analyze_audits].
  destruct (Hall a (list_elem_of_here _ _)) as [Hd Hb].
  apply (preserved_bind rerun_invariant rerun_invariant_trans);
    [apply analyze_audit_indexed; assumption|].
  intros r w1 Hrun.
  assert (H1 : rerun_invariant w w1).
  { assert (H := analyze_audit_indexed E fw summary all_documents
                   all_database_data a w Hd Hb).
    rewrite Hrun in H. exact H. }
  apply (preserved_bind rerun_invariant rerun_invariant_trans);
    [|intros; apply rerun_invariant_refl].
  apply IH. intros a' Ha'.
  destruct (Hall a' (list_elem_of_further _ _ _ Ha')) as [Hd' Hb'].
  destruct H1 as [Hsame _].
  rewrite (load_documents_same fw _ w w1 Hsame),
    (load_database_same fw _ w w1 Hsame). split; assumption.
Qed.

(** A run over a fully indexed evidence set keeps the invariant. *)
Lemma rerun_indexed (E : env) (summary : option string) (fw : Z) (w : World) :
  forallb (fully_indexed E fw w) (_get_active_ai_audits fw w) = true ->
  rerun_invariant w (snd (_analyze_audit_relevance_background E summary fw w)).
Proof.
  intros Hfull. unfold _analyze_audit_relevance_background.
  unfold bind at 1. unfold gets at 1.
  destruct (_get_active_ai_audits fw w) as [|a audits] eqn:Haud;
    [apply rerun_invariant_refl|].
  unfold bind at 1. unfold gets at 1. unfold bind at 1. unfold gets at 1.
  apply analyze_audits_indexed. intros a' Ha'.
  rewrite forallb_forall in Hfull.
  specialize (Hfull a' (proj1 (list_elem_of_In _ _) Ha')).
  unfold fully_indexed in Hfull. apply andb_true_iff in Hfull as [Hd Hb].
  split; [exact Hd|].
  destruct (incremental_db_data E _ _); [reflexivity|discriminate].
Qed.

Lemma forallb_pointwise {A} (f g : A -> bool) (l : list A) :
  (forall x, f x = g x) -> forallb f l = forallb g l.
Proof.
  intros H. induction l as [|x l IH]; simpl; [reflexivity|].
  rewrite H, IH. reflexivity.
Qed.

Lemma rerun_steps_invariant (E : env) (summary : option string) (fw : Z)
  (w w' : World) :
  forallb (fully_indexed E fw w) (_get_active_ai_audits fw w) = true ->
  rerun_steps E summary fw w w' -> rerun_invariant w w'.
Proof.
  intros Hfull Hsteps. induction Hsteps as [w|w w' Hsteps IH|w w' t Hsteps IH].
  - apply rerun_invariant_refl.
  - specialize (IH Hfull). eapply rerun_invariant_trans; [exact IH|].
    apply rerun_indexed. destruct IH as [Hsame _].
    rewrite (active_audits_same fw w w' Hsame).
    rewrite (forallb_pointwise _ (fully_indexed E fw w));
      [exact Hfull|].
    intros a. apply fully_indexed_same. exact Hsame.
  - specialize (IH Hfull). eapply rerun_invariant_trans; [exact IH|].
    apply run_task_invariant.
Qed.

(** A document that has an evidence row which did not fail is given no
    further row. *)
Lemma process_document_existing (E : env) (audit_id framework_id : Z)
  (uploaded_by : option Z) (op : Z) (mc : pyval) (processed : list Z)
  (w : World) (r : ai_audit_row) (st : string) :
  r ∈ ai_audit_data w ->
  ai_audit_id r = audit_id ->
  ai_external_source r = Some "evidence_attachment"%string ->
  ai_external_id r = Some (pretty op) ->
  ai_processing_status r = Some st -> st <> "failed"%string ->
  snd (process_document E audit_id framework_id uploaded_by op mc processed w)
  = w.
Proof.
  intros Hr Ha Hs He Hst Hnf. unfold process_document.
  destruct (existsb (Z.eqb op) processed); [reflexivity|].
  assert (Hex : forall b c,
            existsb (is_attachment_for audit_id (pretty op) b c)
              (ai_audit_data w) = true).
  { intros b c. apply existsb_exists. exists r.
    split; [apply list_elem_of_In; exact Hr|].
    unfold is_attachment_for. rewrite Ha, Hs, He, Hst. simpl.
    rewrite Z.eqb_refl, String.eqb_refl. simpl.
    apply String.eqb_neq in Hnf. rewrite Hnf. reflexivity. }
  destruct mc; try reflexivity;
    destruct (List.find _ _); try reflexivity; rewrite Hex; reflexivity.
Qed.

(** C4 (amended): once the index of the audit covers the evidence set,
    any number of reruns on the unchanged evidence, with any threads run
    in between, call the reasoning service for nothing and leave the
    persisted documents and database indexes identical; database
    evidence rows stay at most one per audit and provenance; and a
    document that already has an evidence row which did not fail is
    given no further one. *)
Theorem C4_reruns_on_indexed_evidence_are_idempotent
  (E : env) (summary : option string) (framework_id : Z) (w w' : World) :
  forallb (fully_indexed E framework_id w)
    (_get_active_ai_audits framework_id w) = true ->
  rerun_steps E summary framework_id w w' ->
  ollama_calls w' = ollama_calls w
  /\ docs_files w' = docs_files w
  /\ db_files w' = db_files w
  /\ (db_evidence_unique (ai_audit_data w) ->
      db_evidence_unique (ai_audit_data w'))
  /\ (forall audit_id fw uploaded_by op mc processed r st,
        r ∈ ai_audit_data w' ->
        ai_audit_id r = audit_id ->
        ai_external_source r = Some "evidence_attachment"%string ->
        ai_external_id r = Some (pretty op) ->
        ai_processing_status r = Some st -> st <> "failed"%string ->
        snd (process_document E audit_id fw uploaded_by op mc processed w')
        = w').
Proof.
  intros Hfull Hsteps.
  destruct (rerun_steps_invariant E summary framework_id w w' Hfull Hsteps)
    as [(_ & Hdocs & Hdb & Hcalls) Hunique].
  split; [exact Hcalls|]. split; [exact Hdocs|]. split; [exact Hdb|].
  split; [exact Hunique|].
  intros audit_id fw uploaded_by op mc processed r st.
  apply process_document_existing.
Qed.

Lemma C4_witness :
  forallb
    (fully_indexed (Scenario.constant_env None) 7
       (Scenario.after_run
          (Scenario.scripted_env
             [Some (Scenario.verdict Scenario.f0_85 [PInt 42]);
              Some (Scenario.verdict Scenario.f0_9 [PInt 42])])
          Scenario.document_and_incident))
    (_get_active_ai_audits 7
       (Scenario.after_run
          (Scenario.scripted_env
             [Some (Scenario.verdict Scenario.f0_85 [PInt 42]);
              Some (Scenario.verdict Scenario.f0_9 [PInt 42])])
          Scenario.document_and_incident)) = true
  /\ ollama_calls
       (Scenario.after_run (Scenario.constant_env None)
          (Scenario.after_run
             (Scenario.scripted_env
                [Some (Scenario.verdict Scenario.f0_85 [PInt 42]);
                 Some (Scenario.verdict Scenario.f0_9 [PInt 42])])
             Scenario.document_and_incident))
     = ollama_calls
         (Scenario.after_run
            (Scenario.scripted_env
               [Some (Scenario.verdict Scenario.f0_85 [PInt 42]);
                Some (Scenario.verdict Scenario.f0_9 [PInt 42])])
            Scenario.document_and_incident).
Proof.
  assert (H : forallb
    (fully_indexed (Scenario.constant_env None) 7
       (Scenario.after_run
          (Scenario.scripted_env
             [Some (Scenario.verdict Scenario.f0_85 [PInt 42]);
              Some (Scenario.verdict Scenario.f0_9 [PInt 42])])
          Scenario.document_and_incident))
    (_get_active_ai_audits 7
       (Scenario.after_run
          (Scenario.scripted_env
             [Some (Scenario.verdict Scenario.f0_85 [PInt 42]);
              Some (Scenario.verdict Scenario.f0_9 [PInt 42])])
          Scenario.document_and_incident)) = true)
    by (vm_compute; reflexivity).
  split; [exact H|].
  exact (proj1 (C4_reruns_on_indexed_evidence_are_idempotent
                  (Scenario.constant_env None) (Some ""%string) 7 _ _ H
                  (rerun_again _ _ _ _ _ (rerun_none _ _ _ _)))).
Defined.

(** C4 as stated fails: with fifty-one incidents a first run analyzes
    fifty of them, and the second run on the same rows analyzes the last
    one and adds it to the database index. *)
Lemma C4_counterexample :
  ollama_calls
    (Scenario.after_run (Scenario.constant_env (Some (Scenario.verdict Scenario.f0_1 [])))
       Scenario.many_incidents) = 50%nat
  /\ Scenario.indexed_incidents
       (Scenario.after_run
          (Scenario.constant_env (Some (Scenario.verdict Scenario.f0_1 [])))
          Scenario.many_incidents) = 50%nat
  /\ ollama_calls
       (Scenario.after_run
          (Scenario.constant_env (Some (Scenario.verdict Scenario.f0_1 [])))
          (Scenario.after_run
             (Scenario.constant_env (Some (Scenario.verdict Scenario.f0_1 [])))
             Scenario.many_incidents)) = 51%nat
  /\ Scenario.indexed_incidents
       (Scenario.after_run
          (Scenario.constant_env (Some (Scenario.verdict Scenario.f0_1 [])))
          (Scenario.after_run
             (Scenario.constant_env (Some (Scenario.verdict Scenario.f0_1 [])))
             Scenario.many_incidents)) = 51%nat.
Proof. vm_compute. repeat split. Qed.

(** A document gets one evidence row per matched compliance: with two
    matched compliances, two rows of the same audit and provenance. *)
Lemma document_with_two_compliances_gets_two_rows :
  map (fun r => (ai_audit_id r, ai_external_source r, ai_external_id r))
    (ai_audit_data
       (Scenario.after_threads
          (Scenario.constant_env
             (Some (Scenario.verdict Scenario.f0_9 [PInt 30; PInt 31])))
          (Scenario.after_run
             (Scenario.constant_env
                (Some (Scenario.verdict Scenario.f0_9 [PInt 30; PInt 31])))
             Scenario.two_compliances)))
  = [(426, Some "evidence_attachment"%string, Some "1"%string);
     (426, Some "evidence_attachment"%string, Some "1"%string)].
Proof. vm_compute. reflexivity. Qed.

(** ** Aggregation *)

Lemma max_by_spec {A} (key : A -> Q) (xs : list A) (best : A) :
  (max_by key best xs = best \/ max_by key best xs ∈ xs)
  /\ (key best <= key (max_by key best xs))%Q
  /\ forall x, x ∈ xs -> (key x <= key (max_by key best xs))%Q.
Proof.
  revert best. induction xs as [|x xs IH]; intros best; simpl.
  - split; [left; reflexivity|]. split; [apply Qle_refl|].
    intros x Hx. inversion Hx.
  - destruct (Qle_bool (key x) (key best)) eqn:Hle.
    + apply Qle_bool_iff in Hle. destruct (IH best) as (Hin & Hb & Hall).
      split; [destruct Hin as [->|Hin]; [left; reflexivity|right; right; exact Hin]|].
      split; [exact Hb|].
      intros y Hy. apply elem_of_cons in Hy as [->|Hy].
      * eapply Qle_trans; eauto.
      * apply Hall; exact Hy.
    + assert (Hlt : (key best < key x)%Q).
      { apply Qnot_le_lt. intros H. apply Qle_bool_iff in H. congruence. }
      destruct (IH x) as (Hin & Hb & Hall).
      split; [right; destruct Hin as [->|Hin]; [left|right; exact Hin]|].
      split; [eapply Qle_trans; [apply Qlt_le_weak; exact Hlt|exact Hb]|].
      intros y Hy. apply elem_of_cons in Hy as [->|Hy].
      * exact Hb.
      * apply Hall; exact Hy.
Qed.

Lemma max_score_spec (all_scores : list pyval) (qs : list Q) :
  mapM as_num all_scores = Some qs ->
  exists m, max_score all_scores = Some m
    /\ (qs = [] -> m = 0%Q)
    /\ (qs <> [] -> m ∈ qs)
    /\ forall q, q ∈ qs -> (q <= m)%Q.
Proof.
  intros H. unfold max_score. rewrite H. destruct qs as [|q qs].
  - exists 0%Q. split; [reflexivity|]. split; [tauto|]. split; [tauto|].
    intros q Hq. inversion Hq.
  - exists (max_by (fun x => x) q qs).
    destruct (max_by_spec (fun x : Q => x) qs q) as (Hin & Hb & Hall).
    split; [reflexivity|]. split; [discriminate|].
    split; [intros _; destruct Hin as [->|Hin]; [left|right; exact Hin]|].
    intros y Hy. apply elem_of_cons in Hy as [->|Hy]; [exact Hb|apply Hall; exact Hy].
Qed.

Lemma length_positive {A} (l : list A) : (0 <? length l)%nat = true <-> l <> [].
Proof.
  destruct l; simpl; split; intros H;
    try discriminate; try reflexivity; contradiction H; reflexivity.
Qed.

Lemma aggregate_result (audit_id : Z) (docs : list doc_entry)
  (full_db_results : list (string * list rec_entry)) (m : Q) (w : World) :
  max_score (doc_scores docs ++ db_scores full_db_results) = Some m ->
  exists w',
    aggregate audit_id docs full_db_results w
    = (Ok {| overall_score := m;
             has_document_evidence := (0 <? length (doc_scores docs))%nat;
             has_database_evidence :=
               (0 <? length (db_scores full_db_results))%nat;
             check :=
               if Qle_bool f0_6 m then
                 classification_by_presence
                   (0 <? length (doc_scores docs))%nat
                   (0 <? length (db_scores full_db_results))%nat
               else NotTriggered |}, w').
Proof.
  intros Hm. unfold aggregate. rewrite Hm.
  destruct (Qle_bool f0_6 m); [|eexists; reflexivity].
  destruct (0 <? length (doc_scores docs))%nat,
    (0 <? length (db_scores full_db_results))%nat; simpl;
    try (eexists; reflexivity);
    destruct (py_max_by _ docs); eexists; reflexivity.
Qed.

(** C5 (amended): when every score of the index is a number, the
    aggregation ends normally; [overall_score] is the greatest relevance
    score among the document entries it is given and every database
    entry of the index, or [0.0] without any entry; and when
    [overall_score] reaches the evidence threshold the audit falls into
    exactly one of combined, document-only and database-only, according
    to which evidence kinds have an entry in the index, whatever the
    scores of those entries; below the threshold no classification is
    made. *)
Theorem C5_overall_score_is_the_greatest_indexed_score
  (audit_id : Z) (docs : list doc_entry)
  (full_db_results : list (string * list rec_entry)) (scores : list Q)
  (w : World) :
  mapM as_num (doc_scores docs ++ db_scores full_db_results) = Some scores ->
  exists report w',
    aggregate audit_id docs full_db_results w = (Ok report, w')
    /\ (scores = [] -> overall_score report = 0%Q)
    /\ (scores <> [] -> overall_score report ∈ scores)
    /\ (forall q, q ∈ scores -> (q <= overall_score report)%Q)
    /\ (has_document_evidence report = true <-> doc_scores docs <> [])
    /\ (has_database_evidence report = true <-> db_scores full_db_results <> [])
    /\ ((f0_6 <= overall_score report)%Q ->
        check report
        = classification_by_presence (has_document_evidence report)
            (has_database_evidence report)
        /\ check report <> NoEvidence)
    /\ (~ (f0_6 <= overall_score report)%Q -> check report = NotTriggered).
Proof.
  intros Hnum.
  destruct (max_score_spec _ _ Hnum) as (m & Hm & Hempty & Hin & Hmax).
  destruct (aggregate_result audit_id docs full_db_results m w Hm) as (w' & Hagg).
  eexists; exists w'. split; [exact Hagg|]. cbn [overall_score
    has_document_evidence has_database_evidence check].
  split; [exact Hempty|]. split; [exact Hin|]. split; [exact Hmax|].
  split; [apply length_positive|]. split; [apply length_positive|].
  split.
  - intros Hle. assert (Hth := proj2 (Qle_bool_iff _ _) Hle). rewrite Hth.
    split; [reflexivity|].
    assert (Hne : scores <> []).
    { intros ->. rewrite (Hempty eq_refl) in Hle. revert Hle.
      unfold f0_6, Qle. simpl. lia. }
    destruct (doc_scores docs) as [|a l] eqn:Hd;
      [|simpl; destruct (0 <? length (db_scores full_db_results))%nat;
        intros H; discriminate H].
    destruct (db_scores full_db_results) as [|b l] eqn:Hb; [|simpl; intros H; discriminate H].
    simpl in Hnum. inversion Hnum. congruence.
  - intros Hn. destruct (Qle_bool f0_6 m) eqn:Hth; [|reflexivity].
    apply Qle_bool_iff in Hth. contradiction.
Qed.

Lemma C5_witness :
  mapM as_num
    (doc_scores [Scenario.document_entry 1 Scenario.f0_1 []]
     ++ db_scores [("incidents"%string,
                    [Scenario.record_entry 1 Scenario.f0_9 [PInt 42]])])
  = Some [Scenario.f0_1; Scenario.f0_9]
  /\ exists report w',
       aggregate 426 [Scenario.document_entry 1 Scenario.f0_1 []]
         [("incidents"%string, [Scenario.record_entry 1 Scenario.f0_9 [PInt 42]])]
         Scenario.document_and_incident = (Ok report, w')
       /\ overall_score report ∈ [Scenario.f0_1; Scenario.f0_9].
Proof.
  split; [reflexivity|].
  destruct (C5_overall_score_is_the_greatest_indexed_score 426
              [Scenario.document_entry 1 Scenario.f0_1 []]
              [("incidents"%string,
                [Scenario.record_entry 1 Scenario.f0_9 [PInt 42]])]
              [Scenario.f0_1; Scenario.f0_9]
              Scenario.document_and_incident eq_refl)
    as (report & w' & Hrun & _ & Hin & _).
  exists report, w'. split; [exact Hrun|]. apply Hin. discriminate.
Defined.

(** C5 as stated fails: in a rerun over an index that holds a document
    scored 0.1 and an incident scored 0.9, only the database evidence
    clears the 0.6 threshold, yet the audit is classified combined. *)
Lemma C5_counterexample :
  map de_relevance_score
    (documents
       (_load_json_index_documents 7 426
          (Scenario.after_run
             (Scenario.scripted_env
                [Some (Scenario.verdict Scenario.f0_1 []);
                 Some (Scenario.verdict Scenario.f0_9 [PInt 42])])
             Scenario.document_and_incident)))
  = [PFloat Scenario.f0_1]
  /\ classification_by_threshold
       (documents
          (_load_json_index_documents 7 426
             (Scenario.after_run
                (Scenario.scripted_env
                   [Some (Scenario.verdict Scenario.f0_1 []);
                    Some (Scenario.verdict Scenario.f0_9 [PInt 42])])
                Scenario.document_and_incident)))
       (database_data
          (_load_json_index_database 7 426
             (Scenario.after_run
                (Scenario.scripted_env
                   [Some (Scenario.verdict Scenario.f0_1 []);
                    Some (Scenario.verdict Scenario.f0_9 [PInt 42])])
                Scenario.document_and_incident)))
     = DatabaseOnly
  /\ map check
       (match Scenario.run (Scenario.constant_env None)
                (Scenario.after_run
                   (Scenario.scripted_env
                      [Some (Scenario.verdict Scenario.f0_1 []);
                       Some (Scenario.verdict Scenario.f0_9 [PInt 42])])
                   Scenario.document_and_incident) with
        | (Ok reports, _) => reports
        | (Raise, _) => []
        end)
     = [Combined].
Proof. vm_compute. repeat split. Qed.

(** The documents index is read before the documents are analyzed and
    is not read again: in the run that analyzes a document scored 0.9
    and an incident scored 0.1, the document is in the index at the end
    and [overall_score] is 0.1. *)
Lemma first_run_overall_score_misses_fresh_documents :
  map overall_score
    (match Scenario.run
             (Scenario.scripted_env
                [Some (Scenario.verdict Scenario.f0_9 []);
                 Some (Scenario.verdict Scenario.f0_1 [])])
             Scenario.document_and_incident with
     | (Ok reports, _) => reports
     | (Raise, _) => []
     end)
  = [Scenario.f0_1]
  /\ map de_relevance_score
       (documents
          (_load_json_index_documents 7 426
             (Scenario.after_run
                (Scenario.scripted_env
                   [Some (Scenario.verdict Scenario.f0_9 []);
                    Some (Scenario.verdict Scenario.f0_1 [])])
                Scenario.document_and_incident)))
     = [PFloat Scenario.f0_9].
Proof. vm_compute. repeat split. Qed.

Lemma bind_Ok {A B} (m : M A) (k : A -> M B) (w w' : World) (b : B) :
  bind m k w = (Ok b, w') ->
  exists a w1, m w = (Ok a, w1) /\ k a w1 = (Ok b, w').
Proof.
  unfold bind. destruct (m w) as [[a|] w1]; [|discriminate].
  intros H. exists a, w1. split; [reflexivity|exact H].
Qed.

(** The aggregation of a run reads the database index as the run leaves
    it, and the documents index as the run found it. *)
Lemma analyze_audit_aggregates_the_reloaded_database_index (E : env) (fw : Z)
  (summary : option string) (all_documents : list file_op)
  (all_database_data : list (string * list dict)) (audit : audit_row)
  (w w' : World) (report : audit_report) :
  analyze_audit E fw summary all_documents all_database_data audit w
    = (Ok report, w') ->
  exists w1,
    aggregate (AuditId audit)
      (documents (_load_json_index_documents fw (AuditId audit) w))
      (database_data (_load_json_index_database fw (AuditId audit) w')) w1
    = (Ok report, w').
Proof.
  unfold analyze_audit. destruct (a_Title audit); [|discriminate].
  intros H.
  apply bind_Ok in H as (ad & w1 & H1 & H). unfold gets in H1.
  injection H1 as <- <-.
  apply bind_Ok in H as (di & w1 & H1 & H). injection H1 as <- <-.
  apply bind_Ok in H as (bi & w1 & H1 & H). injection H1 as <- <-.
  apply bind_Ok in H as ([] & w1 & H1 & H).
  apply bind_Ok in H as (db_results & w2 & H2 & H).
  apply bind_Ok in H as ([] & w3 & H3 & H). injection H3 as <-.
  apply bind_Ok in H as (bi' & w4 & H4 & H). injection H4 as <- <-.
  apply bind_Ok in H as ([] & w5 & H5 & H).
  exists w5.
  assert (Hc := create_evidence_results_invariant E
                  (if id_truthy (ad_framework_id (_get_audit_details (AuditId audit) w))
                   then ad_framework_id (_get_audit_details (AuditId audit) w)
                   else Some fw) (AuditId audit)
                  (database_data (_load_json_index_database fw (AuditId audit)
                     (index_db_results fw (AuditId audit) db_results w2)))
                  (index_db_results fw (AuditId audit) db_results w2)).
  rewrite H5 in Hc. destruct Hc as [Hc _].
  assert (Ha := aggregate_invariant (AuditId audit)
                  (documents (_load_json_index_documents fw (AuditId audit) w))
                  (database_data (_load_json_index_database fw (AuditId audit)
                     (index_db_results fw (AuditId audit) db_results w2))) w5).
  rewrite H in Ha. destruct Ha as [Ha _]. simpl in Hc, Ha.
  rewrite (load_database_same fw _ _ _ (same_indexes_trans _ _ _ Hc Ha)).
  exact H.
Qed.

(** ** Dispatch *)

(** C6 (amended): with one document entry scored 0.7 and one record
    entry scored 0.75 in the index of the audit, [overall_score] is 0.75,
    the classification is combined, and the aggregation starts exactly
    one task: the auto-processing of the best document, carrying that
    document's operation id and verdict.  The task names neither the
    record nor the combination: it is the task the document-only case
    starts. *)
Theorem C6_combined_case_dispatches_the_best_document
  (audit_id : Z) (d : doc_entry) (t : string) (r : rec_entry) (w : World) :
  de_relevance_score d = PFloat Scenario.f0_7 ->
  re_relevance_score r = PFloat Scenario.f0_75 ->
  aggregate audit_id [d] [(t, [r])] w
  = (Ok {| overall_score := Scenario.f0_75;
           has_document_evidence := true;
           has_database_evidence := true;
           check := Combined |},
     set_threads
       (threads w
        ++ [AutoProcess (de_operation_id d) audit_id (result_of_entry d)]) w)
  /\ aggregate audit_id [d] [] w
     = (Ok {| overall_score := Scenario.f0_7;
              has_document_evidence := true;
              has_database_evidence := false;
              check := DocumentOnly |},
        set_threads
          (threads w
           ++ [AutoProcess (de_operation_id d) audit_id (result_of_entry d)]) w).
Proof.
  intros Hd Hr. unfold aggregate, doc_scores, db_scores, max_score.
  cbn [map flat_map app]. rewrite Hd, Hr. split; reflexivity.
Qed.

Lemma C6_witness :
  de_relevance_score (Scenario.document_entry 1 Scenario.f0_7 []) = PFloat Scenario.f0_7
  /\ re_relevance_score (Scenario.record_entry 1 Scenario.f0_75 [PInt 42])
     = PFloat Scenario.f0_75
  /\ aggregate 426 [Scenario.document_entry 1 Scenario.f0_7 []]
       [("incidents"%string, [Scenario.record_entry 1 Scenario.f0_75 [PInt 42]])]
       Scenario.document_and_incident
     = (Ok {| overall_score := Scenario.f0_75;
              has_document_evidence := true;
              has_database_evidence := true;
              check := Combined |},
        set_threads
          [AutoProcess 1 426
             (result_of_entry (Scenario.document_entry 1 Scenario.f0_7 []))]
          Scenario.document_and_incident).
Proof.
  split; [reflexivity|]. split; [reflexivity|].
  exact (proj1 (C6_combined_case_dispatches_the_best_document 426
           (Scenario.document_entry 1 Scenario.f0_7 []) "incidents"
           (Scenario.record_entry 1 Scenario.f0_75 [PInt 42])
           Scenario.document_and_incident eq_refl eq_refl)).
Defined.

(** C6 as stated fails: in the rerun over an index with a document at
    0.7 and an incident at 0.75 the report is combined with
    [overall_score = 0.75], and the one task the run adds is the
    auto-processing of document 1 with the document's score 0.7: it does
    not reference the incident, and it is the very task the rerun adds
    when the index holds the document alone. *)
Lemma C6_counterexample :
  fst (Scenario.run (Scenario.constant_env None)
         (Scenario.after_run
            (Scenario.scripted_env
               [Some (Scenario.verdict Scenario.f0_7 []);
                Some (Scenario.verdict Scenario.f0_75 [PInt 42])])
            Scenario.document_and_incident))
  = Ok [{| overall_score := Scenario.f0_75;
           has_document_evidence := true;
           has_database_evidence := true;
           check := Combined |}]
  /\ threads
       (Scenario.after_run (Scenario.constant_env None)
          (Scenario.after_run
             (Scenario.scripted_env
                [Some (Scenario.verdict Scenario.f0_7 []);
                 Some (Scenario.verdict Scenario.f0_75 [PInt 42])])
             Scenario.document_and_incident))
     = threads
         (Scenario.after_run
            (Scenario.scripted_env
               [Some (Scenario.verdict Scenario.f0_7 []);
                Some (Scenario.verdict Scenario.f0_75 [PInt 42])])
            Scenario.document_and_incident)
       ++ [AutoProcess 1 426 (Scenario.verdict Scenario.f0_7 [])]
  /\ threads
       (Scenario.after_run (Scenario.constant_env None)
          (Scenario.after_run
             (Scenario.scripted_env [Some (Scenario.verdict Scenario.f0_7 [])])
             Scenario.one_document))
     = threads
         (Scenario.after_run
            (Scenario.scripted_env [Some (Scenario.verdict Scenario.f0_7 [])])
            Scenario.one_document)
       ++ [AutoProcess 1 426 (Scenario.verdict Scenario.f0_7 [])].
Proof. vm_compute. repeat split. Qed.

(** ** Thresholds *)

(** Below the evidence threshold a database verdict changes nothing. *)
Lemma create_evidence_below_threshold (E : env) (framework_id audit_id : Z)
  (table_name : string) (analysis : rec_entry) (score : Q) (w : World) :
  py_float (str_to_float E) (py_or (re_relevance_score analysis) (PInt 0))
    = Some score ->
  Qle_bool f0_6 score = false ->
  create_evidence_for E framework_id audit_id table_name analysis w = (Ok tt, w).
Proof.
  intros Hs Hlt. unfold create_evidence_for. rewrite Hs, Hlt.
  rewrite orb_true_r. reflexivity.
Qed.

(** At or above it, a verdict of a new record with a resolvable
    compliance inserts one row; the checklist is updated exactly when the
    score is at or above the checklist threshold. *)
Lemma create_evidence_inserts (E : env) (framework_id audit_id : Z)
  (table_name : string) (analysis : rec_entry) (score : Q) (w : World)
  (c c' : Z) (sp p : option Z) (reason : string) :
  py_float (str_to_float E) (py_or (re_relevance_score analysis) (PInt 0))
    = Some score ->
  Qle_bool f0_6 score = true ->
  (re_record_id analysis =? 0) = false ->
  String.eqb table_name "compliances" = false ->
  re_matched_compliances analysis = PList [PInt c] ->
  (c =? 0) = false ->
  compliance_mapping c (static w) = Some (c', sp, p) ->
  (c' =? 0) = false ->
  re_relevance_reason analysis = PStr reason ->
  List.find (is_db_evidence_for audit_id
               (db_external_id table_name (re_record_id analysis)))
    (ai_audit_data w) = None ->
  exists row w',
    create_evidence_for E framework_id audit_id table_name analysis w = (Ok tt, w')
    /\ ai_audit_data w' = ai_audit_data w ++ [row]
    /\ ai_audit_id row = audit_id
    /\ ai_external_source row = Some "database_record"%string
    /\ ai_external_id row
       = Some (db_external_id table_name (re_record_id analysis))
    /\ lastchecklistitemverified w'
       = if Qle_bool f0_8 score then
           update_checklist c' framework_id p sp
             ("Auto evidence from " ++ table_name ++ " record "
              ++ pretty (re_record_id analysis) ++ ": " ++ str_take 500 reason)
             (lastchecklistitemverified w)
         else lastchecklistitemverified w.
Proof.
  intros Hs Hge Hrid Ht Hmc Hc Hmap Hc' Hreason Hnew.
  unfold create_evidence_for. rewrite Hs, Hge, Hrid, Ht, Hmc.
  cbn [py_or truthy negb id_truthy andb orb py_iter first_compliance_id
       _extract_compliance_id].
  rewrite Hc. cbn [negb]. unfold bind, gets, ret, modify. cbv beta.
  unfold id_truthy. rewrite Hc. cbn [negb]. rewrite Hmap, Hc', Hreason. cbn [reason_prefix].
  rewrite Hnew.
  destruct (Qle_bool f0_8 score); eexists; eexists;
    (split; [reflexivity|]); repeat split.
Qed.

(** The upsert of the checklist always changes it: a new row, or one
    more observation on a row it holds. *)
Lemma update_checklist_changes c fw p sp comments (rows : list checklist_row) :
  update_checklist c fw p sp comments rows <> rows.
Proof.
  unfold update_checklist.
  set (pk := default 0 (if id_truthy p then p else Some 0)).
  set (spk := default 0 (if id_truthy sp then sp else Some 0)).
  destruct (existsb (checklist_where c fw pk spk) rows) eqn:Hex.
  - induction rows as [|r rows IH]; [discriminate|].
    simpl in Hex. simpl. destruct (checklist_where c fw pk spk r) eqn:Hr.
    + intros H. injection H as H _.
      assert (Hc : cl_Count
                     {| cl_ComplianceId := cl_ComplianceId r;
                        cl_SubPolicyId := cl_SubPolicyId r;
                        cl_PolicyId := cl_PolicyId r;
                        cl_FrameworkId := cl_FrameworkId r;
                        cl_Complied := "1"; cl_Comments := comments;
                        cl_Count := Some (default 0 (cl_Count r) + 1) |}
                   = cl_Count r) by (rewrite H; reflexivity).
      simpl in Hc. destruct (cl_Count r) as [n|]; [|discriminate].
      simpl in Hc. injection Hc as Hc. lia.
    + simpl in Hex. intros H. injection H as H. exact (IH Hex H).
  - intros H. apply (f_equal length) in H. rewrite length_app in H.
    simpl in H. lia.
Qed.

Lemma store_audit_relevance_dispatches (E : env) (operation_id audit_id : Z)
  (relevance_result : dict) (k n : option string) (score : Q) (reason : string)
  (w : World) :
  db_pool (static w) = true ->
  py_float (str_to_float E) (dget_or "relevance_score" (PInt 0) relevance_result)
    = Some score ->
  dget_or "relevance_reason" (PStr "") relevance_result = PStr reason ->
  threads (_store_audit_relevance E operation_id audit_id relevance_result k n w)
  = threads w ++ [AutoProcess operation_id audit_id relevance_result]
  /\ existsb (relevance_key operation_id audit_id)
       (document_audit_relevance
          (_store_audit_relevance E operation_id audit_id relevance_result k n w))
     = true.
Proof.
  intros Hpool Hscore Hreason. unfold _store_audit_relevance.
  rewrite Hpool, Hscore, Hreason. cbn [negb].
  set (row := {| dr_file_operation_id := operation_id |}).
  assert (Hrow : relevance_key operation_id audit_id row = true).
  { unfold relevance_key. simpl. rewrite !Z.eqb_refl. reflexivity. }
  assert (Hmap : forall key rows,
            existsb key rows = true ->
            existsb (relevance_key operation_id audit_id)
              (map (fun r => if key r then row else r) rows) = true).
  { intros key rows Hex. apply existsb_exists in Hex as (x & Hx & Hk).
    apply existsb_exists. exists row. split; [|exact Hrow].
    apply in_map_iff. exists x. rewrite Hk. auto. }
  assert (Happ : forall rows,
            existsb (relevance_key operation_id audit_id) (rows ++ [row]) = true).
  { intros rows. rewrite existsb_app. simpl. rewrite Hrow.
    rewrite orb_true_r. reflexivity. }
  split; [reflexivity|].
  cbn [document_audit_relevance start_thread set_threads set_relevance].
  match goal with
  | |- context [match ?o with Some _ => _ | None => _ end] => destruct o as [ex|] eqn:Hex
  end.
  - destruct (negb (ex =? 0)) eqn:Hz.
    + apply Hmap.
      match type of Hex with
      | (if ?c then _ else _) = _ => destruct c; [|discriminate]
      end.
      destruct (other_operation _ _ _ _) as [other|]; [|discriminate].
      destruct (existsb (relevance_key (fo_id other) audit_id)
                  (document_audit_relevance w)) eqn:Hother; [|discriminate].
      injection Hex as <-. exact Hother.
    + destruct (existsb (relevance_key operation_id audit_id)
                  (document_audit_relevance w)) eqn:Hown; [apply Hmap; exact Hown|apply Happ].
  - destruct (existsb (relevance_key operation_id audit_id)
                (document_audit_relevance w)) eqn:Hown; [apply Hmap; exact Hown|apply Happ].
Qed.

(** The gate of a document: its verdict is indexed, and stored only at
    or above the evidence threshold. *)
Lemma analyze_document_gate (E : env) (framework_id audit_id : Z)
  (summary : option string) (ad : audit_details) (docs : list doc_entry)
  (d : file_op) (kv : string * pyval) (r : dict) (score : Q) (w w1 : World) :
  already_analyzed docs d = false ->
  fo_metadata d = MetaNull ->
  is_Some (fo_file_name d) ->
  _analyze_document_audit_relevance E (str_or (fo_summary d) summary) ad w
    = (Ok (Some (kv :: r)), w1) ->
  as_num (dget_or "relevance_score" (PInt 0) (kv :: r)) = Some score ->
  analyze_document E framework_id audit_id summary ad docs d w
  = (Ok tt,
     if Qle_bool f0_6 score then
       _store_audit_relevance E (fo_id d) audit_id (kv :: r)
         (fo_s3_key d) (fo_stored_name d)
         (_update_json_index_document framework_id audit_id (fo_id d) (kv :: r)
            (fo_s3_key d) (fo_stored_name d) w1)
     else
       _update_json_index_document framework_id audit_id (fo_id d) (kv :: r)
         (fo_s3_key d) (fo_stored_name d) w1).
Proof.
  intros Hnew Hmeta [n Hname] Hres Hscore. unfold analyze_document.
  rewrite Hnew, Hmeta, Hname. unfold bind at 1. rewrite Hres.
  unfold bind, modify, ret, py_ge_float. rewrite Hscore.
  destruct (Qle_bool f0_6 score); reflexivity.
Qed.

(** C7 (amended): both thresholds are inclusive at their gates.  For a
    database verdict with score [q]: below 0.6 nothing is created or
    changed; from 0.6 on (0.6 included) a new record with a resolvable
    compliance gets one evidence row, and the checklist is updated
    exactly when [q] is at least 0.8 (0.8 included).  For a document
    verdict: from 0.6 on it is stored and handed to auto-processing by
    its own analysis step; below 0.6 that step only indexes it. *)
Theorem C7_thresholds_are_inclusive_at_their_gates
  (E : env) (framework_id audit_id : Z) (w : World) :
  (forall table_name analysis q,
     py_float (str_to_float E) (py_or (re_relevance_score analysis) (PInt 0))
       = Some q ->
     Qle_bool f0_6 q = false ->
     create_evidence_for E framework_id audit_id table_name analysis w
     = (Ok tt, w))
  /\ (forall table_name analysis q c c' sp p reason,
        py_float (str_to_float E) (py_or (re_relevance_score analysis) (PInt 0))
          = Some q ->
        Qle_bool f0_6 q = true ->
        (re_record_id analysis =? 0) = false ->
        String.eqb table_name "compliances" = false ->
        re_matched_compliances analysis = PList [PInt c] ->
        (c =? 0) = false ->
        compliance_mapping c (static w) = Some (c', sp, p) ->
        (c' =? 0) = false ->
        re_relevance_reason analysis = PStr reason ->
        List.find (is_db_evidence_for audit_id
                     (db_external_id table_name (re_record_id analysis)))
          (ai_audit_data w) = None ->
        exists row w',
          create_evidence_for E framework_id audit_id table_name analysis w
          = (Ok tt, w')
          /\ ai_audit_data w' = ai_audit_data w ++ [row]
          /\ ai_external_id row
             = Some (db_external_id table_name (re_record_id analysis))
          /\ (Qle_bool f0_8 q = true ->
              lastchecklistitemverified w' <> lastchecklistitemverified w)
          /\ (Qle_bool f0_8 q = false ->
              lastchecklistitemverified w' = lastchecklistitemverified w))
  /\ (forall summary ad docs d kv r q reason w0,
        db_pool (static w) = true ->
        already_analyzed docs d = false ->
        fo_metadata d = MetaNull ->
        is_Some (fo_file_name d) ->
        _analyze_document_audit_relevance E (str_or (fo_summary d) summary) ad w0
          = (Ok (Some (kv :: r)), w) ->
        dget_or "relevance_score" (PInt 0) (kv :: r) = PFloat q ->
        dget_or "relevance_reason" (PStr "") (kv :: r) = PStr reason ->
        exists w',
          analyze_document E framework_id audit_id summary ad docs d w0
          = (Ok tt, w')
          /\ (Qle_bool f0_6 q = true ->
              In (AutoProcess (fo_id d) audit_id (kv :: r)) (threads w')
              /\ existsb (relevance_key (fo_id d) audit_id)
                   (document_audit_relevance w') = true)
          /\ (Qle_bool f0_6 q = false ->
              w' = _update_json_index_document framework_id audit_id (fo_id d)
                     (kv :: r) (fo_s3_key d) (fo_stored_name d) w)).
Proof.
  split; [|split].
  - intros t e q Hq Hlt. eapply create_evidence_below_threshold; eauto.
  - intros t e q c c' sp p reason Hq Hge Hrid Ht Hmc Hc Hmap Hc' Hreason Hnew.
    destruct (create_evidence_inserts E framework_id audit_id t e q w c c' sp p
                reason Hq Hge Hrid Ht Hmc Hc Hmap Hc' Hreason Hnew)
      as (row & w' & Hrun & Hrows & _ & _ & Hext & Hcl).
    exists row, w'. split; [exact Hrun|]. split; [exact Hrows|].
    split; [exact Hext|]. rewrite Hcl. split; intros H8; rewrite H8.
    + apply update_checklist_changes.
    + reflexivity.
  - intros summary ad docs d kv r q reason w0 Hpool Hnew Hmeta Hname Hres
      Hscore Hreason.
    eexists. split.
    + eapply analyze_document_gate; eauto. rewrite Hscore. reflexivity.
    + split; intros Hq; rewrite Hq; [|reflexivity].
      set (w1 := _update_json_index_document _ _ _ _ _ _ w).
      assert (Hp1 : db_pool (static w1) = true).
      { unfold w1, _update_json_index_document, _save_json_index_documents.
        cbn [di_audit_id di_framework_id].
        destruct (id_truthy (Some audit_id) && id_truthy (Some framework_id));
          exact Hpool. }
      destruct (store_audit_relevance_dispatches E (fo_id d) audit_id (kv :: r)
                  (fo_s3_key d) (fo_stored_name d) q reason w1 Hp1) as [Ht Hr].
      * rewrite Hscore. reflexivity.
      * exact Hreason.
      * split; [|exact Hr]. rewrite Ht. apply in_or_app. right. left. reflexivity.
Qed.

Lemma C7_witness :
  (py_float (str_to_float (Scenario.constant_env None))
     (py_or (re_relevance_score (Scenario.record_entry 1 f0_6 [PInt 42])) (PInt 0))
   = Some f0_6
   /\ Qle_bool f0_6 f0_6 = true /\ Qle_bool f0_8 f0_6 = false)
  /\ exists row w',
       create_evidence_for (Scenario.constant_env None) 7 426 "incidents"
         (Scenario.record_entry 1 f0_6 [PInt 42]) Scenario.one_incident
       = (Ok tt, w')
       /\ ai_audit_data w' = [row]
       /\ ai_external_id row = Some "incidents:1"%string
       /\ lastchecklistitemverified w' = [].
Proof.
  split; [repeat split|].
  destruct (proj1 (proj2 (C7_thresholds_are_inclusive_at_their_gates
              (Scenario.constant_env None) 7 426 Scenario.one_incident))
              "incidents"%string (Scenario.record_entry 1 f0_6 [PInt 42])
              f0_6 42 42 (Some 12) (Some 5) "addresses data retention"%string
              eq_refl eq_refl eq_refl eq_refl eq_refl eq_refl eq_refl eq_refl
              eq_refl eq_refl)
    as (row & w' & Hrun & Hrows & Hext & _ & Hcl).
  exists row, w'. split; [exact Hrun|]. split; [exact Hrows|].
  split; [exact Hext|]. exact (Hcl eq_refl).
Defined.

(** The four scores of the claim, evaluated: an incident at exactly 0.6
    gets an evidence row and no checklist row, at 0.59999 nothing, at
    exactly 0.8 both, at 0.79999 the evidence row only; a document at
    exactly 0.6 is stored and dispatched, at 0.59999 neither. *)
Lemma threshold_boundaries_evaluated :
  Scenario.incident_outcome f0_6 = (1%nat, 0%nat)
  /\ Scenario.incident_outcome Scenario.f0_59999 = (0%nat, 0%nat)
  /\ Scenario.incident_outcome f0_8 = (1%nat, 1%nat)
  /\ Scenario.incident_outcome Scenario.f0_79999 = (1%nat, 0%nat)
  /\ Scenario.document_outcome f0_6 = (1%nat, 1%nat)
  /\ Scenario.document_outcome Scenario.f0_59999 = (0%nat, 0%nat).
Proof. vm_compute. repeat split. Qed.

(** C7 as stated fails for documents: a document scored 0.59999 against
    compliance 42 and an incident scored 0.9 are analyzed by a first
    run; the rerun classifies the audit combined and starts the
    auto-processing of the best document, which is that document; once
    the thread has run the document has an evidence record. *)
Lemma C7_counterexample :
  Qle_bool f0_6 Scenario.f0_59999 = false
  /\ map (fun e => (de_operation_id e, de_relevance_score e))
       (documents
          (_load_json_index_documents 7 426
             (Scenario.after_run
                (Scenario.scripted_env
                   [Some (Scenario.verdict Scenario.f0_59999 [PInt 42]);
                    Some (Scenario.verdict Scenario.f0_9 [PInt 42])])
                Scenario.document_and_incident)))
     = [(1, PFloat Scenario.f0_59999)]
  /\ map (fun r => (ai_external_source r, ai_external_id r))
       (ai_audit_data
          (Scenario.after_threads (Scenario.constant_env None)
             (Scenario.after_run (Scenario.constant_env None)
                (Scenario.after_run
                   (Scenario.scripted_env
                      [Some (Scenario.verdict Scenario.f0_59999 [PInt 42]);
                       Some (Scenario.verdict Scenario.f0_9 [PInt 42])])
                   Scenario.document_and_incident))))
     = [(Some "database_record"%string, Some "incidents:1"%string);
        (Some "evidence_attachment"%string, Some "1"%string)].
Proof. vm_compute. repeat split. Qed.


(** ** The audit context *)

Lemma framework_policies_spec (s : store) (f pid : Z) :
  pid ∈ framework_policies (Some f) s
  <-> exists p, policy_of_framework s f p /\ PolicyId p = pid.
Proof.
  unfold framework_policies, policy_of_framework.
  rewrite list_elem_of_fmap. split.
  - intros (p & -> & Hp). apply in_filter_iff in Hp as [Hp Hf].
    exists p. repeat split; [exact Hp|].
    unfold sql_eq_Z in Hf. destruct (p_FrameworkId p) as [g|]; [|discriminate].
    apply Z.eqb_eq in Hf. congruence.
  - intros (p & [Hp Hf] & <-). exists p. split; [reflexivity|].
    apply in_filter_iff. split; [exact Hp|].
    unfold sql_eq_Z. rewrite Hf. apply Z.eqb_refl.
Qed.

Lemma framework_subpolicy_rows_spec (s : store) (f : Z) (sp : subpolicy_row) :
  sp ∈ framework_subpolicy_rows (Some f) s <-> subpolicy_of_framework s f sp.
Proof.
  unfold framework_subpolicy_rows, subpolicy_of_framework, policy_of_framework.
  rewrite list_elem_of_In, in_flat_map. split.
  - intros (sp' & Hsp' & Hin). apply in_flat_map in Hin as (p & Hp & Hin).
    destruct (sql_eq_Z (sp_PolicyId sp') (PolicyId p)
              && sql_eq_Z (p_FrameworkId p) f) eqn:Hc; [|inversion Hin].
    destruct Hin as [<-|[]].
    apply andb_true_iff in Hc as [H1 H2]. unfold sql_eq_Z in H1, H2.
    destruct (sp_PolicyId sp') as [x|]; [|discriminate].
    destruct (p_FrameworkId p) as [g|] eqn:Hg; [|discriminate].
    apply Z.eqb_eq in H1, H2. subst.
    split; [apply list_elem_of_In; exact Hsp'|].
    exists p. repeat split; [apply list_elem_of_In; exact Hp|exact Hg].
  - intros (Hsp & p & [Hp Hf] & Hsp_p).
    exists sp. split; [apply list_elem_of_In; exact Hsp|].
    apply in_flat_map. exists p. split; [apply list_elem_of_In; exact Hp|].
    unfold sql_eq_Z. rewrite Hsp_p, Hf, !Z.eqb_refl. left. reflexivity.
Qed.

Lemma framework_compliances_spec (s : store) (f cid : Z) :
  cid ∈ framework_compliances (Some f) s
  <-> exists c, compliance_of_framework s f c /\ ComplianceId c = cid.
Proof.
  unfold framework_compliances, compliance_of_framework.
  rewrite list_elem_of_In, in_flat_map. split.
  - intros (c & Hc & Hin). apply in_flat_map in Hin as (sp & Hsp & Hin).
    destruct (sql_eq_Z (c_SubPolicyId c) (SubPolicyId sp)) eqn:Hj; [|inversion Hin].
    destruct Hin as [<-|[]].
    unfold sql_eq_Z in Hj. destruct (c_SubPolicyId c) as [x|] eqn:Hx; [|discriminate].
    apply Z.eqb_eq in Hj. subst x.
    exists c. split; [|reflexivity]. split; [apply list_elem_of_In; exact Hc|].
    exists sp. split; [|exact Hx].
    apply framework_subpolicy_rows_spec, list_elem_of_In, Hsp.
  - intros (c & (Hc & sp & Hsp & Hj) & <-).
    exists c. split; [apply list_elem_of_In; exact Hc|].
    apply in_flat_map. exists sp.
    split; [apply list_elem_of_In, framework_subpolicy_rows_spec, Hsp|].
    unfold sql_eq_Z. rewrite Hj, Z.eqb_refl. left. reflexivity.
Qed.

(** X1: for an audit that exists and belongs to framework [f], the audit
    context lists exactly the ids of the framework: the policies of [f],
    the subpolicies joined to a policy of [f], and the compliances joined
    to such a subpolicy. *)
Theorem X1_audit_context_lists_the_framework (audit_id f : Z) (a : audit_row)
  (w : World) :
  db_pool (static w) = true ->
  List.find (fun a => AuditId a =? audit_id) (audit (static w)) = Some a ->
  a_FrameworkId a = Some f ->
  ad_framework_id (_get_audit_details audit_id w) = Some f
  /\ (forall pid, pid ∈ ad_policies (_get_audit_details audit_id w)
        <-> exists p, policy_of_framework (static w) f p /\ PolicyId p = pid)
  /\ (forall sid, sid ∈ ad_subpolicies (_get_audit_details audit_id w)
        <-> exists sp, subpolicy_of_framework (static w) f sp
                       /\ SubPolicyId sp = sid)
  /\ (forall cid, cid ∈ ad_compliances (_get_audit_details audit_id w)
        <-> exists c, compliance_of_framework (static w) f c
                      /\ ComplianceId c = cid).
Proof.
  intros Hpool Hfind Hf. unfold _get_audit_details.
  rewrite Hpool, Hfind, Hf. cbn [negb ad_framework_id ad_policies
    ad_subpolicies ad_compliances].
  split; [reflexivity|]. split; [|split].
  - intros pid. apply framework_policies_spec.
  - intros sid. rewrite list_elem_of_fmap. split.
    + intros (sp & -> & Hsp). exists sp.
      split; [apply framework_subpolicy_rows_spec, Hsp|reflexivity].
    + intros (sp & Hsp & <-). exists sp.
      split; [reflexivity|apply framework_subpolicy_rows_spec, Hsp].
  - intros cid. apply framework_compliances_spec.
Qed.

Lemma X1_witness :
  ad_framework_id (_get_audit_details 426 Scenario.one_incident) = Some 7
  /\ (42 ∈ ad_compliances (_get_audit_details 426 Scenario.one_incident)
      <-> exists c, compliance_of_framework (static Scenario.one_incident) 7 c
                    /\ ComplianceId c = 42).
Proof.
  destruct (X1_audit_context_lists_the_framework 426 7
              (Scenario.audit_of 426 7 None) Scenario.one_incident
              eq_refl eq_refl eq_refl) as (H1 & _ & _ & H4).
  split; [exact H1|apply H4].
Defined.

(** ** Filtering on the document path *)

Lemma inject_Z_eq (a b : Z) : Qeq_bool (inject_Z a) (inject_Z b) = true -> a = b.
Proof.
  intros H. apply Qeq_bool_iff in H. unfold Qeq, inject_Z in H. simpl in H. lia.
Qed.

Lemma py_eq_id_names (x : pyval) (id : Z) (ids : list Z) :
  id ∈ ids -> py_eq x (id_or_none id) = true -> names_an_id_of ids x.
Proof.
  intros Hin. unfold id_or_none, py_or. cbn [truthy].
  destruct (id =? 0) eqn:Hz; cbn [negb].
  - apply Z.eqb_eq in Hz. subst id. intros H. right. split; [|exact Hin].
    destruct x; simpl in H; try discriminate H. reflexivity.
  - apply Z.eqb_neq in Hz. intros H. left. exists id.
    split; [exact Hin|]. split; [exact Hz|].
    destruct x as [|b|z|q|s|l|d]; simpl in H; try discriminate H.
    + simpl. destruct b.
      * apply (inject_Z_eq 1 id) in H. lia.
      * apply (inject_Z_eq 0 id) in H. lia.
    + simpl. apply inject_Z_eq. exact H.
    + simpl. apply Qeq_bool_iff. exact H.
Qed.

Lemma filter_ids_names (matched kept : list pyval) (ids : list Z) :
  filter_ids matched (map id_or_none ids) = Some kept ->
  forall x, x ∈ kept -> x ∈ matched /\ names_an_id_of ids x.
Proof.
  revert kept.
  induction matched as [|m rest IH]; simpl; intros kept H x Hx.
  - inversion H; subst. inversion Hx.
  - unfold py_in_set in H. destruct (hashable m); [|discriminate].
    destruct (filter_ids rest _) as [rest'|]; [|discriminate].
    destruct (existsb (py_eq m) _) eqn:Hm; inversion H; subst.
    + apply elem_of_cons in Hx as [->|Hx].
      * split; [left|].
        apply existsb_exists in Hm as (v & Hv & Heq).
        apply in_map_iff in Hv as (id & <- & Hid).
        apply list_elem_of_In in Hid.
        exact (py_eq_id_names m id ids Hid Heq).
      * destruct (IH rest' eq_refl x Hx). split; [right|]; assumption.
    + destruct (IH kept eq_refl x Hx). split; [right|]; assumption.
Qed.

Lemma filter_matched_ids_spec (ad : audit_details) (d r : dict) :
  filter_matched_ids ad d = Some r ->
  (exists kept, dget "matched_compliances" r = Some (PList kept)
                /\ forall x, x ∈ kept -> names_an_id_of (ad_compliances ad) x)
  /\ (forall l, dget "matched_policies" r = Some (PList l) ->
        forall x, x ∈ l -> names_an_id_of (ad_policies ad) x)
  /\ (forall l, dget "matched_subpolicies" r = Some (PList l) ->
        forall x, x ∈ l -> names_an_id_of (ad_subpolicies ad) x).
Proof.
  unfold filter_matched_ids. intros Hf.
  destruct (match dget_or "matched_policies" (PList []) d with
            | PList l => _ | _ => _ end) as [r1|] eqn:H1; [|discriminate].
  simpl in Hf.
  destruct (match dget_or "matched_subpolicies" (PList []) r1 with
            | PList l => _ | _ => _ end) as [r2|] eqn:H2; [|discriminate].
  simpl in Hf.
  assert (P1 : forall l, dget "matched_policies" r1 = Some (PList l) ->
               forall x, x ∈ l -> names_an_id_of (ad_policies ad) x).
  { intros l Hl x Hx. unfold dget_or in H1.
    destruct (dget "matched_policies" d) as [v|] eqn:Hv.
    - destruct v; try (inversion H1; subst; rewrite Hv in Hl; discriminate).
      destruct (filter_ids l0 _) as [l'|] eqn:Hk; [|discriminate].
      simpl in H1. inversion H1; subst. rewrite dget_dset_same in Hl.
      inversion Hl; subst. exact (proj2 (filter_ids_names _ _ _ Hk x Hx)).
    - simpl in H1. inversion H1; subst. rewrite dget_dset_same in Hl.
      inversion Hl; subst. inversion Hx. }
  assert (P2 : forall l, dget "matched_subpolicies" r2 = Some (PList l) ->
               forall x, x ∈ l -> names_an_id_of (ad_subpolicies ad) x).
  { intros l Hl x Hx. unfold dget_or in H2.
    destruct (dget "matched_subpolicies" r1) as [v|] eqn:Hv.
    - destruct v; try (inversion H2; subst; rewrite Hv in Hl; discriminate).
      destruct (filter_ids l0 _) as [l'|] eqn:Hk; [|discriminate].
      simpl in H2. inversion H2; subst. rewrite dget_dset_same in Hl.
      inversion Hl; subst. exact (proj2 (filter_ids_names _ _ _ Hk x Hx)).
    - simpl in H2. inversion H2; subst. rewrite dget_dset_same in Hl.
      inversion Hl; subst. inversion Hx. }
  assert (P12 : dget "matched_policies" r2 = dget "matched_policies" r1).
  { destruct (dget_or "matched_subpolicies" (PList []) r1);
      try (inversion H2; subst; reflexivity).
    destruct (filter_ids l _); [|discriminate]. simpl in H2.
    inversion H2; subst. apply dget_dset_other. discriminate. }
  set (m := dget_or "matched_compliances" (PList []) r2) in Hf.
  assert (Hr : exists kept,
            r = dset "matched_compliances" (PList kept) r2
            /\ forall x, x ∈ kept -> names_an_id_of (ad_compliances ad) x).
  { destruct (if truthy m then m else PList []) as [| | | | |l|] eqn:Hm;
      try (inversion Hf; subst; exists []; split;
           [reflexivity | intros x Hx; inversion Hx]).
    destruct (filter_ids l _) as [kept|] eqn:Hk; [|discriminate].
    simpl in Hf. inversion Hf; subst. exists kept. split; [reflexivity|].
    intros x Hx. exact (proj2 (filter_ids_names _ _ _ Hk x Hx)). }
  destruct Hr as (kept & -> & Hkept). split; [|split].
  - exists kept. split; [apply dget_dset_same|exact Hkept].
  - intros l Hl. rewrite dget_dset_other in Hl by discriminate.
    rewrite P12 in Hl. exact (P1 l Hl).
  - intros l Hl. rewrite dget_dset_other in Hl by discriminate.
    exact (P2 l Hl).
Qed.

Lemma document_verdict_is_filtered (E : env) summary ad w r w' :
  _analyze_document_audit_relevance E summary ad w = (Ok (Some r), w') ->
  exists d, filter_matched_ids ad d = Some r.
Proof.
  unfold _analyze_document_audit_relevance.
  destruct summary; [|intros H; discriminate H].
  unfold bind. rewrite call_ollama_eq.
  destruct (ollama E (ollama_calls w)) as [[|kv d]|]; try (intros H; discriminate H).
  intros H. inversion H. eauto.
Qed.

(** What the filter leaves of any answer. *)
Lemma document_verdict_filtered (E : env) (summary : option string)
  (ad : audit_details) (w w' : World) (r : dict) :
  _analyze_document_audit_relevance E summary ad w = (Ok (Some r), w') ->
  (exists kept, dget "matched_compliances" r = Some (PList kept)
                /\ forall x, x ∈ kept -> names_an_id_of (ad_compliances ad) x)
  /\ (forall l, dget "matched_policies" r = Some (PList l) ->
        forall x, x ∈ l -> names_an_id_of (ad_policies ad) x)
  /\ (forall l, dget "matched_subpolicies" r = Some (PList l) ->
        forall x, x ∈ l -> names_an_id_of (ad_subpolicies ad) x).
Proof.
  intros H. destruct (document_verdict_is_filtered E summary ad w r w' H) as [d Hd].
  exact (filter_matched_ids_spec ad d r Hd).
Qed.

(** X2: whatever the reasoning service answers, a verdict the document
    path returns has a list of matched compliances each member of which
    is a number (int, float or bool) whose value is a compliance id of
    the audit context other than 0, or is None when the context holds
    the id 0; the same holds of its matched policies and subpolicies
    when they are lists. *)
Theorem X2_document_verdicts_name_context_ids_only (E : env)
  (summary : option string) (ad : audit_details) (w w' : World) (r : dict) :
  _analyze_document_audit_relevance E summary ad w = (Ok (Some r), w') ->
  (exists kept, dget "matched_compliances" r = Some (PList kept)
                /\ forall x, x ∈ kept -> names_an_id_of (ad_compliances ad) x)
  /\ (forall l, dget "matched_policies" r = Some (PList l) ->
        forall x, x ∈ l -> names_an_id_of (ad_policies ad) x)
  /\ (forall l, dget "matched_subpolicies" r = Some (PList l) ->
        forall x, x ∈ l -> names_an_id_of (ad_subpolicies ad) x).
Proof. apply document_verdict_filtered. Qed.

Lemma X2_witness :
  exists kept,
    dget "matched_compliances"
      [("relevance_score", PFloat Scenario.f0_9);
       ("relevance_reason", PStr "matches a requirement");
       ("matched_policies", PList []);
       ("matched_subpolicies", PList []);
       ("matched_compliances", PList [PInt 42])]%string = Some (PList kept)
    /\ forall x, x ∈ kept -> names_an_id_of [42] x.
Proof.
  exact (proj1 (X2_document_verdicts_name_context_ids_only
                  (Scenario.constant_env (Some Scenario.foreign_answer))
                  (Some ""%string)
                  (_get_audit_details 426 Scenario.one_document)
                  Scenario.one_document
                  (set_ollama_calls 1 Scenario.one_document) _ eq_refl)).
Defined.

Lemma framework_compliances_None (s : store) : framework_compliances None s = [].
Proof.
  unfold framework_compliances. cbn [framework_subpolicy_rows flat_map].
  induction (compliance s) as [|c l IH]; [reflexivity|exact IH].
Qed.

(** X3: an audit that does not exist, or whose framework is NULL, has an
    empty context, and then no id survives: every verdict returned for a
    document has empty matched compliances, and its matched policies and
    subpolicies are empty when they are lists. *)
Theorem X3_audit_without_framework_matches_nothing (E : env)
  (summary : option string) (audit_id : Z) (w0 w w' : World) (r : dict) :
  (forall a, List.find (fun a => AuditId a =? audit_id) (audit (static w0))
             = Some a -> a_FrameworkId a = None) ->
  _analyze_document_audit_relevance E summary (_get_audit_details audit_id w0) w
    = (Ok (Some r), w') ->
  dget "matched_compliances" r = Some (PList [])
  /\ (forall l, dget "matched_policies" r = Some (PList l) -> l = [])
  /\ (forall l, dget "matched_subpolicies" r = Some (PList l) -> l = []).
Proof.
  intros Hnone H.
  assert (Hctx : ad_policies (_get_audit_details audit_id w0) = []
                 /\ ad_subpolicies (_get_audit_details audit_id w0) = []
                 /\ ad_compliances (_get_audit_details audit_id w0) = []).
  { unfold _get_audit_details. destruct (negb (db_pool (static w0)));
      [repeat split|].
    destruct (List.find _ _) as [a|] eqn:Ha; [|repeat split].
    rewrite (Hnone a eq_refl). cbn [ad_policies ad_subpolicies ad_compliances].
    rewrite framework_compliances_None. repeat split. }
  destruct Hctx as (Hp & Hsp & Hc).
  destruct (document_verdict_filtered E summary _ w w' r H) as ((kept & Hk & Hin) & P & S).
  rewrite Hp in P. rewrite Hsp in S. rewrite Hc in Hin.
  assert (Hnil : forall l : list pyval,
            (forall x, x ∈ l -> names_an_id_of [] x) -> l = []).
  { intros [|x l] Hl; [reflexivity|].
    destruct (Hl x (list_elem_of_here _ _)) as [(id & Hid & _)|[_ Hid]];
      inversion Hid. }
  split; [|split].
  - rewrite Hk. f_equal. f_equal. apply Hnil, Hin.
  - intros l Hl. apply Hnil. exact (P l Hl).
  - intros l Hl. apply Hnil. exact (S l Hl).
Qed.

Lemma X3_witness :
  dget "matched_compliances"
    [("relevance_score", PFloat Scenario.f0_9);
     ("relevance_reason", PStr "matches a requirement");
     ("matched_policies", PList []);
     ("matched_subpolicies", PList []);
     ("matched_compliances", PList [])]%string = Some (PList []).
Proof.
  refine (proj1 (X3_audit_without_framework_matches_nothing
                   (Scenario.constant_env (Some Scenario.foreign_answer))
                   (Some ""%string) 999 Scenario.one_document
                   Scenario.one_document
                   (set_ollama_calls 1 Scenario.one_document) _ _ eq_refl)).
  intros a H. discriminate H.
Defined.

(** ** The database index *)

Lemma aget_aset_same {V} (k : string) (v : V) (d : list (string * V)) :
  aget k (aset k v d) = Some v.
Proof.
  induction d as [|[k' v'] d IH]; simpl.
  - rewrite String.eqb_refl. reflexivity.
  - destruct (String.eqb k k') eqn:Hk; simpl; rewrite Hk; [reflexivity|exact IH].
Qed.

Lemma aget_aset_other {V} (k k' : string) (v : V) (d : list (string * V)) :
  k <> k' -> aget k (aset k' v d) = aget k d.
Proof.
  intros Hne. induction d as [|[k0 v0] d IH]; simpl.
  - apply String.eqb_neq in Hne. rewrite Hne. reflexivity.
  - destruct (String.eqb k' k0) eqn:Hk; simpl.
    + apply String.eqb_eq in Hk. subst k0.
      apply String.eqb_neq in Hne. rewrite Hne. reflexivity.
    + destruct (String.eqb k k0); [reflexivity|exact IH].
Qed.

Lemma existsb_Zeqb (x : Z) (l : list Z) :
  existsb (Z.eqb x) l = true <-> x ∈ l.
Proof.
  rewrite existsb_exists. split.
  - intros (y & Hy & Hxy). apply Z.eqb_eq in Hxy. subst.
    apply list_elem_of_In. exact Hy.
  - intros H. exists x. split; [apply list_elem_of_In; exact H|apply Z.eqb_refl].
Qed.

Lemma find_app_eq {A} (p : A -> bool) (l l' : list A) :
  List.find p (l ++ l')
  = match List.find p l with Some x => Some x | None => List.find p l' end.
Proof.
  induction l as [|y l IH]; [reflexivity|]. simpl.
  destruct (p y); [reflexivity|exact IH].
Qed.

Lemma find_none_all {A} (p : A -> bool) (l : list A) :
  (forall x, x ∈ l -> p x = false) -> List.find p l = None.
Proof.
  induction l as [|y l IH]; intros H; [reflexivity|]. simpl.
  rewrite (H y (list_elem_of_here _ _)). apply IH.
  intros x Hx. apply H. right. exact Hx.
Qed.

Lemma find_insert_hit {A} (p : A -> bool) (l : list A) (i : nat) (e : A) :
  (i < length l)%nat -> p e = true ->
  (forall j y, l !! j = Some y -> (j < i)%nat -> p y = false) ->
  List.find p (<[i := e]> l) = Some e.
Proof.
  revert i. induction l as [|y l IH]; intros i Hi He Hbefore; [simpl in Hi; lia|].
  destruct i as [|i].
  - cbn [insert list_insert]. simpl. rewrite He. reflexivity.
  - cbn [insert list_insert]. change (list_insert i e l) with (<[i := e]> l).
    simpl. rewrite (Hbefore 0%nat y eq_refl) by lia.
    apply IH; [simpl in Hi; lia|exact He|].
    intros j z Hj Hlt. apply (Hbefore (S j) z Hj). lia.
Qed.

Lemma find_insert_other {A} (p : A -> bool) (l : list A) (i : nat) (e x : A) :
  l !! i = Some x -> p x = false -> p e = false ->
  List.find p (<[i := e]> l) = List.find p l.
Proof.
  revert i. induction l as [|y l IH]; intros i Hx Hpx He; [inversion Hx|].
  destruct i as [|i].
  - cbn [insert list_insert]. simpl in *. inversion Hx; subst.
    rewrite Hpx, He. reflexivity.
  - cbn [insert list_insert]. change (list_insert i e l) with (<[i := e]> l).
    simpl. destruct (p y); [reflexivity|]. apply (IH i Hx Hpx He).
Qed.

(** The upsert of one record in the list of a table: the entry is found
    under its id afterwards, the entries of other ids are found as
    before, and the ids of the list stay as they were or gain the new
    one at the end. *)
Lemma upsert_record_spec (entries : list rec_entry) (t : string) (rid : Z)
  (res : dict) :
  List.find (fun r => re_record_id r =? rid) (upsert_record entries t rid res)
    = Some (make_rec_entry t rid res)
  /\ (forall rid', rid' <> rid ->
        List.find (fun r => re_record_id r =? rid')
          (upsert_record entries t rid res)
        = List.find (fun r => re_record_id r =? rid') entries)
  /\ map re_record_id (upsert_record entries t rid res)
     = if existsb (Z.eqb rid) (map re_record_id entries)
       then map re_record_id entries
       else map re_record_id entries ++ [rid].
Proof.
  unfold upsert_record.
  set (e := make_rec_entry t rid res).
  destruct (find_index (fun r => re_record_id r =? rid) entries) as [i|] eqn:Hfind.
  - apply find_index_Some in Hfind as (x & Hx & Hpx & Hbefore).
    apply Z.eqb_eq in Hpx.
    assert (Hex : existsb (Z.eqb rid) (map re_record_id entries) = true).
    { apply existsb_Zeqb, list_elem_of_fmap. exists x.
      split; [symmetry; exact Hpx|eapply list_elem_of_lookup_2; eauto]. }
    rewrite Hex. split; [|split].
    + apply find_insert_hit.
      * eapply lookup_lt_Some; eauto.
      * simpl. apply Z.eqb_refl.
      * exact Hbefore.
    + intros rid' Hne. apply (find_insert_other _ _ _ _ x Hx).
      * rewrite Hpx. apply Z.eqb_neq. congruence.
      * simpl. apply Z.eqb_neq. congruence.
    + rewrite list_fmap_insert. apply list_insert_id.
      rewrite list_lookup_fmap, Hx. simpl. f_equal. exact Hpx.
  - assert (Hnone := proj1 (find_index_None _ _) Hfind).
    assert (Hex : existsb (Z.eqb rid) (map re_record_id entries) = false).
    { apply not_true_is_false. intros H. apply existsb_Zeqb in H.
      apply list_elem_of_fmap in H as (x & Hx & Hin).
      specialize (Hnone x Hin). simpl in Hnone. rewrite <- Hx, Z.eqb_refl in Hnone.
      discriminate. }
    rewrite Hex. split; [|split].
    + rewrite find_app_eq.
      assert (List.find (fun r => re_record_id r =? rid) entries = None) as ->.
      { apply find_none_all. exact Hnone. }
      simpl. rewrite Z.eqb_refl. reflexivity.
    + intros rid' Hne. rewrite find_app_eq.
      destruct (List.find (fun r => re_record_id r =? rid') entries);
        [reflexivity|].
      simpl. destruct (rid =? rid') eqn:Hc; [|reflexivity].
      apply Z.eqb_eq in Hc. congruence.
    + rewrite map_app. reflexivity.
Qed.

Lemma db_files_after_save (path : Z * Z) (data : db_index) (w : World) :
  db_files (_save_json_index_database path data w) = <[path := data]> (db_files w).
Proof.
  unfold _save_json_index_database. destruct (bi_audit_id data); [|reflexivity].
  destruct (_ && _); reflexivity.
Qed.

Lemma indexed_records_after_update (fw a : Z) (t : string) (rid : Z) (res : dict)
  (w : World) :
  indexed_records fw a t (_update_json_index_database fw a t rid res w)
  = upsert_record (indexed_records fw a t w) t rid res.
Proof.
  unfold indexed_records, _load_json_index_database, _update_json_index_database.
  rewrite db_files_after_save, lookup_insert_eq. cbn [from_option id database_data].
  rewrite aget_aset_same. reflexivity.
Qed.

Lemma indexed_records_other_table (fw a : Z) (t t' : string) (rid : Z)
  (res : dict) (w : World) :
  t' <> t ->
  indexed_records fw a t' (_update_json_index_database fw a t rid res w)
  = indexed_records fw a t' w.
Proof.
  intros Hne.
  unfold indexed_records, _load_json_index_database, _update_json_index_database.
  rewrite db_files_after_save, lookup_insert_eq. cbn [from_option id database_data].
  rewrite aget_aset_other by exact Hne. reflexivity.
Qed.

Lemma indexed_records_other_audit (fw a fw' a' : Z) (t t' : string) (rid : Z)
  (res : dict) (w : World) :
  (fw', a') <> (fw, a) ->
  indexed_records fw' a' t' (_update_json_index_database fw a t rid res w)
  = indexed_records fw' a' t' w.
Proof.
  intros Hne.
  unfold indexed_records, _load_json_index_database, _update_json_index_database.
  rewrite db_files_after_save, lookup_insert_ne by congruence. reflexivity.
Qed.

(** X4: after [_update_json_index_database] the index of the audit
    holds the new entry under the record id in the list of its table;
    the entries of the other record ids of that table, the other tables
    and the indexes of the other audits are as before. *)
Theorem X4_database_index_update_and_lookup (fw a : Z) (t : string) (rid : Z)
  (res : dict) (w : World) :
  List.find (fun r => re_record_id r =? rid)
    (indexed_records fw a t (_update_json_index_database fw a t rid res w))
  = Some (make_rec_entry t rid res)
  /\ (forall rid', rid' <> rid ->
        List.find (fun r => re_record_id r =? rid')
          (indexed_records fw a t (_update_json_index_database fw a t rid res w))
        = List.find (fun r => re_record_id r =? rid') (indexed_records fw a t w))
  /\ (forall t', t' <> t ->
        indexed_records fw a t' (_update_json_index_database fw a t rid res w)
        = indexed_records fw a t' w)
  /\ (forall fw' a' t', (fw', a') <> (fw, a) ->
        indexed_records fw' a' t' (_update_json_index_database fw a t rid res w)
        = indexed_records fw' a' t' w).
Proof.
  rewrite indexed_records_after_update.
  destruct (upsert_record_spec (indexed_records fw a t w) t rid res)
    as (H1 & H2 & _).
  split; [exact H1|]. split; [exact H2|]. split.
  - intros t' Hne. apply indexed_records_other_table, Hne.
  - intros fw' a' t' Hne. apply indexed_records_other_audit, Hne.
Qed.

(** X5: the upsert keeps the record ids of a table distinct and adds at
    most one entry (none when the id is indexed already); writing a
    verdict for the same record again, whatever it says, leaves the
    list of record ids of the table as it is. *)
Theorem X5_database_index_holds_one_entry_per_record (fw a : Z) (t : string)
  (rid : Z) (res : dict) (w : World) :
  (NoDup (map re_record_id (indexed_records fw a t w)) ->
   NoDup (map re_record_id
            (indexed_records fw a t (_update_json_index_database fw a t rid res w))))
  /\ length (indexed_records fw a t (_update_json_index_database fw a t rid res w))
     = (if existsb (Z.eqb rid) (map re_record_id (indexed_records fw a t w))
        then length (indexed_records fw a t w)
        else S (length (indexed_records fw a t w)))
  /\ (forall res',
        map re_record_id
          (indexed_records fw a t
             (_update_json_index_database fw a t rid res'
                (_update_json_index_database fw a t rid res w)))
        = map re_record_id
            (indexed_records fw a t
               (_update_json_index_database fw a t rid res w))).
Proof.
  split; [|split].
  - rewrite indexed_records_after_update.
    destruct (upsert_record_spec (indexed_records fw a t w) t rid res)
      as (H1 & _ & H3).
    intros Hnd. rewrite H3.
    destruct (existsb (Z.eqb rid) _) eqn:Hex; [exact Hnd|].
    apply NoDup_app. split; [exact Hnd|]. split; [|apply NoDup_singleton].
    intros x Hx Hx'. apply list_elem_of_singleton in Hx'. subst x.
    apply existsb_Zeqb in Hx. congruence.
  - rewrite indexed_records_after_update.
    destruct (upsert_record_spec (indexed_records fw a t w) t rid res)
      as (H1 & _ & H3).
    rewrite <- (length_map re_record_id), H3.
    destruct (existsb (Z.eqb rid) _); rewrite ?length_app, length_map;
      simpl; lia.
  - intros res'.
    rewrite (indexed_records_after_update fw a t rid res'
               (_update_json_index_database fw a t rid res w)).
    set (l := indexed_records fw a t
                (_update_json_index_database fw a t rid res w)).
    destruct (upsert_record_spec l t rid res') as (_ & _ & H3).
    rewrite H3.
    assert (Hin : existsb (Z.eqb rid) (map re_record_id l) = true).
    { subst l. rewrite indexed_records_after_update.
      destruct (upsert_record_spec (indexed_records fw a t w) t rid res)
        as (_ & _ & H3').
      rewrite H3'.
      destruct (existsb (Z.eqb rid) (map re_record_id (indexed_records fw a t w)))
        eqn:Hex; [exact Hex|].
      rewrite existsb_app. simpl. rewrite Z.eqb_refl.
      rewrite orb_true_r. reflexivity. }
    rewrite Hin. reflexivity.
Qed.

(** ** Incremental selection of database rows *)

Lemma incremental_db_data_elem (E : env) (seen : list (string * list Z))
  (all : list (string * list dict)) (t : string) (rs : list dict) :
  (t, rs) ∈ incremental_db_data E seen all <->
  rs <> [] /\ exists records,
    (t, records) ∈ all /\ rs = List.filter (is_new_record E seen t) records.
Proof.
  induction all as [|[t0 records0] all IH].
  - simpl. split; [intros H; inversion H|].
    intros (_ & records & H & _). inversion H.
  - cbn [incremental_db_data].
    change (List.filter _ records0)
      with (List.filter (is_new_record E seen t0) records0).
    destruct (List.filter (is_new_record E seen t0) records0) as [|r0 rs0] eqn:Hf.
    + rewrite IH. split.
      * intros (Hne & records & Hin & Hrs). split; [exact Hne|].
        exists records. split; [right; exact Hin|exact Hrs].
      * intros (Hne & records & Hin & Hrs). split; [exact Hne|].
        apply elem_of_cons in Hin as [Heq|Hin].
        -- inversion Heq; subst. rewrite Hf in Hne. contradiction.
        -- exists records. split; assumption.
    + rewrite elem_of_cons, IH. split.
      * intros [Heq|(Hne & records & Hin & Hrs)].
        -- inversion Heq; subst. split; [discriminate|].
           exists records0. split; [left|symmetry; exact Hf].
        -- split; [exact Hne|]. exists records. split; [right; exact Hin|exact Hrs].
      * intros (Hne & records & Hin & Hrs).
        apply elem_of_cons in Hin as [Heq|Hin].
        -- inversion Heq; subst. left. rewrite Hf. reflexivity.
        -- right. split; [exact Hne|]. exists records. split; assumption.
Qed.

Lemma seen_ids_of_index (d : list (string * list rec_entry)) (t : string) :
  default [] (aget t (already_analyzed_db d))
  = map re_record_id (default [] (aget t d)).
Proof.
  unfold already_analyzed_db.
  induction d as [|[t0 l] d IH]; [reflexivity|]. simpl.
  destruct (String.eqb t t0); [reflexivity|exact IH].
Qed.

Lemma rows_to_analyze_spec (E : env) (fw a : Z) (w : World)
  (all : list (string * list dict)) (t : string) (record : dict) :
  (exists rs, (t, rs) ∈ rows_to_analyze E fw a w all /\ record ∈ rs)
  <-> (exists records, (t, records) ∈ all /\ record ∈ records)
      /\ exists id, _get_db_record_id E t record = Some id
                    /\ id ∉ map re_record_id (indexed_records fw a t w).
Proof.
  unfold rows_to_analyze, indexed_records.
  set (seen := already_analyzed_db _).
  assert (Hnew : is_new_record E seen t record = true
                 <-> exists id, _get_db_record_id E t record = Some id
                       /\ id ∉ map re_record_id
                                 (default [] (aget t (database_data
                                    (_load_json_index_database fw a w))))).
  { unfold is_new_record, seen. rewrite seen_ids_of_index.
    destruct (_get_db_record_id E t record) as [id|].
    - rewrite negb_true_iff, <- not_true_iff_false, existsb_Zeqb. split.
      + intros H. exists id. split; [reflexivity|exact H].
      + intros (id' & Heq & H). inversion Heq; subst. exact H.
    - split; [discriminate|]. intros (id & Heq & _). discriminate. }
  split.
  - intros (rs & Hin & Hrec).
    apply incremental_db_data_elem in Hin as (_ & records & Hall & ->).
    apply in_filter_iff in Hrec as [Hrec Hp]. split.
    + exists records. split; assumption.
    + apply Hnew, Hp.
  - intros ((records & Hall & Hrec) & Hid).
    exists (List.filter (is_new_record E seen t) records).
    assert (Hin : record ∈ List.filter (is_new_record E seen t) records).
    { apply in_filter_iff. split; [exact Hrec|apply Hnew, Hid]. }
    split; [|exact Hin].
    apply incremental_db_data_elem. split.
    + intros Hnil. rewrite Hnil in Hin. inversion Hin.
    + exists records. split; [exact Hall|reflexivity].
Qed.

(** X6: the rows sent to the database analysis of an audit are exactly
    the rows of the evidence tables that have a primary key which the
    database index of the audit does not hold for their table; a table
    is listed only with at least one such row. *)
Theorem X6_incremental_rows_are_the_unindexed_ones (E : env) (fw a : Z)
  (w : World) (all : list (string * list dict)) (t : string) :
  (forall record,
     (exists rs, (t, rs) ∈ rows_to_analyze E fw a w all /\ record ∈ rs)
     <-> (exists records, (t, records) ∈ all /\ record ∈ records)
         /\ exists id, _get_db_record_id E t record = Some id
                       /\ id ∉ map re_record_id (indexed_records fw a t w))
  /\ (forall rs, (t, rs) ∈ rows_to_analyze E fw a w all -> rs <> []).
Proof.
  split.
  - intros record. apply rows_to_analyze_spec.
  - intros rs Hin. apply incremental_db_data_elem in Hin as [Hne _]. exact Hne.
Qed.

(** X7: once a verdict is indexed under a record id, no row of that
    table with this primary key is sent to the database analysis of the
    audit again, whatever the evidence tables hold. *)
Theorem X7_indexed_record_is_not_analyzed_again (E : env) (fw a : Z)
  (t : string) (rid : Z) (res : dict) (w : World)
  (all : list (string * list dict)) (rs : list dict) (record : dict) :
  (t, rs) ∈ rows_to_analyze E fw a
              (_update_json_index_database fw a t rid res w) all ->
  record ∈ rs ->
  _get_db_record_id E t record <> Some rid.
Proof.
  intros Hin Hrec Hid.
  destruct (proj1 (rows_to_analyze_spec E fw a _ all t record)
              (ex_intro _ rs (conj Hin Hrec))) as (_ & id & Hid' & Hnot).
  rewrite Hid in Hid'. inversion Hid'; subst id. apply Hnot.
  rewrite indexed_records_after_update.
  destruct (upsert_record_spec (indexed_records fw a t w) t rid res)
    as (_ & _ & H3).
  rewrite H3. destruct (existsb (Z.eqb rid) _) eqn:Hex.
  - apply existsb_Zeqb, Hex.
  - apply elem_of_app. right. left.
Qed.

Lemma X7_witness :
  ("incidents"%string, [Scenario.incident 2])
    ∈ rows_to_analyze (Scenario.constant_env None) 7 426
        (_update_json_index_database 7 426 "incidents" 1
           (Scenario.verdict Scenario.f0_9 [PInt 42]) Scenario.two_incidents)
        [("incidents"%string, [Scenario.incident 1; Scenario.incident 2])]
  /\ _get_db_record_id (Scenario.constant_env None) "incidents"
       (Scenario.incident 2) <> Some 1.
Proof.
  assert (H : ("incidents"%string, [Scenario.incident 2])
    ∈ rows_to_analyze (Scenario.constant_env None) 7 426
        (_update_json_index_database 7 426 "incidents" 1
           (Scenario.verdict Scenario.f0_9 [PInt 42]) Scenario.two_incidents)
        [("incidents"%string, [Scenario.incident 1; Scenario.incident 2])]).
  { apply list_elem_of_In. vm_compute. left. reflexivity. }
  split; [exact H|].
  apply (X7_indexed_record_is_not_analyzed_again _ _ _ _ _ _ _ _ _ _ H).
  left.
Defined.

(** ** Evidence records of database verdicts *)

Lemma for_each_Ok {A} (xs : list A) (body : A -> M unit) :
  (forall x w, fst (body x w) = Ok tt) ->
  forall w, fst (for_each xs body w) = Ok tt.
Proof.
  intros Hbody. induction xs as [|x xs IH]; intros w; [reflexivity|].
  simpl. unfold bind. specialize (Hbody x w).
  destruct (body x w) as [[[]|] w1]; simpl in Hbody; [apply IH|discriminate].
Qed.

Lemma try_pass_Ok (m : M unit) (w : World) : fst (try_pass m w) = Ok tt.
Proof. unfold try_pass. destruct (m w) as [[[]|] w1]; reflexivity. Qed.

(** X8: the synthesis of evidence records never raises, whatever the
    verdicts hold: the exception of one record is contained.  Without a
    connection pool or without a framework id (None or 0) it changes
    nothing. *)
Theorem X8_evidence_synthesis_never_raises (E : env) (framework_id : option Z)
  (audit_id : Z) (db_results : list (string * list rec_entry)) (w : World) :
  fst (_create_ai_evidence_from_database_results E framework_id audit_id
         db_results w) = Ok tt
  /\ (db_pool (static w) && id_truthy framework_id = false ->
      snd (_create_ai_evidence_from_database_results E framework_id audit_id
             db_results w) = w).
Proof.
  unfold _create_ai_evidence_from_database_results, bind, gets.
  destruct framework_id as [fw|]; [|split; reflexivity].
  destruct (db_pool (static w)); cbn [negb orb andb].
  - destruct (id_truthy (Some fw)); cbn [negb]; [|split; reflexivity].
    split; [|discriminate].
    apply for_each_Ok. intros [t es] w1. apply for_each_Ok.
    intros e w2. apply try_pass_Ok.
  - split; reflexivity.
Qed.

Lemma create_evidence_existing (E : env) (framework_id audit_id : Z)
  (table_name : string) (analysis : rec_entry) (existing : ai_audit_row)
  (w : World) :
  List.find (is_db_evidence_for audit_id
               (db_external_id table_name (re_record_id analysis)))
    (ai_audit_data w) = Some existing ->
  exists rows',
    length rows' = length (ai_audit_data w)
    /\ snd (create_evidence_for E framework_id audit_id table_name analysis w)
       = set_ai_audit_data rows' w.
Proof.
  intros Hfind.
  assert (Hsame : exists rows', length rows' = length (ai_audit_data w)
                                /\ w = set_ai_audit_data rows' w).
  { exists (ai_audit_data w). split; [reflexivity|]. destruct w; reflexivity. }
  unfold create_evidence_for.
  destruct (py_float _ _) as [score|]; [|exact Hsame].
  destruct (orb _ _); [exact Hsame|].
  unfold bind at 1.
  lazymatch goal with
  | |- context [match ?x with pair _ _ => _ end] =>
      destruct x as [[comp_id|] w1] eqn:Hc
  end.
  - assert (w1 = w) as ->.
    { destruct (andb _ _) in Hc.
      - destruct (py_iter _); inversion Hc; reflexivity.
      - inversion Hc; reflexivity. }
    unfold bind, gets, ret, modify, raise. cbv beta.
    destruct (match comp_id with Some _ => _ | None => _ end)
      as [[[c sp] p]|]; [|exact Hsame].
    destruct (c =? 0); [exact Hsame|].
    destruct (reason_prefix _); [|exact Hsame].
    rewrite Hfind. cbn [snd]. eexists. split; [|reflexivity].
    apply length_map.
  - assert (w1 = w) as ->.
    { destruct (andb _ _) in Hc.
      - destruct (py_iter _); inversion Hc; reflexivity.
      - inversion Hc. }
    exact Hsame.
Qed.

(** X10: when the evidence row of a record exists already, synthesizing
    the record again inserts nothing and leaves the checklist alone,
    whatever the score: the observation of a record is counted once. *)
Theorem X10_existing_evidence_is_not_counted_again (E : env)
  (framework_id audit_id : Z) (table_name : string) (analysis : rec_entry)
  (existing : ai_audit_row) (w : World) :
  List.find (is_db_evidence_for audit_id
               (db_external_id table_name (re_record_id analysis)))
    (ai_audit_data w) = Some existing ->
  lastchecklistitemverified
    (snd (create_evidence_for E framework_id audit_id table_name analysis w))
  = lastchecklistitemverified w
  /\ length (ai_audit_data
               (snd (create_evidence_for E framework_id audit_id table_name
                       analysis w)))
     = length (ai_audit_data w)
  /\ next_ai_id
       (snd (create_evidence_for E framework_id audit_id table_name analysis w))
     = next_ai_id w.
Proof.
  intros Hfind.
  destruct (create_evidence_existing E framework_id audit_id table_name
              analysis existing w Hfind) as (rows' & Hlen & ->).
  repeat split. exact Hlen.
Qed.

Lemma X10_witness :
  lastchecklistitemverified
    (snd (create_evidence_for (Scenario.constant_env None) 7 426 "incidents"
            (Scenario.record_entry 1 Scenario.f0_9 [PInt 42])
            (Scenario.after_run
               (Scenario.scripted_env
                  [Some (Scenario.verdict Scenario.f0_9 [PInt 42])])
               Scenario.one_incident)))
  = lastchecklistitemverified
      (Scenario.after_run
         (Scenario.scripted_env [Some (Scenario.verdict Scenario.f0_9 [PInt 42])])
         Scenario.one_incident)
  /\ length (ai_audit_data
               (Scenario.after_run
                  (Scenario.scripted_env
                     [Some (Scenario.verdict Scenario.f0_9 [PInt 42])])
                  Scenario.one_incident)) = 1%nat.
Proof.
  assert (H : exists existing,
            List.find (is_db_evidence_for 426 (db_external_id "incidents" 1))
              (ai_audit_data
                 (Scenario.after_run
                    (Scenario.scripted_env
                       [Some (Scenario.verdict Scenario.f0_9 [PInt 42])])
                    Scenario.one_incident)) = Some existing).
  { vm_compute. eexists. reflexivity. }
  destruct H as [existing H].
  split; [|vm_compute; reflexivity].
  exact (proj1 (X10_existing_evidence_is_not_counted_again
                  (Scenario.constant_env None) 7 426 "incidents"
                  (Scenario.record_entry 1 Scenario.f0_9 [PInt 42])
                  existing _ H)).
Defined.

(** ** What the synthesis leaves alone *)

Lemma synthesis_frame_refl (a : Z) (w : World) : synthesis_frame a w w.
Proof. intros Hpk. split; [exact Hpk|]. intros i r Hr. exists r. auto. Qed.

Lemma synthesis_frame_trans (a : Z) (w1 w2 w3 : World) :
  synthesis_frame a w1 w2 -> synthesis_frame a w2 w3 -> synthesis_frame a w1 w3.
Proof.
  intros H12 H23 Hpk. destruct (H12 Hpk) as [Hpk2 F12].
  destruct (H23 Hpk2) as [Hpk3 F23]. split; [exact Hpk3|].
  intros i r Hr. destruct (F12 i r Hr) as (r2 & Hr2 & Hid2 & Hev2 & Hsame2).
  destruct (F23 i r2 Hr2) as (r3 & Hr3 & Hid3 & Hev3 & Hsame3).
  exists r3. split; [exact Hr3|]. split; [congruence|]. split; [congruence|].
  intros Hno. rewrite <- (Hsame2 Hno). apply Hsame3. rewrite (Hsame2 Hno). exact Hno.
Qed.

Lemma synthesis_frame_rows (a : Z) (w w' : World) :
  ai_audit_data w' = ai_audit_data w -> next_ai_id w' = next_ai_id w ->
  synthesis_frame a w w'.
Proof.
  intros Hrows Hnext Hpk. unfold primary_key_ok in *. rewrite Hrows, Hnext.
  split; [exact Hpk|]. intros i r Hr. exists r. auto.
Qed.

Lemma NoDup_map_lookup_inj {A} (f : A -> Z) (l : list A) (i j : nat) (x y : A) :
  NoDup (map f l) -> l !! i = Some x -> l !! j = Some y -> f x = f y -> i = j.
Proof.
  intros Hnd Hx Hy Hf.
  apply (NoDup_lookup (map f l) i j (f x) Hnd).
  - rewrite list_lookup_fmap, Hx. reflexivity.
  - rewrite list_lookup_fmap, Hy, Hf. reflexivity.
Qed.

Lemma find_lookup {A} (p : A -> bool) (l : list A) (x : A) :
  List.find p l = Some x -> p x = true /\ exists i, l !! i = Some x.
Proof.
  intros H. apply find_some in H as [Hin Hp]. split; [exact Hp|].
  apply list_elem_of_In, list_elem_of_lookup_1 in Hin. exact Hin.
Qed.

Lemma create_evidence_for_frame (E : env) (framework_id audit_id : Z)
  (table_name : string) (analysis : rec_entry) (w : World) :
  synthesis_frame audit_id w
    (snd (create_evidence_for E framework_id audit_id table_name analysis w)).
Proof.
  unfold create_evidence_for.
  destruct (py_float _ _) as [score|]; [|apply synthesis_frame_refl].
  destruct (orb _ _); [apply synthesis_frame_refl|].
  unfold bind at 1.
  lazymatch goal with
  | |- context [match ?x with pair _ _ => _ end] =>
      destruct x as [[comp_id|] w1] eqn:Hc
  end.
  - assert (w1 = w) as ->.
    { destruct (andb _ _) in Hc.
      - destruct (py_iter _); inversion Hc; reflexivity.
      - inversion Hc; reflexivity. }
    unfold bind, gets, ret, modify, raise. cbv beta.
    destruct (match comp_id with Some _ => _ | None => _ end)
      as [[[c sp] p]|]; [|apply synthesis_frame_refl].
    destruct (c =? 0); [apply synthesis_frame_refl|].
    destruct (reason_prefix _) as [reason|]; [|apply synthesis_frame_refl].
    destruct (List.find _ (ai_audit_data w)) as [existing|] eqn:Hfind.
    + (* the row exists: it is updated in place *)
      cbn [snd]. intros [Hnd Hlt].
      apply find_lookup in Hfind as [Hev [k Hk]].
      set (f := fun r : ai_audit_row =>
                  if ai_id r =? ai_id existing
                  then backfill_row p sp _ _ existing r else r).
      assert (Hid : forall r, ai_id (f r) = ai_id r).
      { intros r. unfold f. destruct (ai_id r =? ai_id existing); reflexivity. }
      split.
      * unfold primary_key_ok. cbn [set_ai_audit_data ai_audit_data next_ai_id].
        assert (Hmap : map ai_id (map f (ai_audit_data w))
                       = map ai_id (ai_audit_data w)).
        { rewrite map_map. apply map_ext. exact Hid. }
        split; [rewrite Hmap; exact Hnd|].
        apply Forall_forall. intros r Hr.
        apply list_elem_of_fmap in Hr as (r0 & -> & Hr0).
        rewrite Hid. exact (proj1 (Forall_forall _ _) Hlt r0 Hr0).
      * intros i r Hr. exists (f r). cbn [set_ai_audit_data ai_audit_data].
        split; [rewrite list_lookup_fmap, Hr; reflexivity|].
        split; [apply Hid|]. unfold f.
        destruct (ai_id r =? ai_id existing) eqn:Heq; [|auto].
        apply Z.eqb_eq in Heq.
        assert (i = k) by (eapply (NoDup_map_lookup_inj ai_id); eauto).
        subst i. rewrite Hk in Hr. inversion Hr; subst r.
        split; [reflexivity|]. intros Hno. exfalso.
        unfold is_db_evidence_for in Hev. unfold is_db_evidence_of in Hno.
        rewrite Hno in Hev. discriminate.
    + (* a new row is inserted with the next id *)
      set (row := {| ai_id := next_ai_id w |}).
      assert (Hins : synthesis_frame audit_id w
                (set_next_ai_id (next_ai_id w + 1)
                   (set_ai_audit_data (ai_audit_data w ++ [row]) w))).
      { intros [Hnd Hlt]. split.
        - unfold primary_key_ok.
          cbn [set_next_ai_id set_ai_audit_data ai_audit_data next_ai_id].
          split.
          + rewrite map_app. apply NoDup_app. split; [exact Hnd|].
            split; [|apply NoDup_singleton].
            intros x Hx Hx'. apply list_elem_of_singleton in Hx'. subst x.
            apply list_elem_of_fmap in Hx as (r & Hr & Hin).
            assert (H := proj1 (Forall_forall _ _) Hlt r Hin).
            unfold row in Hr. simpl in Hr, H. lia.
          + apply Forall_app. split.
            * eapply Forall_impl; [exact Hlt|]. intros r Hr. simpl in *. lia.
            * apply Forall_singleton. unfold row. simpl. lia.
        - intros i r Hr. exists r.
          cbn [set_next_ai_id set_ai_audit_data ai_audit_data].
          split; [apply lookup_app_l_Some; exact Hr|]. auto. }
      destruct (Qle_bool f0_8 score); cbn [snd].
      * eapply synthesis_frame_trans; [exact Hins|].
        apply synthesis_frame_rows; reflexivity.
      * exact Hins.
  - assert (w1 = w) as ->.
    { destruct (andb _ _) in Hc.
      - destruct (py_iter _); inversion Hc; reflexivity.
      - inversion Hc. }
    apply synthesis_frame_refl.
Qed.

Lemma create_evidence_results_frame (E : env) (framework_id : option Z)
  (audit_id : Z) (db_results : list (string * list rec_entry)) (w : World) :
  synthesis_frame audit_id w
    (snd (_create_ai_evidence_from_database_results E framework_id audit_id
            db_results w)).
Proof.
  unfold _create_ai_evidence_from_database_results, bind, gets.
  destruct framework_id as [fw|]; [|apply synthesis_frame_refl].
  destruct (orb _ _); [apply synthesis_frame_refl|].
  apply (preserved_for_each (synthesis_frame audit_id)
           (synthesis_frame_refl audit_id) (synthesis_frame_trans audit_id)).
  intros [t es] w2.
  apply (preserved_for_each (synthesis_frame audit_id)
           (synthesis_frame_refl audit_id) (synthesis_frame_trans audit_id)).
  intros e w3. apply preserved_try_pass. apply create_evidence_for_frame.
Qed.

(** X9: with the primary key of [ai_audit_data] in force, the synthesis
    of database evidence for an audit keeps the primary key and deletes
    and moves no row: every row is found afterwards at its position with
    its id, a database evidence row of the audit is still one, and a row
    that is not database evidence of that audit (document evidence,
    evidence of other audits) is exactly as it was. *)
Theorem X9_evidence_synthesis_leaves_other_rows_alone (E : env)
  (framework_id : option Z) (audit_id : Z)
  (db_results : list (string * list rec_entry)) (w : World) :
  primary_key_ok w ->
  primary_key_ok
    (snd (_create_ai_evidence_from_database_results E framework_id audit_id
            db_results w))
  /\ forall i r,
       ai_audit_data w !! i = Some r ->
       exists r',
         ai_audit_data
           (snd (_create_ai_evidence_from_database_results E framework_id
                   audit_id db_results w)) !! i = Some r'
         /\ ai_id r' = ai_id r
         /\ is_db_evidence_of audit_id r' = is_db_evidence_of audit_id r
         /\ (is_db_evidence_of audit_id r = false -> r' = r).
Proof.
  intros Hpk.
  exact (create_evidence_results_frame E framework_id audit_id db_results w Hpk).
Qed.

Lemma X9_witness :
  primary_key_ok (set_next_ai_id 2 Scenario.one_completed_row)
  /\ exists r',
       ai_audit_data
         (snd (_create_ai_evidence_from_database_results
                 (Scenario.constant_env None) (Some 7) 426
                 [("incidents"%string,
                   [Scenario.record_entry 1 Scenario.f0_9 [PInt 42]])]
                 (set_next_ai_id 2 Scenario.one_completed_row))) !! 0%nat
       = Some r'
       /\ ai_id r' = 1
       /\ is_db_evidence_of 426 r' = false
       /\ (false = false -> r' = Scenario.attachment_row 1 "completed").
Proof.
  assert (Hpk : primary_key_ok (set_next_ai_id 2 Scenario.one_completed_row)).
  { split; simpl; [apply NoDup_singleton|].
    apply Forall_singleton. simpl. lia. }
  split; [exact Hpk|].
  exact (proj2 (X9_evidence_synthesis_leaves_other_rows_alone
                  (Scenario.constant_env None) (Some 7) 426
                  [("incidents"%string,
                    [Scenario.record_entry 1 Scenario.f0_9 [PInt 42]])]
                  (set_next_ai_id 2 Scenario.one_completed_row) Hpk)
           0%nat (Scenario.attachment_row 1 "completed") eq_refl).
Defined.

(** ** The checklist ledger *)

Lemma or_zero_default (o : option Z) :
  default 0 (if id_truthy o then o else Some 0) = default 0 o.
Proof.
  destruct o as [z|]; [|reflexivity]. simpl.
  destruct (z =? 0) eqn:Hz; [|reflexivity]. apply Z.eqb_eq in Hz. subst.
  reflexivity.
Qed.

(** X11: the upsert of the checklist works on the rows with the key
    (compliance, framework, policy or 0, subpolicy or 0).  A row with
    the key is marked complied with the new comment and its count grows
    by one (a NULL count becoming 1); every other row is untouched; when
    no row has the key, one is appended with count 1. *)
Theorem X11_checklist_upsert_counts_observations (c fw : Z) (p sp : option Z)
  (comments : string) (rows : list checklist_row) :
  (forall i r, rows !! i = Some r ->
     exists r', update_checklist c fw p sp comments rows !! i = Some r'
       /\ if checklist_where c fw (default 0 p) (default 0 sp) r
          then checklist_where c fw (default 0 p) (default 0 sp) r' = true
               /\ cl_Complied r' = "1"%string /\ cl_Comments r' = comments
               /\ cl_Count r' = Some (default 0 (cl_Count r) + 1)
          else r' = r)
  /\ (if existsb (checklist_where c fw (default 0 p) (default 0 sp)) rows
      then length (update_checklist c fw p sp comments rows) = length rows
      else exists r',
             update_checklist c fw p sp comments rows = rows ++ [r']
             /\ checklist_where c fw (default 0 p) (default 0 sp) r' = true
             /\ cl_Complied r' = "1"%string /\ cl_Comments r' = comments
             /\ cl_Count r' = Some 1).
Proof.
  unfold update_checklist. rewrite !or_zero_default.
  set (key := checklist_where c fw (default 0 p) (default 0 sp)).
  destruct (existsb key rows) eqn:Hex.
  - split; [|apply length_map].
    intros i r Hr. rewrite list_lookup_fmap, Hr. simpl.
    destruct (key r) eqn:Hk; eexists; (split; [reflexivity|]); [|reflexivity].
    repeat split. exact Hk.
  - split.
    + intros i r Hr. exists r. split; [apply lookup_app_l_Some; exact Hr|].
      destruct (key r) eqn:Hk; [|reflexivity]. exfalso.
      assert (existsb key rows = true); [|congruence].
      apply existsb_exists. exists r.
      split; [eapply list_elem_of_In, list_elem_of_lookup_2; eauto|exact Hk].
    + eexists. split; [reflexivity|]. repeat split.
      unfold key, checklist_where. simpl. rewrite !Z.eqb_refl. reflexivity.
Qed.

(** ** Auto-processing *)

Lemma appended_nil (a fw : Z) (w : World) : appended a fw [] w w.
Proof.
  unfold appended. rewrite app_nil_r. simpl. rewrite Z.add_0_r.
  repeat split; try constructor.
Qed.

Lemma appended_trans (a fw : Z) (n1 n2 : list ai_audit_row) (w1 w2 w3 : World) :
  appended a fw n1 w1 w2 -> appended a fw n2 w2 w3 ->
  appended a fw (n1 ++ n2) w1 w3.
Proof.
  intros (A1 & A2 & A3 & A4 & A5 & A6 & A7 & A8 & A9 & A10 & A11 & A12)
         (B1 & B2 & B3 & B4 & B5 & B6 & B7 & B8 & B9 & B10 & B11 & B12).
  unfold appended. rewrite B1, A1, B2, A2, length_app, Nat2Z.inj_add, app_assoc.
  split; [reflexivity|]. split; [lia|]. split.
  { apply Forall_app. split.
    - eapply Forall_impl; [exact A3|]. intros r Hr. simpl in *. lia.
    - eapply Forall_impl; [exact B3|]. intros r Hr. simpl in *. lia. }
  split.
  { rewrite map_app. apply NoDup_app. split; [exact A4|]. split; [|exact B4].
    intros x Hx Hx'.
    apply list_elem_of_fmap in Hx as (r & -> & Hr).
    apply list_elem_of_fmap in Hx' as (r' & Heq & Hr').
    assert (H := proj1 (Forall_forall _ _) A3 r Hr).
    assert (H' := proj1 (Forall_forall _ _) B3 r' Hr').
    simpl in *. lia. }
  split; [apply Forall_app; split; assumption|].
  repeat split; congruence.
Qed.

Lemma attachment_rows_spec first_id audit_id file_name document_path file_type
  file_size mime_type uploaded_by external_id framework_id (ms : list mapping) :
  let rows := attachment_rows first_id audit_id file_name document_path
                file_type file_size mime_type uploaded_by external_id
                framework_id ms in
  length rows = length ms
  /\ Forall (fun r => first_id <= ai_id r < first_id + Z.of_nat (length ms)) rows
  /\ NoDup (map ai_id rows)
  /\ Forall (pending_attachment audit_id framework_id) rows
  /\ map (fun r => (ai_policy_id r, ai_subpolicy_id r)) rows
     = map (fun m => (m_policy_id m, m_subpolicy_id m)) ms.
Proof.
  revert first_id. induction ms as [|m ms IH]; intros first_id; cbn zeta.
  - simpl. repeat split; constructor.
  - cbn [attachment_rows].
    destruct (IH (first_id + 1)) as (H1 & H2 & H3 & H4 & H5).
    cbn [length map]. split; [f_equal; exact H1|]. split.
    { constructor; [simpl; lia|].
      eapply Forall_impl; [exact H2|]. intros r Hr. simpl in *. lia. }
    split.
    { constructor; [|exact H3]. intros Hin.
      apply list_elem_of_fmap in Hin as (r & Heq & Hr).
      assert (H := proj1 (Forall_forall _ _) H2 r Hr). simpl in *. lia. }
    split; [constructor; [repeat split|exact H4]|].
    simpl. f_equal. exact H5.
Qed.

Lemma process_document_appends (E : env) audit_id framework_id uploaded_by op mc
  processed (w : World) :
  exists new,
    appended audit_id framework_id new w
      (snd (process_document E audit_id framework_id uploaded_by op mc processed w))
    /\ snd (fst (process_document E audit_id framework_id uploaded_by op mc
                   processed w)) = map ai_id new.
Proof.
  assert (Hnil : exists new, appended audit_id framework_id new w w
                             /\ @nil Z = map ai_id new).
  { exists []. split; [apply appended_nil|reflexivity]. }
  unfold process_document.
  destruct (existsb _ processed); [exact Hnil|].
  destruct mc; try exact Hnil;
    (destruct (List.find _ _) as [file_op|]; [|exact Hnil]);
    (destruct (existsb _ (ai_audit_data w)); [exact Hnil|]);
    (destruct (mappings_to_create _ _ _) as [ms|]; [|exact Hnil]);
    cbn [fst snd];
    match goal with
    | |- context [attachment_rows ?a ?b ?c ?d ?e ?f ?g ?h ?i ?j ?k] =>
        destruct (attachment_rows_spec a b c d e f g h i j k)
          as (H1 & H2 & H3 & H4 & _);
        exists (attachment_rows a b c d e f g h i j k)
    end;
    (split; [|reflexivity]);
    unfold appended;
    cbn [set_next_ai_id set_ai_audit_data ai_audit_data next_ai_id static
         lastchecklistitemverified document_audit_relevance docs_files db_files
         ollama_calls threads];
    rewrite H1 in *; repeat split; assumption.
Qed.

Lemma process_documents_appends (E : env) audit_id framework_id uploaded_by todo
  processed (w : World) :
  exists new,
    appended audit_id framework_id new w
      (snd (process_documents E audit_id framework_id uploaded_by todo processed w))
    /\ fst (process_documents E audit_id framework_id uploaded_by todo
              processed w) = map ai_id new.
Proof.
  revert processed w. induction todo as [|[op mc] todo IH]; intros processed w.
  - exists []. split; [apply appended_nil|reflexivity].
  - cbn [process_documents].
    destruct (process_document_appends E audit_id framework_id uploaded_by op mc
                processed w) as (n1 & A1 & C1).
    destruct (process_document E audit_id framework_id uploaded_by op mc
                processed w) as [[processed' created] w1].
    destruct (IH processed' w1) as (n2 & A2 & C2).
    destruct (process_documents E audit_id framework_id uploaded_by todo
                processed' w1) as [created' w2].
    simpl in *. exists (n1 ++ n2). split.
    + eapply appended_trans; eauto.
    + rewrite map_app. congruence.
Qed.

(** X12: a run of auto-processing only appends to [ai_audit_data] : the
    rows that were there stay in place, the new ones are pending
    document rows of the audit, stamped with the framework of the audit
    and numbered from the next free id; it starts one compliance check
    per new row and at most one notification, and touches neither the
    indexes, the checklist nor the stored relevance. *)
Theorem X12_auto_processing_only_appends_pending_rows (E : env)
  (operation_id audit_id : Z) (relevance_result : dict) (w : World) :
  exists new checks notify,
    ai_audit_data
      (_auto_process_relevant_document E operation_id audit_id relevance_result w)
    = ai_audit_data w ++ new
    /\ Forall (fun r => next_ai_id w <= ai_id r
                         < next_ai_id w + Z.of_nat (length new)) new
    /\ NoDup (map ai_id new)
    /\ (forall r, r ∈ new ->
          exists arow fw,
            List.find (fun a => AuditId a =? audit_id) (audit (static w))
              = Some arow
            /\ a_FrameworkId arow = Some fw
            /\ pending_attachment audit_id fw r)
    /\ threads
         (_auto_process_relevant_document E operation_id audit_id
            relevance_result w)
       = threads w ++ checks ++ notify
    /\ map (fun t => match t with
                     | ComplianceCheck id _ _ _ => Some id
                     | _ => None
                     end) checks = map (fun r => Some (ai_id r)) new
    /\ (length notify <= 1)%nat
    /\ docs_files
         (_auto_process_relevant_document E operation_id audit_id
            relevance_result w) = docs_files w
    /\ db_files
         (_auto_process_relevant_document E operation_id audit_id
            relevance_result w) = db_files w
    /\ lastchecklistitemverified
         (_auto_process_relevant_document E operation_id audit_id
            relevance_result w) = lastchecklistitemverified w
    /\ document_audit_relevance
         (_auto_process_relevant_document E operation_id audit_id
            relevance_result w) = document_audit_relevance w.
Proof.
  assert (Hsame : forall w0 : World, w0 = w ->
            exists new checks notify,
              ai_audit_data w0 = ai_audit_data w ++ new
              /\ Forall (fun r => next_ai_id w <= ai_id r
                                  < next_ai_id w + Z.of_nat (length new)) new
              /\ NoDup (map ai_id new)
              /\ (forall r, r ∈ new ->
                    exists arow fw,
                      List.find (fun a => AuditId a =? audit_id) (audit (static w))
                        = Some arow
                      /\ a_FrameworkId arow = Some fw
                      /\ pending_attachment audit_id fw r)
              /\ threads w0 = threads w ++ checks ++ notify
              /\ map (fun t => match t with
                               | ComplianceCheck id _ _ _ => Some id
                               | _ => None
                               end) checks = map (fun r => Some (ai_id r)) new
              /\ (length notify <= 1)%nat
              /\ docs_files w0 = docs_files w
              /\ db_files w0 = db_files w
              /\ lastchecklistitemverified w0 = lastchecklistitemverified w
              /\ document_audit_relevance w0 = document_audit_relevance w).
  { intros w0 ->. exists [], [], []. rewrite !app_nil_r. simpl.
    repeat split; try constructor; try lia. intros r Hr. inversion Hr. }
  unfold _auto_process_relevant_document.
  destruct (negb (db_pool (static w))); [apply Hsame; reflexivity|].
  destruct (List.find _ (audit (static w))) as [arow|] eqn:Harow;
    [|apply Hsame; reflexivity].
  destruct (a_FrameworkId arow) as [fw|] eqn:Hfw; [|apply Hsame; reflexivity].
  destruct (fw =? 0); [apply Hsame; reflexivity|].
  destruct (negb (forallb _ _)); [apply Hsame; reflexivity|].
  match goal with
  | |- context [process_documents E audit_id fw ?u ?todo [] w] =>
      destruct (process_documents_appends E audit_id fw u todo [] w)
        as (new & Happ & Hids);
      destruct (process_documents E audit_id fw u todo [] w) as [ids w1] eqn:Hrun
  end.
  simpl in Happ, Hids.
  destruct Happ as (A1 & A2 & A3 & A4 & A5 & A6 & A7 & A8 & A9 & A10 & A11 & A12).
  eexists new, _, _.
  cbn [set_threads ai_audit_data threads docs_files db_files
       lastchecklistitemverified document_audit_relevance].
  split; [exact A1|]. split; [rewrite <- A2; exact A3|]. split; [exact A4|].
  split.
  { intros r Hr. exists arow, fw. split; [reflexivity|]. split; [exact Hfw|].
    exact (proj1 (Forall_forall _ _) A5 r Hr). }
  split; [rewrite A12; reflexivity|]. split.
  { rewrite Hids, !map_map. reflexivity. }
  split.
  { destruct ids; [simpl; lia|].
    match goal with |- context [match ?u with Some _ => _ | None => _ end] =>
      destruct u as [u0|]; [destruct (u0 =? 0)|] end; simpl; lia. }
  repeat split; assumption.
Qed.

(** X13: the processing list of auto-processing always holds the
    triggering document; every other entry is a document of the index
    with an operation id and matched compliances. *)
Theorem X13_triggering_document_is_always_processed (docs : list doc_entry)
  (operation_id : Z) (relevance_result : dict) :
  operation_id ∈ map fst (documents_to_process docs operation_id relevance_result)
  /\ forall op mc,
       (op, mc) ∈ documents_to_process docs operation_id relevance_result ->
       op = operation_id
       \/ exists e, e ∈ docs /\ de_operation_id e = op
                    /\ de_matched_compliances e = mc
                    /\ truthy mc = true /\ op <> 0.
Proof.
  unfold documents_to_process.
  set (from_json := flat_map _ docs).
  assert (Hjson : forall op mc, (op, mc) ∈ from_json ->
            exists e, e ∈ docs /\ de_operation_id e = op
                      /\ de_matched_compliances e = mc
                      /\ truthy mc = true /\ op <> 0).
  { intros op mc Hin. apply list_elem_of_In, in_flat_map in Hin as (e & He & Hin).
    destruct (truthy (de_matched_compliances e)
              && negb (de_operation_id e =? 0)) eqn:Hc; [|inversion Hin].
    destruct Hin as [Heq|[]]. inversion Heq; subst.
    apply andb_true_iff in Hc as [Ht Hz].
    exists e. split; [apply list_elem_of_In; exact He|].
    repeat split; [exact Ht|]. apply negb_true_iff, Z.eqb_neq in Hz. exact Hz. }
  set (step2 := match from_json with [] => _ | _ => from_json end).
  assert (Hstep2 : forall op mc, (op, mc) ∈ step2 ->
            op = operation_id \/ (op, mc) ∈ from_json).
  { intros op mc Hin. unfold step2 in Hin. destruct from_json.
    - apply list_elem_of_singleton in Hin. inversion Hin. left. reflexivity.
    - right. exact Hin. }
  destruct (existsb _ step2) eqn:Hex.
  - split.
    + apply existsb_exists in Hex as ([op mc] & Hin & Heq).
      apply Z.eqb_eq in Heq. subst op.
      apply list_elem_of_fmap. exists (operation_id, mc).
      split; [reflexivity|apply list_elem_of_In; exact Hin].
    + intros op mc Hin. destruct (Hstep2 op mc Hin) as [->|H];
        [left; reflexivity|right; apply Hjson, H].
  - split.
    + rewrite map_app. apply elem_of_app. right. left.
    + intros op mc Hin. apply elem_of_app in Hin as [Hin|Hin].
      * destruct (Hstep2 op mc Hin) as [->|H];
          [left; reflexivity|right; apply Hjson, H].
      * apply list_elem_of_singleton in Hin. inversion Hin. left. reflexivity.
Qed.

Lemma sql_param_hashable (E : env) (v : pyval) :
  hashable v = true -> is_Some (sql_param E v).
Proof. destruct v; simpl; intros H; try discriminate; eauto. Qed.

Lemma no_live_attachment (audit_id : Z) (x y z : string)
  (rows : list ai_audit_row) :
  (forall r, r ∈ rows -> ai_audit_id r = audit_id ->
     ai_external_source r = Some "evidence_attachment"%string ->
     ai_processing_status r = None
     \/ ai_processing_status r = Some "failed"%string) ->
  existsb (is_attachment_for audit_id x y z) rows = false.
Proof.
  intros H. apply not_true_is_false. intros Hex.
  apply existsb_exists in Hex as (r & Hr & Hat).
  unfold is_attachment_for in Hat.
  apply andb_true_iff in Hat as [Hat Hst].
  apply andb_true_iff in Hat as [Hat _].
  apply andb_true_iff in Hat as [Ha Hs].
  apply Z.eqb_eq in Ha. unfold sql_eq_str in Hs.
  destruct (ai_external_source r) as [s|] eqn:Hsrc; [|discriminate].
  apply String.eqb_eq in Hs. subst s.
  destruct (H r (proj2 (list_elem_of_In _ _) Hr) Ha Hsrc) as [Hn|Hf];
    rewrite ?Hn, ?Hf in Hst; simpl in Hst; discriminate.
Qed.

(** X14: a completed document none of whose rows for the audit is live
    (each has failed or has no status) gets one new row per matched
    compliance, in the order of the list, each mapped to the subpolicy
    and the policy of its compliance. *)
Theorem X14_one_row_per_matched_compliance (E : env)
  (audit_id framework_id : Z) (uploaded_by : option Z) (op : Z)
  (l : list pyval) (processed : list Z) (w : World) (file_op : file_op) :
  existsb (Z.eqb op) processed = false ->
  List.find (fun f => (fo_id f =? op) && sql_eq_str (fo_status f) "completed")
    (file_operations (static w)) = Some file_op ->
  (forall r, r ∈ ai_audit_data w -> ai_audit_id r = audit_id ->
     ai_external_source r = Some "evidence_attachment"%string ->
     ai_processing_status r = None
     \/ ai_processing_status r = Some "failed"%string) ->
  l <> [] ->
  Forall (fun v => hashable v = true) l ->
  exists ms new,
    mapM (mapping_for E (static w)) l = Some ms
    /\ ai_audit_data
         (snd (process_document E audit_id framework_id uploaded_by op (PList l)
                 processed w))
       = ai_audit_data w ++ new
    /\ length new = length l
    /\ map (fun r => (ai_policy_id r, ai_subpolicy_id r)) new
       = map (fun m => (m_policy_id m, m_subpolicy_id m)) ms
    /\ Forall (pending_attachment audit_id framework_id) new.
Proof.
  intros Hproc Hfile Hlive Hne Hhash.
  assert (Hms : is_Some (mapM (mapping_for E (static w)) l)).
  { apply mapM_is_Some. eapply Forall_impl; [exact Hhash|].
    intros v Hv. unfold compose, mapping_for.
    destruct (sql_param_hashable E v Hv) as [k ->]. eauto. }
  destruct Hms as [ms Hms].
  assert (Hlen : length ms = length l).
  { symmetry. eapply length_mapM. exact Hms. }
  unfold process_document. rewrite Hproc, Hfile.
  rewrite (no_live_attachment audit_id _ _ _ _ Hlive).
  unfold mappings_to_create.
  destruct l as [|v l]; [contradiction Hne; reflexivity|].
  cbn [truthy]. rewrite Hms. cbn [snd set_next_ai_id set_ai_audit_data ai_audit_data].
  match goal with
  | |- context [attachment_rows ?a ?b ?c ?d ?e ?f ?g ?h ?i ?j ?k] =>
      destruct (attachment_rows_spec a b c d e f g h i j k)
        as (H1 & _ & _ & H4 & H5);
      exists ms, (attachment_rows a b c d e f g h i j k)
  end.
  split; [reflexivity|]. split; [reflexivity|].
  split; [rewrite H1; exact Hlen|]. split; [exact H5|exact H4].
Qed.

Lemma X14_witness :
  exists ms new,
    mapM (mapping_for (Scenario.constant_env None)
            (static Scenario.two_compliances)) [PInt 30; PInt 31] = Some ms
    /\ ai_audit_data
         (snd (process_document (Scenario.constant_env None) 426 7 (Some 3) 1
                 (PList [PInt 30; PInt 31]) [] Scenario.two_compliances))
       = ai_audit_data Scenario.two_compliances ++ new
    /\ length new = 2%nat
    /\ map (fun r => (ai_policy_id r, ai_subpolicy_id r)) new
       = map (fun m => (m_policy_id m, m_subpolicy_id m)) ms
    /\ Forall (pending_attachment 426 7) new.
Proof.
  apply (X14_one_row_per_matched_compliance (Scenario.constant_env None) 426 7
           (Some 3) 1 [PInt 30; PInt 31] [] Scenario.two_compliances
           (Scenario.upload 1 7 (Some "k"%string) (Some "n"%string))).
  - reflexivity.
  - reflexivity.
  - intros r Hr. inversion Hr.
  - discriminate.
  - repeat constructor.
Defined.
(** ** The re-processing trigger *)

Lemma trigger_where_pending (audit_id : Z) (r : ai_audit_row) :
  trigger_where audit_id r = true ->
  trigger_where audit_id (with_processing_status (Some "pending"%string) r) = true.
Proof.
  unfold trigger_where. cbn [with_processing_status ai_audit_id
    ai_external_source ai_document_type ai_processing_status].
  intros H. apply andb_true_iff in H as [H _]. rewrite H. reflexivity.
Qed.

Lemma trigger_processing_settled (audit_id : Z) (w : World) :
  trigger_processing audit_id (trigger_processing audit_id w)
  = trigger_processing audit_id w.
Proof.
  unfold trigger_processing.
  destruct (db_pool (static w)) eqn:Hpool.
  - cbn [set_ai_audit_data ai_audit_data static]. rewrite Hpool.
    unfold set_ai_audit_data. cbn [static ai_audit_data next_ai_id
      lastchecklistitemverified document_audit_relevance docs_files db_files
      ollama_calls threads].
    f_equal. rewrite map_map. apply map_ext. intros r.
    destruct (trigger_where audit_id r) eqn:Ht; [|rewrite Ht; reflexivity].
    rewrite (trigger_where_pending audit_id r Ht). reflexivity.
  - rewrite Hpool. reflexivity.
Qed.

(** X15: the re-processing trigger adds, removes and moves no row, and
    of the columns of the model it writes the processing status only,
    which it leaves as it was or sets to pending.  After one run, a
    second run finds every status as the first left it.  (The time
    stamp the statement sets besides is outside the model.) *)
Theorem X15_trigger_keeps_rows_and_settles_statuses (audit_id : Z)
  (w : World) :
  length (ai_audit_data (trigger_processing audit_id w))
  = length (ai_audit_data w)
  /\ (forall i r, ai_audit_data w !! i = Some r ->
        exists r',
          ai_audit_data (trigger_processing audit_id w) !! i = Some r'
          /\ same_but_status r r'
          /\ (ai_processing_status r' = ai_processing_status r
              \/ ai_processing_status r' = Some "pending"%string))
  /\ map ai_processing_status
       (ai_audit_data
          (trigger_processing audit_id (trigger_processing audit_id w)))
     = map ai_processing_status
         (ai_audit_data (trigger_processing audit_id w)).
Proof.
  split; [|split].
  - unfold trigger_processing. destruct (db_pool (static w)); [|reflexivity].
    simpl. apply length_map.
  - intros i r Hr. unfold trigger_processing.
    destruct (db_pool (static w)).
    + simpl. rewrite list_lookup_fmap, Hr. simpl.
      destruct (trigger_where audit_id r); eexists;
        (split; [reflexivity|]).
      * split; [apply same_but_status_set|right; reflexivity].
      * split; [apply same_but_status_refl|left; reflexivity].
    + exists r. split; [exact Hr|].
      split; [apply same_but_status_refl|left; reflexivity].
  - rewrite trigger_processing_settled. reflexivity.
Qed.

(** ** The cost of the database analysis *)

Lemma set_ollama_calls_twice (n m : nat) (w : World) :
  set_ollama_calls n (set_ollama_calls m w) = set_ollama_calls n w.
Proof. reflexivity. Qed.

Lemma analyze_record_calls (E : env) (t : string) (record : dict)
  (results : list (string * list rec_analysis)) (w : World) :
  snd (analyze_record E t record results w)
  = set_ollama_calls (S (ollama_calls w)) w.
Proof.
  unfold analyze_record, bind. rewrite call_ollama_eq.
  destruct (ollama E (ollama_calls w)) as [[|kv d]|]; try reflexivity.
  destruct (py_float _ _); [|reflexivity].
  destruct (py_or _ _); try reflexivity.
  destruct (aget t results); reflexivity.
Qed.

Lemma analyze_records_calls (E : env) (t : string) (records : list dict)
  (results : list (string * list rec_analysis)) (w : World) :
  exists n,
    snd (analyze_records E t records results w)
    = set_ollama_calls (ollama_calls w + n) w
    /\ (n <= length records)%nat
    /\ (forall r, fst (analyze_records E t records results w) = Ok r ->
        n = length records).
Proof.
  revert results w. induction records as [|record rest IH]; intros results w.
  - exists 0%nat. simpl. rewrite Nat.add_0_r. split; [destruct w; reflexivity|].
    split; [lia|reflexivity].
  - cbn [analyze_records]. unfold bind.
    assert (H1 := analyze_record_calls E t record results w).
    destruct (analyze_record E t record results w) as [[results'|] w1];
      simpl in H1; subst w1.
    + destruct (IH results' (set_ollama_calls (S (ollama_calls w)) w))
        as (n & Hn & Hle & Hok).
      exists (S n). rewrite Hn. cbn [ollama_calls set_ollama_calls length].
      split; [unfold set_ollama_calls; simpl; f_equal; lia|].
      split; [lia|]. intros r Hr. f_equal. exact (Hok r Hr).
    + exists 1%nat. simpl. split; [f_equal; lia|]. split; [lia|].
      intros r Hr. discriminate Hr.
Qed.

Lemma analyze_tables_calls (E : env) (data : list (string * list dict))
  (results : list (string * list rec_analysis)) (w : World) :
  exists n,
    snd (analyze_tables E data results w)
    = set_ollama_calls (ollama_calls w + n) w
    /\ (n <= analysis_budget data)%nat
    /\ (forall r, fst (analyze_tables E data results w) = Ok r ->
        n = analysis_budget data).
Proof.
  revert results w. induction data as [|[t records] rest IH]; intros results w.
  - exists 0%nat. simpl. rewrite Nat.add_0_r. split; [destruct w; reflexivity|].
    split; [unfold analysis_budget; simpl; lia|reflexivity].
  - cbn [analyze_tables]. unfold bind.
    destruct (analyze_records_calls E t (take 50 records) results w)
      as (n1 & H1 & Hle1 & Hok1).
    rewrite length_take in Hle1, Hok1.
    change (analysis_budget ((t, records) :: rest))
      with (Nat.min 50 (length records) + analysis_budget rest)%nat.
    destruct (analyze_records E t (take 50 records) results w)
      as [[results'|] w1]; simpl in H1, Hok1; subst w1.
    + destruct (IH results' (set_ollama_calls (ollama_calls w + n1) w))
        as (n2 & H2 & Hle2 & Hok2).
      exists (n1 + n2)%nat. rewrite H2.
      cbn [ollama_calls set_ollama_calls].
      split; [unfold set_ollama_calls; simpl; f_equal; lia|].
      split; [lia|]. intros r Hr.
      rewrite (Hok1 results' eq_refl), (Hok2 r Hr). reflexivity.
    + exists n1. cbn [snd fst]. split; [reflexivity|]. split; [lia|].
      intros r Hr. discriminate Hr.
Qed.

(** X16: one database analysis calls the reasoning service at most
    fifty times per table, exactly that often when it ends without an
    exception, and changes nothing of the world but the number of calls:
    the verdicts are written by its caller. *)
Theorem X16_database_analysis_is_bounded_and_writes_nothing (E : env)
  (database_data : list (string * list dict)) (w : World) :
  same_but_calls w (snd (_analyze_database_data_relevance E database_data w))
  /\ (ollama_calls w
      <= ollama_calls (snd (_analyze_database_data_relevance E database_data w))
      <= ollama_calls w + analysis_budget database_data)%nat
  /\ (forall r,
        fst (_analyze_database_data_relevance E database_data w) = Ok r ->
        ollama_calls (snd (_analyze_database_data_relevance E database_data w))
        = (ollama_calls w + analysis_budget database_data)%nat).
Proof.
  unfold _analyze_database_data_relevance.
  destruct (analyze_tables_calls E database_data empty_results w)
    as (n & Hn & Hle & Hok).
  rewrite Hn. unfold same_but_calls. cbn [ollama_calls set_ollama_calls].
  split; [reflexivity|]. split; [lia|].
  intros r Hr. rewrite (Hok r Hr). reflexivity.
Qed.

(** ** The manual trigger *)

Lemma same_evidence_refl (w : World) : same_evidence w w.
Proof. repeat split. Qed.

Lemma same_evidence_trans (w1 w2 w3 : World) :
  same_evidence w1 w2 -> same_evidence w2 w3 -> same_evidence w1 w3.
Proof.
  intros (A1 & A2 & A3 & A4) (B1 & B2 & B3 & B4). repeat split; congruence.
Qed.

Lemma manual_frame_refl (w : World) : manual_frame w w.
Proof.
  split; [apply same_evidence_refl|]. exists []. rewrite app_nil_r. auto.
Qed.

Lemma manual_frame_trans (w1 w2 w3 : World) :
  manual_frame w1 w2 -> manual_frame w2 w3 -> manual_frame w1 w3.
Proof.
  intros [S12 (t1 & T1 & F1)] [S23 (t2 & T2 & F2)].
  split; [eapply same_evidence_trans; eassumption|].
  exists (t1 ++ t2). rewrite T2, T1, app_assoc. split; [reflexivity|].
  rewrite forallb_app, F1, F2. reflexivity.
Qed.

Lemma manual_frame_rows (w w' : World) :
  same_evidence w w' -> threads w' = threads w -> manual_frame w w'.
Proof.
  intros Hs Ht. split; [exact Hs|]. exists []. rewrite app_nil_r. auto.
Qed.

Lemma manual_frame_start (t : task) (w w' : World) :
  is_document_task t = true -> same_evidence w w' ->
  threads w' = threads w ++ [t] -> manual_frame w w'.
Proof.
  intros Hd Hs Ht. split; [exact Hs|]. exists [t]. split; [exact Ht|].
  simpl. rewrite Hd. reflexivity.
Qed.

Lemma update_document_index_manual_frame fw a op res k n (w : World) :
  manual_frame w (_update_json_index_document fw a op res k n w).
Proof.
  unfold _update_json_index_document, _save_json_index_documents.
  cbn [di_audit_id di_framework_id]. destruct (andb _ _).
  - apply (manual_frame_start (TriggerProcessing a)); repeat split.
  - apply manual_frame_rows; repeat split.
Qed.

Lemma update_database_index_manual_frame fw a t rid res (w : World) :
  manual_frame w (_update_json_index_database fw a t rid res w).
Proof.
  unfold _update_json_index_database, _save_json_index_database.
  cbn [bi_audit_id bi_framework_id]. destruct (andb _ _).
  - apply (manual_frame_start (TriggerProcessing a)); repeat split.
  - apply manual_frame_rows; repeat split.
Qed.

Lemma store_relevance_manual_frame (E : env) op a res k n (w : World) :
  manual_frame w (_store_audit_relevance E op a res k n w).
Proof.
  unfold _store_audit_relevance.
  destruct (negb (db_pool (static w))); [apply manual_frame_refl|].
  destruct (py_float _ _); [|apply manual_frame_refl].
  destruct (dget_or "relevance_reason" _ _); try apply manual_frame_refl.
  apply (manual_frame_start (AutoProcess op a res)); repeat split.
Qed.

Lemma analyze_document_relevance_manual_frame (E : env) summary ad (w : World) :
  manual_frame w (snd (_analyze_document_audit_relevance E summary ad w)).
Proof.
  unfold _analyze_document_audit_relevance.
  destruct summary; [|apply manual_frame_refl].
  unfold bind. rewrite call_ollama_eq.
  destruct (ollama E (ollama_calls w)) as [[|kv d]|];
    apply manual_frame_rows; repeat split.
Qed.

Lemma index_db_results_manual_frame fw a results (w : World) :
  manual_frame w (index_db_results fw a results w).
Proof.
  unfold index_db_results. revert w.
  induction results as [|[t analyses] results IH]; intros w;
    [apply manual_frame_refl|].
  cbn [fold_left]. eapply manual_frame_trans; [|apply IH].
  clear IH. revert w. induction analyses as [|x analyses IH]; intros w;
    [apply manual_frame_refl|].
  cbn [fold_left]. eapply manual_frame_trans; [|apply IH].
  destruct (ra_record_id x =? 0); [apply manual_frame_refl|].
  apply update_database_index_manual_frame.
Qed.

Lemma database_analysis_manual_frame (E : env) data (w : World) :
  manual_frame w (snd (_analyze_database_data_relevance E data w)).
Proof.
  unfold _analyze_database_data_relevance.
  destruct (analyze_tables_calls E data empty_results w) as (n & -> & _).
  apply manual_frame_rows; repeat split.
Qed.

Lemma manual_document_manual_frame (E : env) fw a ad doc (w : World) :
  manual_frame w (snd (manual_document E fw a ad doc w)).
Proof.
  unfold manual_document.
  assert (Hgo : manual_frame w
            (snd ((relevance_result <-
                     _analyze_document_audit_relevance E (fo_summary doc) ad ;;
                   match relevance_result with
                   | None | Some [] => ret tt
                   | Some relevance_result =>
                       modify (_update_json_index_document fw a (fo_id doc)
                                 relevance_result (fo_s3_key doc)
                                 (fo_stored_name doc)) ;;;
                       match py_ge_float
                               (dget_or "relevance_score" (PInt 0)
                                  relevance_result) f0_6 with
                       | None => raise
                       | Some true =>
                           modify (_store_audit_relevance E (fo_id doc) a
                                     relevance_result (fo_s3_key doc)
                                     (fo_stored_name doc))
                       | Some false => ret tt
                       end
                   end) w))).
  { apply (preserved_bind manual_frame manual_frame_trans);
      [apply analyze_document_relevance_manual_frame|].
    intros r w1 _. destruct r as [[|kv d]|]; try apply manual_frame_refl.
    apply (preserved_bind manual_frame manual_frame_trans);
      [apply update_document_index_manual_frame|].
    intros _ w2 _. destruct (py_ge_float _ _) as [[|]|];
      try apply manual_frame_refl.
    apply store_relevance_manual_frame. }
  destruct (fo_metadata doc) as [|[|]];
    [exact Hgo|exact Hgo|apply manual_frame_refl].
Qed.

Lemma manual_audit_manual_frame (E : env) fw docs data audit (w : World) :
  manual_frame w (snd (manual_audit E fw docs data audit w)).
Proof.
  unfold manual_audit.
  apply (preserved_bind manual_frame manual_frame_trans);
    [apply manual_frame_refl|].
  intros ad w1 _.
  apply (preserved_bind manual_frame manual_frame_trans).
  { apply (preserved_for_each manual_frame manual_frame_refl
             manual_frame_trans).
    intros doc w2. apply manual_document_manual_frame. }
  intros _ w2 _.
  apply (preserved_bind manual_frame manual_frame_trans);
    [apply database_analysis_manual_frame|].
  intros results w3 _. apply index_db_results_manual_frame.
Qed.

Lemma manual_trigger_manual_frame (E : env) (framework_id : Z) (w : World) :
  manual_frame w
    (snd (trigger_audit_relevance_analysis_for_framework E framework_id w)).
Proof.
  unfold trigger_audit_relevance_analysis_for_framework, bind, gets.
  destruct (_get_active_ai_audits framework_id w) as [|a audits];
    [apply manual_frame_refl|].
  apply (preserved_for_each manual_frame manual_frame_refl manual_frame_trans).
  intros audit w1. apply manual_audit_manual_frame.
Qed.

(** The re-processing trigger selects no database evidence row. *)
Lemma trigger_processing_database_rows (audit_id : Z) (v : World) :
  database_rows (trigger_processing audit_id v) = database_rows v
  /\ lastchecklistitemverified (trigger_processing audit_id v)
     = lastchecklistitemverified v.
Proof.
  unfold trigger_processing, database_rows.
  destruct (db_pool (static v)); [|split; reflexivity].
  split; [|reflexivity]. simpl.
  induction (ai_audit_data v) as [|r rows IH]; [reflexivity|].
  cbn [map List.filter]. rewrite IH.
  destruct (trigger_where audit_id r) eqn:Ht; [|reflexivity].
  cbn [with_processing_status ai_external_source].
  unfold trigger_where in Ht.
  apply andb_true_iff in Ht as [Ht _]. apply andb_true_iff in Ht as [_ Ht].
  apply andb_true_iff in Ht as [Ht _].
  unfold sql_ne_str in Ht. unfold sql_eq_str.
  destruct (ai_external_source r) as [s|]; [|reflexivity].
  apply negb_true_iff in Ht. rewrite Ht. reflexivity.
Qed.

(** Auto-processing appends document rows only. *)
Lemma auto_process_database_rows (E : env) (operation_id audit_id : Z)
  (relevance_result : dict) (v : World) :
  database_rows
    (_auto_process_relevant_document E operation_id audit_id relevance_result v)
  = database_rows v
  /\ lastchecklistitemverified
       (_auto_process_relevant_document E operation_id audit_id
          relevance_result v)
     = lastchecklistitemverified v.
Proof.
  unfold _auto_process_relevant_document.
  destruct (negb (db_pool (static v))); [split; reflexivity|].
  destruct (List.find _ (audit (static v))) as [arow|]; [|split; reflexivity].
  destruct (a_FrameworkId arow) as [fw|]; [|split; reflexivity].
  destruct (fw =? 0); [split; reflexivity|].
  destruct (negb (forallb _ _)); [split; reflexivity|].
  match goal with
  | |- context [process_documents E audit_id fw ?u ?todo [] v] =>
      destruct (process_documents_appends E audit_id fw u todo [] v)
        as (new & Happ & _);
      destruct (process_documents E audit_id fw u todo [] v) as [ids w1]
  end.
  simpl in Happ.
  destruct Happ as (A1 & _ & _ & _ & A5 & _ & A7 & _).
  unfold database_rows. cbn [set_threads ai_audit_data lastchecklistitemverified].
  split; [|exact A7].
  rewrite A1, List.filter_app.
  assert (Hnew : List.filter
                   (fun r => sql_eq_str (ai_external_source r) "database_record")
                   new = []).
  { clear A1. induction new as [|r new IH]; [reflexivity|].
    apply Forall_cons in A5 as [Hr Hnew]. cbn [List.filter].
    destruct Hr as (_ & Hsrc & _). rewrite Hsrc. simpl. apply IH, Hnew. }
  rewrite Hnew. apply app_nil_r.
Qed.

Lemma document_task_database_rows (E : env) (t : task) (v : World) :
  database_rows (run_task E t v) = database_rows v
  /\ lastchecklistitemverified (run_task E t v) = lastchecklistitemverified v.
Proof.
  destruct t; simpl.
  - apply trigger_processing_database_rows.
  - apply auto_process_database_rows.
  - split; reflexivity.
  - split; reflexivity.
Qed.

(** X17: the manual trigger itself writes no evidence row and no
    checklist entry, whatever the reasoning service answers and wherever
    it stops: after the call the rows of [ai_audit_data], the next row
    id and the checklist are the same.  The threads it starts are
    re-processing triggers and auto-processing runs only, and the body
    of none of them, from whatever world it runs, changes the database
    evidence rows or the checklist.  Without an active audit the trigger
    does nothing at all. *)
Theorem X17_manual_trigger_synthesizes_no_database_evidence (E : env)
  (framework_id : Z) (w : World) :
  (ai_audit_data
     (snd (trigger_audit_relevance_analysis_for_framework E framework_id w))
   = ai_audit_data w
   /\ next_ai_id
        (snd (trigger_audit_relevance_analysis_for_framework E framework_id w))
      = next_ai_id w
   /\ lastchecklistitemverified
        (snd (trigger_audit_relevance_analysis_for_framework E framework_id w))
      = lastchecklistitemverified w)
  /\ (exists ts,
        threads
          (snd (trigger_audit_relevance_analysis_for_framework E framework_id w))
        = threads w ++ ts
        /\ forall t, t ∈ ts ->
             ((exists a, t = TriggerProcessing a)
              \/ (exists op a res, t = AutoProcess op a res))
             /\ forall v,
                  database_rows (run_task E t v) = database_rows v
                  /\ lastchecklistitemverified (run_task E t v)
                     = lastchecklistitemverified v)
  /\ (_get_active_ai_audits framework_id w = [] ->
      trigger_audit_relevance_analysis_for_framework E framework_id w
      = (Ok tt, w)).
Proof.
  destruct (manual_trigger_manual_frame E framework_id w)
    as [(_ & Hrows & Hnext & Hcl) (ts & Hts & Hkind)].
  split; [repeat split; assumption|]. split.
  - exists ts. split; [exact Hts|]. intros t Ht. split.
    + apply forallb_forall with (x := t) in Hkind;
        [|apply list_elem_of_In; exact Ht].
      destruct t; try discriminate Hkind; eauto.
    + intros v. apply document_task_database_rows.
  - intros Ha.
    unfold trigger_audit_relevance_analysis_for_framework, bind, gets.
    rewrite Ha. reflexivity.
Qed.

(** ** What the aggregation dispatches *)

(** X18: the aggregation changes nothing of the world but the threads,
    and starts at most one: the auto-processing of an indexed document
    whose score is greatest among the documents of the index, and only
    when the overall score reaches the threshold.  Below the threshold,
    without an indexed document, or when a score is not a number, it
    starts nothing. *)
Theorem X18_aggregation_dispatches_at_most_one_task (audit_id : Z)
  (docs : list doc_entry) (full_db_results : list (string * list rec_entry))
  (w : World) :
  exists ts,
    snd (aggregate audit_id docs full_db_results w)
    = set_threads (threads w ++ ts) w
    /\ (ts = []
        \/ exists best m,
             ts = [AutoProcess (de_operation_id best) audit_id
                     (result_of_entry best)]
             /\ best ∈ docs
             /\ (forall d, d ∈ docs ->
                   (num_or_zero (de_relevance_score d)
                    <= num_or_zero (de_relevance_score best))%Q)
             /\ max_score (doc_scores docs ++ db_scores full_db_results)
                = Some m
             /\ Qle_bool f0_6 m = true).
Proof.
  assert (Hnone : exists ts, w = set_threads (threads w ++ ts) w
            /\ (ts = []
                \/ exists best m,
                     ts = [AutoProcess (de_operation_id best) audit_id
                             (result_of_entry best)]
                     /\ best ∈ docs
                     /\ (forall d, d ∈ docs ->
                           (num_or_zero (de_relevance_score d)
                            <= num_or_zero (de_relevance_score best))%Q)
                     /\ max_score (doc_scores docs ++ db_scores full_db_results)
                        = Some m
                     /\ Qle_bool f0_6 m = true)).
  { exists []. rewrite app_nil_r. split; [destruct w; reflexivity|left; reflexivity]. }
  unfold aggregate.
  destruct (max_score _) as [m|] eqn:Hm; [|exact Hnone].
  destruct (Qle_bool f0_6 m) eqn:Hge; [|exact Hnone].
  destruct docs as [|d0 docs].
  - cbn [doc_scores map length Nat.ltb Nat.leb andb py_max_by].
    destruct (length (db_scores full_db_results)); exact Hnone.
  - cbn [doc_scores map length py_max_by].
    change (0 <? S (length (map de_relevance_score docs)))%nat with true.
    cbn [andb].
    set (best := max_by (fun d => num_or_zero (de_relevance_score d)) d0 docs).
    assert (Hbest : exists ts,
              start_thread (AutoProcess (de_operation_id best) audit_id
                              (result_of_entry best)) w
              = set_threads (threads w ++ ts) w
              /\ (ts = []
                  \/ exists best0 m0,
                       ts = [AutoProcess (de_operation_id best0) audit_id
                               (result_of_entry best0)]
                       /\ best0 ∈ d0 :: docs
                       /\ (forall d, d ∈ d0 :: docs ->
                             (num_or_zero (de_relevance_score d)
                              <= num_or_zero (de_relevance_score best0))%Q)
                       /\ Some m = Some m0
                       /\ Qle_bool f0_6 m0 = true)).
    { eexists. split; [reflexivity|]. right. exists best, m.
      destruct (max_by_spec (fun d => num_or_zero (de_relevance_score d))
                  docs d0) as (Hin & Hb & Hall).
      fold best in Hin, Hb, Hall.
      split; [reflexivity|]. split.
      { destruct Hin as [->|Hin]; [left|right; exact Hin]. }
      split; [|split; [reflexivity|exact Hge]].
      intros d Hd. apply elem_of_cons in Hd as [->|Hd];
        [exact Hb|exact (Hall d Hd)]. }
    destruct (0 <? length (db_scores full_db_results))%nat;
      unfold bind, modify, ret; cbn [snd]; exact Hbest.
Qed.

(** ** Page selection *)

Lemma insert_page_elem (p x : Z) (l : list Z) :
  x ∈ insert_page p l <-> x = p \/ x ∈ l.
Proof.
  induction l as [|q l IH]; simpl.
  - rewrite list_elem_of_singleton. split; [auto|]. intros [H|H]; [exact H|inversion H].
  - destruct (p <? q) eqn:Hlt; [rewrite elem_of_cons; tauto|].
    destruct (p =? q) eqn:Heq.
    + apply Z.eqb_eq in Heq. subst q. rewrite elem_of_cons. tauto.
    + rewrite !elem_of_cons, IH. tauto.
Qed.

Lemma sorted_set_elem (x : Z) (l : list Z) : x ∈ sorted_set l <-> x ∈ l.
Proof.
  unfold sorted_set. induction l as [|p l IH]; simpl; [tauto|].
  rewrite insert_page_elem, IH, elem_of_cons. tauto.
Qed.

Lemma increasing_cons (x : Z) (l : list Z) :
  increasing (x :: l) = true <->
  increasing l = true /\ match l with [] => True | y :: _ => x < y end.
Proof.
  destruct l as [|y l]; [simpl; tauto|].
  change (increasing (x :: y :: l)) with ((x <? y) && increasing (y :: l)).
  rewrite andb_true_iff, Z.ltb_lt. tauto.
Qed.

Lemma insert_page_increasing (p : Z) (l : list Z) :
  increasing l = true -> increasing (insert_page p l) = true.
Proof.
  induction l as [|q l IH]; intros Hl; [reflexivity|].
  cbn [insert_page]. destruct (p <? q) eqn:Hlt.
  - apply increasing_cons. split; [exact Hl|]. apply Z.ltb_lt, Hlt.
  - destruct (p =? q) eqn:Heq; [exact Hl|].
    apply Z.ltb_ge in Hlt. apply Z.eqb_neq in Heq.
    apply increasing_cons in Hl as [Hl Hhd].
    apply increasing_cons. split; [apply IH, Hl|].
    destruct l as [|y l]; cbn [insert_page]; [lia|].
    destruct (p <? y); [lia|]. destruct (p =? y); lia.
Qed.

Lemma sorted_set_increasing (l : list Z) : increasing (sorted_set l) = true.
Proof.
  unfold sorted_set. induction l as [|p l IH]; [reflexivity|].
  simpl. apply insert_page_increasing, IH.
Qed.

Lemma insert_page_length (p : Z) (l : list Z) :
  (length (insert_page p l) <= S (length l))%nat.
Proof.
  induction l as [|q l IH]; simpl; [lia|].
  destruct (p <? q); [simpl; lia|]. destruct (p =? q); simpl; lia.
Qed.

Lemma sorted_set_length (l : list Z) : (length (sorted_set l) <= length l)%nat.
Proof.
  unfold sorted_set. induction l as [|p l IH]; simpl; [lia|].
  etransitivity; [apply insert_page_length|]. lia.
Qed.

Lemma py_range_elem (n x : Z) : x ∈ py_range n <-> 0 <= x < n.
Proof.
  unfold py_range. rewrite list_elem_of_fmap. split.
  - intros (k & -> & Hk). apply list_elem_of_In, in_seq in Hk. lia.
  - intros Hx. exists (Z.to_nat x). split; [lia|].
    apply list_elem_of_In, in_seq. lia.
Qed.

Lemma py_range_increasing (n : Z) : increasing (py_range n) = true.
Proof.
  unfold py_range. generalize 0%nat as s.
  induction (Z.to_nat n) as [|k IH]; intros s; [reflexivity|].
  cbn [seq map]. apply increasing_cons. split; [apply IH|].
  destruct k; cbn [seq map]; [exact I|lia].
Qed.

(** X19: for a document of any number of pages, the pages selected for
    text extraction are valid page indexes, in strictly increasing order
    (so none is read twice), at most eight, and with the first and the
    last page among them when the document has a page; a document of
    more than twenty pages is sampled at its quarter marks as well. *)
Theorem X19_selected_pages_are_valid_and_ordered (total_pages : Z) :
  (forall p, p ∈ fst (pages_to_extract total_pages) -> 0 <= p < total_pages)
  /\ increasing (fst (pages_to_extract total_pages)) = true
  /\ (5 < total_pages ->
      (length (fst (pages_to_extract total_pages)) <= 8)%nat)
  /\ (0 < total_pages ->
      0 ∈ fst (pages_to_extract total_pages)
      /\ total_pages - 1 ∈ fst (pages_to_extract total_pages))
  /\ (20 < total_pages ->
      total_pages / 4 ∈ fst (pages_to_extract total_pages)
      /\ total_pages / 2 ∈ fst (pages_to_extract total_pages)
      /\ 3 * total_pages / 4 ∈ fst (pages_to_extract total_pages)).
Proof.
  unfold pages_to_extract.
  destruct (total_pages <=? 5) eqn:H5; [|destruct (total_pages <=? 20) eqn:H20];
    cbn [fst]; rewrite ?Z.leb_le, ?Z.leb_gt in *.
  - split; [intros p; apply py_range_elem|].
    split; [apply py_range_increasing|]. split; [lia|].
    split; [|lia]. intros Hpos. split; apply py_range_elem; lia.
  - split.
    { intros p Hp. apply sorted_set_elem, in_filter_iff in Hp as [Hp Hlt].
      apply Z.ltb_lt in Hlt. split; [|exact Hlt].
      repeat (apply elem_of_cons in Hp as [->|Hp]); try lia;
        try (apply Z.div_pos; lia). inversion Hp. }
    split; [apply sorted_set_increasing|]. split.
    { intros _. etransitivity; [apply sorted_set_length|].
      etransitivity; [apply List.filter_length_le|]. simpl. lia. }
    split; [|lia]. intros _.
    split; apply sorted_set_elem, in_filter_iff;
      (split; [|apply Z.ltb_lt; lia]);
      repeat (first [left; reflexivity | right]); left.
  - assert (Hq : 0 <= total_pages / 4 < total_pages
                 /\ 0 <= total_pages / 2 < total_pages
                 /\ 0 <= 3 * total_pages / 4 < total_pages).
    { repeat split; try (apply Z.div_pos; lia);
        apply Z.div_lt_upper_bound; lia. }
    split.
    { intros p Hp. apply sorted_set_elem, in_filter_iff in Hp as [Hp Hlt].
      apply Z.ltb_lt in Hlt. split; [|exact Hlt].
      repeat (apply elem_of_cons in Hp as [->|Hp]); try lia. inversion Hp. }
    split; [apply sorted_set_increasing|]. split.
    { intros _. etransitivity; [apply sorted_set_length|].
      etransitivity; [apply List.filter_length_le|]. simpl. lia. }
    split.
    { intros _. split; apply sorted_set_elem, in_filter_iff;
        (split; [|apply Z.ltb_lt; lia]);
        repeat (first [left; reflexivity | right]); left. }
    intros _. repeat split; apply sorted_set_elem, in_filter_iff;
      (split; [|apply Z.ltb_lt; lia]);
      repeat (first [left; reflexivity | right]); left.
Qed.

(** X20: for a document with at least one page, the size category the
    metadata records agrees with the strategy the text extraction
    reports for the same page count: full with small, medium with
    medium, large_sample with large; so the text is reported as fully
    extracted exactly for documents of at most five pages. *)
Theorem X20_size_category_agrees_with_strategy (total_pages reader_pages : Z) :
  total_pages <> 0 ->
  (snd (pages_to_extract total_pages),
   document_size_category
     (metadata_page_count (Some total_pages) reader_pages))
  ∈ [("full", "small"); ("medium", "medium"); ("large_sample", "large")]%string
  /\ (String.eqb (snd (pages_to_extract total_pages)) "full" = true
      <-> total_pages <= 5).
Proof.
  intros Hnz. unfold metadata_page_count, id_truthy.
  apply Z.eqb_neq in Hnz. rewrite Hnz. cbn [negb default from_option id].
  unfold pages_to_extract, document_size_category.
  destruct (total_pages <=? 5) eqn:H5; [|destruct (total_pages <=? 20) eqn:H20];
    cbn [snd]; rewrite ?Z.leb_le, ?Z.leb_gt in *.
  - split; [left|]. split; [intros _; exact H5|reflexivity].
  - split; [right; left|]. split; [discriminate|lia].
  - split; [right; right; left|]. split; [discriminate|lia].
Qed.

Lemma X20_witness :
  (snd (pages_to_extract 12),
   document_size_category (metadata_page_count (Some 12) 12))
  ∈ [("full", "small"); ("medium", "medium"); ("large_sample", "large")]%string
  /\ (String.eqb (snd (pages_to_extract 12)) "full" = true <-> 12 <= 5).
Proof.
  apply (X20_size_category_agrees_with_strategy 12 12). discriminate.
Defined.

(** ** Paths and external ids *)

Lemma app_nil_s (b : string) : ("" ++ b)%string = b.
Proof. reflexivity. Qed.

Lemma app_cons_s (x : Ascii.ascii) (a b : string) :
  (String x a ++ b)%string = String x (a ++ b).
Proof. reflexivity. Qed.

Lemma string_app_assoc (a b c : string) :
  ((a ++ b) ++ c = a ++ (b ++ c))%string.
Proof.
  induction a as [|x a IH]; [reflexivity|].
  rewrite !app_cons_s. f_equal. exact IH.
Qed.

Lemma string_app_inv_head (s a b : string) :
  (s ++ a = s ++ b)%string -> a = b.
Proof.
  induction s as [|x s IH]; intros H; [exact H|].
  rewrite !app_cons_s in H. inversion H. apply IH. assumption.
Qed.

(** Two texts that agree and whose parts before a separator do not hold
    the separator agree part by part. *)
Lemma split_at_first (c : Ascii.ascii) (a b x y : string) :
  has_char c a = false -> has_char c b = false ->
  (a ++ String c x = b ++ String c y)%string -> a = b /\ x = y.
Proof.
  revert b. induction a as [|p a IH]; intros b Ha Hb H.
  - destruct b as [|q b]; rewrite ?app_nil_s, ?app_cons_s in H.
    + inversion H. auto.
    + inversion H; subst q. simpl in Hb. rewrite Ascii.eqb_refl in Hb.
      discriminate.
  - destruct b as [|q b]; rewrite ?app_nil_s, ?app_cons_s in H.
    + inversion H; subst p. simpl in Ha. rewrite Ascii.eqb_refl in Ha.
      discriminate.
    + inversion H; subst q. simpl in Ha, Hb.
      apply orb_false_iff in Ha as [_ Ha]. apply orb_false_iff in Hb as [_ Hb].
      destruct (IH b Ha Hb H2) as [-> ->]. auto.
Qed.

Lemma has_char_app (c : Ascii.ascii) (a b : string) :
  has_char c (a ++ b) = has_char c a || has_char c b.
Proof.
  induction a as [|p a IH]; [reflexivity|].
  rewrite app_cons_s. cbn [has_char]. rewrite IH, orb_assoc. reflexivity.
Qed.

Lemma pretty_N_go_has_char (c : Ascii.ascii) (x : N) (s : string) :
  (forall d, Ascii.eqb (pretty_N_char d) c = false) ->
  has_char c s = false -> has_char c (pretty_N_go x s) = false.
Proof.
  intros Hc. revert s. induction (N.lt_wf_0 x) as [x _ IH]; intros s Hs.
  assert (x = 0 \/ 0 < x)%N as [->|Hpos] by lia.
  - rewrite pretty_N_go_0. exact Hs.
  - rewrite pretty_N_go_step by exact Hpos. apply IH.
    + apply N.div_lt; [exact Hpos|reflexivity].
    + simpl. rewrite Hc, Hs. reflexivity.
Qed.

Lemma digit_is_no_separator (d : N) :
  Ascii.eqb (pretty_N_char d) slash = false
  /\ Ascii.eqb (pretty_N_char d) colon = false.
Proof.
  unfold pretty_N_char.
  destruct d as [|[[[[|?|]|[|?|]|]|[[|?|]|[|?|]|]|]|[[[|?|]|[|?|]|]|[[|?|]|[|?|]|]|]|]];
    split; reflexivity.
Qed.

Lemma pretty_Z_has_no_separator (z : Z) :
  has_char slash (pretty z) = false /\ has_char colon (pretty z) = false.
Proof.
  assert (HN : forall n : N, has_char slash (pretty n) = false
                             /\ has_char colon (pretty n) = false).
  { intros n. unfold pretty, pretty_N. destruct (decide (n = 0%N)).
    - split; reflexivity.
    - split; apply pretty_N_go_has_char; try reflexivity;
        intros d; apply digit_is_no_separator. }
  destruct z as [|p|p].
  - split; reflexivity.
  - apply (HN (Npos p)).
  - destruct (HN (Npos p)) as [H1 H2].
    change (pretty (Z.neg p)) with ("-" ++ pretty (N.pos p))%string.
    rewrite app_cons_s, app_nil_s. cbn [has_char]. rewrite H1, H2.
    split; reflexivity.
Qed.

Lemma ends_with_app (c : Ascii.ascii) (a b : string) :
  b <> ""%string -> ends_with c (a ++ b) = ends_with c b.
Proof.
  intros Hb. induction a as [|p a IH]; [reflexivity|].
  change (String p a ++ b)%string with (String p (a ++ b)).
  cbn [ends_with]. destruct (a ++ b)%string eqn:Hab.
  - destruct a; [rewrite app_nil_s in Hab; contradiction|
                 rewrite app_cons_s in Hab; discriminate].
  - exact IH.
Qed.

Lemma ends_with_has_char (c : Ascii.ascii) (s : string) :
  has_char c s = false -> ends_with c s = false.
Proof.
  induction s as [|p s IH]; [reflexivity|]. simpl.
  intros H. apply orb_false_iff in H as [Hp Hs].
  destruct s; [exact Hp|apply IH, Hs].
Qed.

Lemma path_join_plain (a b : string) :
  open_path a -> b <> ""%string -> has_char slash b = false ->
  path_join a b = (a ++ "/" ++ b)%string /\ open_path (a ++ "/" ++ b)%string.
Proof.
  intros [Ha He] Hb Hs. unfold path_join.
  assert (Hp : String.prefix "/" b = false).
  { destruct b as [|q b]; [contradiction|]. cbn [has_char] in Hs.
    apply orb_false_iff in Hs as [Hq _]. cbn [String.prefix].
    match goal with
    | |- (if ?d then _ else _) = false => destruct d as [Heq|]; [|reflexivity]
    end.
    rewrite <- Heq in Hq. discriminate Hq. }
  rewrite Hp, He. assert (Ha' := Ha). apply String.eqb_neq in Ha'.
  rewrite Ha'. cbn [orb].
  split; [reflexivity|]. split.
  - destruct a; [contradiction Ha; reflexivity|rewrite app_cons_s; discriminate].
  - rewrite ends_with_app by discriminate.
    change ("/" ++ b)%string with (String slash b).
    destruct b as [|q b]; [contradiction|].
    change (ends_with slash (String slash (String q b)))
      with (ends_with slash (String q b)).
    apply ends_with_has_char, Hs.
Qed.

Lemma path_join_root (base : string) :
  exists root,
    path_join base "audit_indexes" = (root ++ "audit_indexes")%string
    /\ open_path (root ++ "audit_indexes")%string.
Proof.
  unfold path_join. cbn [String.prefix].
  destruct (Ascii.ascii_dec _ _) as [Heq|_]; [discriminate Heq|].
  assert (Hopen : forall r, open_path (r ++ "audit_indexes")%string).
  { intros r. split.
    - destruct r; [discriminate|rewrite app_cons_s; discriminate].
    - rewrite ends_with_app by discriminate. reflexivity. }
  destruct (orb _ _).
  - exists base. split; [reflexivity|apply Hopen].
  - exists (base ++ "/")%string. rewrite string_app_assoc.
    split; [reflexivity|]. rewrite <- string_app_assoc. apply Hopen.
Qed.

(** The normal form of an index path under a base directory. *)
Lemma index_path_normal_form (base : string) :
  exists root, forall fw a t,
    t <> ""%string -> has_char slash t = false ->
    _get_json_index_path base fw a t
    = (root ++ "framework_" ++ pretty fw ++ String slash
         ("audit_" ++ pretty a ++ String slash (t ++ "_analysis.json")))%string.
Proof.
  destruct (path_join_root base) as (root & Hroot & Hopen).
  exists (root ++ "audit_indexes/")%string. intros fw a t Ht Hts.
  unfold _get_json_index_path. rewrite Hroot.
  destruct (pretty_Z_has_no_separator fw) as [Hfw _].
  destruct (pretty_Z_has_no_separator a) as [Ha _].
  destruct (path_join_plain (root ++ "audit_indexes") ("framework_" ++ pretty fw)
              Hopen) as [-> Hopen1]; [discriminate| |].
  { rewrite has_char_app, Hfw. reflexivity. }
  destruct (path_join_plain _ ("audit_" ++ pretty a) Hopen1) as [-> Hopen2];
    [discriminate| |].
  { rewrite has_char_app, Ha. reflexivity. }
  destruct (path_join_plain _ (t ++ "_analysis.json") Hopen2) as [-> _].
  { destruct t; [contradiction Ht; reflexivity|rewrite app_cons_s; discriminate]. }
  { rewrite has_char_app, Hts. reflexivity. }
  rewrite !string_app_assoc. reflexivity.
Qed.

(** X21: under one base directory, the index files of two audits, two
    frameworks or the two kinds of index never share a path, and the
    path auto-processing reads the documents index from is the path the
    index writer writes it to. *)
Theorem X21_index_paths_identify_the_audit (base : string) :
  (forall fw a t fw' a' t',
     t ∈ ["documents"; "database"]%string ->
     t' ∈ ["documents"; "database"]%string ->
     _get_json_index_path base fw a t = _get_json_index_path base fw' a' t' ->
     fw = fw' /\ a = a' /\ t = t')
  /\ (forall fw a,
        auto_process_json_path base fw a
        = _get_json_index_path base fw a "documents").
Proof.
  split; [|reflexivity].
  destruct (index_path_normal_form base) as [root Hnf].
  intros fw a t fw' a' t' Ht Ht' Heq.
  assert (Hkind : forall k, k ∈ ["documents"; "database"]%string ->
            k <> ""%string /\ has_char slash k = false).
  { intros k Hk. repeat (apply elem_of_cons in Hk as [->|Hk]);
      [split; [discriminate|reflexivity]..|inversion Hk]. }
  destruct (Hkind t Ht) as [H1 H2]. destruct (Hkind t' Ht') as [H1' H2'].
  rewrite (Hnf fw a t H1 H2), (Hnf fw' a' t' H1' H2') in Heq.
  apply string_app_inv_head in Heq.
  apply (string_app_inv_head "framework_") in Heq.
  destruct (pretty_Z_has_no_separator fw) as [Hfw _].
  destruct (pretty_Z_has_no_separator fw') as [Hfw' _].
  apply (split_at_first slash _ _ _ _ Hfw Hfw') in Heq as [Hpf Heq].
  apply (inj pretty) in Hpf.
  apply (string_app_inv_head "audit_") in Heq.
  destruct (pretty_Z_has_no_separator a) as [Ha _].
  destruct (pretty_Z_has_no_separator a') as [Ha' _].
  apply (split_at_first slash _ _ _ _ Ha Ha') in Heq as [Hpa Heq].
  apply (inj pretty) in Hpa.
  split; [exact Hpf|]. split; [exact Hpa|].
  repeat (apply elem_of_cons in Ht as [->|Ht]);
    repeat (apply elem_of_cons in Ht' as [->|Ht']);
    try reflexivity; try discriminate Heq; try inversion Ht; inversion Ht'.
Qed.

Lemma aget_key {V} (k : string) (v : V) (d : list (string * V)) :
  aget k d = Some v -> k ∈ map fst d.
Proof.
  induction d as [|[k' v'] d IH]; simpl; [discriminate|].
  destruct (String.eqb k k') eqn:Hk.
  - apply String.eqb_eq in Hk. subst. intros _. left.
  - intros H. right. apply IH, H.
Qed.

(** X22: the external id of a database evidence row names its table
    and record: for the seven evidence tables, two rows have the same
    external id only when table and record id are the same. *)
Theorem X22_external_ids_identify_table_and_record (t t' : string)
  (rid rid' : Z) :
  is_Some (aget t pk_fields) -> is_Some (aget t' pk_fields) ->
  db_external_id t rid = db_external_id t' rid' ->
  t = t' /\ rid = rid'.
Proof.
  assert (Htable : forall k, is_Some (aget k pk_fields) ->
            has_char colon k = false).
  { intros k [v Hk]. apply aget_key in Hk.
    repeat (apply elem_of_cons in Hk as [->|Hk]); try reflexivity.
    inversion Hk. }
  intros Ht Ht' Heq. unfold db_external_id in Heq.
  change (":" ++ pretty rid)%string with (String colon (pretty rid)) in Heq.
  change (":" ++ pretty rid')%string with (String colon (pretty rid')) in Heq.
  apply (split_at_first colon _ _ _ _ (Htable t Ht) (Htable t' Ht')) in Heq
    as [-> Hp].
  split; [reflexivity|]. apply (inj pretty). exact Hp.
Qed.

Lemma X22_witness : "incidents"%string = "incidents"%string /\ 7 = 7.
Proof.
  apply (X22_external_ids_identify_table_and_record "incidents" "incidents" 7 7).
  - eexists. reflexivity.
  - eexists. reflexivity.
  - reflexivity.
Defined.

(** ** The cost of correlating one audit *)

Lemma calls_bind {A B} (n1 n2 : nat) (m : M A) (k : A -> M B) (w : World) :
  (ollama_calls w <= ollama_calls (snd (m w)) <= ollama_calls w + n1)%nat ->
  (forall a w1, m w = (Ok a, w1) ->
     (ollama_calls w1 <= ollama_calls (snd (k a w1)) <= ollama_calls w1 + n2)%nat) ->
  (ollama_calls w <= ollama_calls (snd (bind m k w))
   <= ollama_calls w + (n1 + n2))%nat.
Proof.
  intros Hm Hk. unfold bind. destruct (m w) as [[a|] w1] eqn:Hmw; simpl in *.
  - specialize (Hk a w1 eq_refl). lia.
  - lia.
Qed.

Lemma calls_for_each {A} (xs : list A) (body : A -> M unit) :
  (forall x w, (ollama_calls w <= ollama_calls (snd (body x w))
                <= ollama_calls w + 1)%nat) ->
  forall w, (ollama_calls w <= ollama_calls (snd (for_each xs body w))
             <= ollama_calls w + length xs)%nat.
Proof.
  intros Hbody. induction xs as [|x xs IH]; intros w; simpl; [lia|].
  apply (calls_bind 1 (length xs)); [apply Hbody|]. intros _ w1 _. apply IH.
Qed.

Lemma bind_gets {A B} (f : World -> A) (k : A -> M B) (w : World) :
  bind (gets f) k w = k (f w) w.
Proof. reflexivity. Qed.

Lemma calls_same (w w' : World) :
  ollama_calls w' = ollama_calls w ->
  (ollama_calls w <= ollama_calls w' <= ollama_calls w + 0)%nat.
Proof. lia. Qed.

Lemma update_document_index_calls fw a op res k n (w : World) :
  ollama_calls (_update_json_index_document fw a op res k n w) = ollama_calls w.
Proof.
  unfold _update_json_index_document, _save_json_index_documents.
  cbn [di_audit_id di_framework_id]. destruct (andb _ _); reflexivity.
Qed.

Lemma update_database_index_calls fw a t rid res (w : World) :
  ollama_calls (_update_json_index_database fw a t rid res w) = ollama_calls w.
Proof.
  unfold _update_json_index_database, _save_json_index_database.
  cbn [bi_audit_id bi_framework_id]. destruct (andb _ _); reflexivity.
Qed.

Lemma store_relevance_calls (E : env) op a res k n (w : World) :
  ollama_calls (_store_audit_relevance E op a res k n w) = ollama_calls w.
Proof.
  unfold _store_audit_relevance.
  destruct (negb (db_pool (static w))); [reflexivity|].
  destruct (py_float _ _); [|reflexivity].
  destruct (dget_or "relevance_reason" _ _); reflexivity.
Qed.

Lemma index_db_results_calls fw a results (w : World) :
  ollama_calls (index_db_results fw a results w) = ollama_calls w.
Proof.
  unfold index_db_results. revert w.
  induction results as [|[t analyses] results IH]; intros w; [reflexivity|].
  cbn [fold_left]. rewrite IH. clear IH. revert w.
  induction analyses as [|x analyses IH]; intros w; [reflexivity|].
  cbn [fold_left]. rewrite IH.
  destruct (ra_record_id x =? 0); [reflexivity|].
  apply update_database_index_calls.
Qed.

Lemma analyze_document_relevance_calls (E : env) summary ad (w : World) :
  (ollama_calls w
   <= ollama_calls (snd (_analyze_document_audit_relevance E summary ad w))
   <= ollama_calls w + 1)%nat.
Proof.
  unfold _analyze_document_audit_relevance.
  destruct summary; [|simpl; lia].
  unfold bind. rewrite call_ollama_eq.
  destruct (ollama E (ollama_calls w)) as [[|kv d]|]; simpl; lia.
Qed.

Lemma analyze_document_calls (E : env) fw a summary ad docs doc (w : World) :
  (ollama_calls w
   <= ollama_calls (snd (analyze_document E fw a summary ad docs doc w))
   <= ollama_calls w + 1)%nat.
Proof.
  unfold analyze_document.
  destruct (already_analyzed docs doc); [simpl; lia|].
  assert (Hgo : forall s,
    (ollama_calls w
     <= ollama_calls
          (snd ((relevance_result <-
                   _analyze_document_audit_relevance E s ad ;;
                 match relevance_result with
                 | None | Some [] => ret tt
                 | Some relevance_result =>
                     modify (_update_json_index_document fw a (fo_id doc)
                               relevance_result (fo_s3_key doc)
                               (fo_stored_name doc)) ;;;
                     match py_ge_float
                             (dget_or "relevance_score" (PInt 0)
                                relevance_result) f0_6 with
                     | None => raise
                     | Some true =>
                         modify (_store_audit_relevance E (fo_id doc) a
                                   relevance_result (fo_s3_key doc)
                                   (fo_stored_name doc))
                     | Some false => ret tt
                     end
                 end) w))
     <= ollama_calls w + 1)%nat).
  { intros s. apply (calls_bind 1 0);
      [apply analyze_document_relevance_calls|].
    intros r w1 _. destruct r as [[|kv d]|]; try (simpl; lia).
    apply (calls_bind 0 0).
    { apply calls_same, update_document_index_calls. }
    intros _ w2 _. destruct (py_ge_float _ _) as [[|]|]; try (simpl; lia).
    apply calls_same, store_relevance_calls. }
  destruct (fo_metadata doc) as [|[|]]; try (simpl; lia);
    (destruct (fo_file_name doc); [apply Hgo|simpl; lia]).
Qed.

(** X23: correlating one audit calls the reasoning service at most once
    per document of the framework and at most fifty times per evidence
    table, and only for the rows the database index does not hold yet. *)
Theorem X23_cost_of_correlating_one_audit (E : env) (framework_id : Z)
  (summary : option string) (all_documents : list file_op)
  (all_database_data : list (string * list dict)) (audit : audit_row)
  (w : World) :
  (ollama_calls w
   <= ollama_calls
        (snd (analyze_audit E framework_id summary all_documents
                all_database_data audit w))
   <= ollama_calls w + length all_documents
      + analysis_budget
          (rows_to_analyze E framework_id (AuditId audit) w all_database_data))%nat.
Proof.
  unfold analyze_audit.
  destruct (a_Title audit); [|simpl; lia].
  rewrite !bind_gets.
  fold (rows_to_analyze E framework_id (AuditId audit) w all_database_data).
  set (rows := rows_to_analyze E framework_id (AuditId audit) w all_database_data).
  rewrite <- Nat.add_assoc.
  apply (calls_bind (length all_documents) (analysis_budget rows)).
  { apply calls_for_each. intros doc w1. apply analyze_document_calls. }
  intros _ w1 _.
  replace (analysis_budget rows) with (analysis_budget rows + 0)%nat by lia.
  apply (calls_bind (analysis_budget rows) 0).
  { destruct rows as [|row rows'] eqn:Hrows; [simpl; lia|].
    rewrite <- Hrows.
    unfold _analyze_database_data_relevance.
    destruct (analyze_tables_calls E rows empty_results w1) as (n & -> & Hn & _).
    cbn [ollama_calls set_ollama_calls]. lia. }
  intros db_results w2 _.
  apply (calls_bind 0 0).
  { apply calls_same, index_db_results_calls. }
  intros _ w3 _. apply (calls_bind 0 0); [simpl; lia|].
  intros db_index w4 Hg. unfold gets in Hg. inversion Hg; subst.
  apply (calls_bind 0 0).
  { apply calls_same.
    destruct (create_evidence_results_invariant E
                (if id_truthy (ad_framework_id (_get_audit_details (AuditId audit) w))
                 then ad_framework_id (_get_audit_details (AuditId audit) w)
                 else Some framework_id)
                (AuditId audit) (database_data (_load_json_index_database framework_id (AuditId audit) w4)) w4)
      as [(_ & _ & _ & Hc) _]. exact Hc. }
  intros _ w5 _. apply calls_same.
  destruct (aggregate_invariant (AuditId audit)
              (documents (_load_json_index_documents framework_id (AuditId audit) w))
              (database_data (_load_json_index_database framework_id (AuditId audit) w4)) w5)
    as [(_ & _ & _ & Hc) _]. exact Hc.
Qed.
